(* ===================================================================== *)
(*  Findupbitjewel: the altcoin screener                                 *)
(*                                                                       *)
(*  Shallow embedding of                                                 *)
(*    src/analysis/altcoin_screener.py  (ScreenerCriteria,               *)
(*                                       UpbitAltcoinScreener)           *)
(*    src/analysis/technical.py         (TechnicalAnalyzer: RSI, CCI,    *)
(*                                       stochastic, volume indicators,  *)
(*                                       trading signals)                *)
(*    src/data/collector.py             (UpbitDataCollector)             *)
(*    src/main.py                       (the criteria of find_gems)      *)
(*  and the properties of the screening pipeline proved about it.        *)
(*                                                                       *)
(*  Numbers.  Python floats and numpy float64 are modelled by [fval]:    *)
(*  an exact rational, one of the two infinities, or NaN.  Finite        *)
(*  results are exact (no rounding) and there is a single zero; the      *)
(*  special values follow IEEE 754 as pandas/numpy apply it.             *)
(* ===================================================================== *)

From Stdlib Require Import QArith Qabs Lqa Lia List Bool Sorted.
From stdpp Require Import gmap strings list.

Local Open Scope Q_scope.

(* ===================================================================== *)
(*  Part I.  Definitions                                                 *)
(* ===================================================================== *)

(* --------------------------------------------------------------------- *)
(*  Floating-point values                                                *)
(* --------------------------------------------------------------------- *)

Module PyFloat.

Inductive fval : Type :=
| Fin (q : Q)
| PInf
| NInf
| NaN.

Definition Qltb (x y : Q) : bool := negb (Qle_bool y x).

Definition is_nan (x : fval) : bool :=
  match x with NaN => true | _ => false end.

Definition is_finite (x : fval) : bool :=
  match x with Fin _ => true | _ => false end.

(* [x < y], [x <= y], [x == y]: every comparison with NaN is False. *)
Definition flt (x y : fval) : bool :=
  match x, y with
  | NaN, _ | _, NaN => false
  | Fin a, Fin b => Qltb a b
  | NInf, NInf => false
  | NInf, _ => true
  | Fin _, PInf => true
  | _, _ => false
  end.

Definition fle (x y : fval) : bool :=
  match x, y with
  | NaN, _ | _, NaN => false
  | Fin a, Fin b => Qle_bool a b
  | NInf, _ => true
  | _, PInf => true
  | _, _ => false
  end.

Definition feqb (x y : fval) : bool :=
  match x, y with
  | Fin a, Fin b => Qeq_bool a b
  | PInf, PInf | NInf, NInf => true
  | _, _ => false
  end.

Definition fgt (x y : fval) : bool := flt y x.
Definition fge (x y : fval) : bool := fle y x.

Definition fneg (x : fval) : fval :=
  match x with
  | Fin a => Fin (- a)
  | PInf => NInf
  | NInf => PInf
  | NaN => NaN
  end.

(* abs(x) *)
Definition fabs (x : fval) : fval :=
  match x with
  | Fin a => Fin (Qabs a)
  | PInf | NInf => PInf
  | NaN => NaN
  end.

Definition fadd (x y : fval) : fval :=
  match x, y with
  | NaN, _ | _, NaN => NaN
  | Fin a, Fin b => Fin (a + b)
  | PInf, NInf | NInf, PInf => NaN
  | PInf, _ | _, PInf => PInf
  | NInf, _ | _, NInf => NInf
  end.

Definition fsub (x y : fval) : fval := fadd x (fneg y).

(* The infinity with the sign of [a] times the sign of the infinity
   [pos]; 0 * inf is NaN. *)
Definition inf_signed (a : Q) (pos : bool) : fval :=
  if Qeq_bool a 0 then NaN
  else if xorb (Qltb 0 a) pos then NInf else PInf.

Definition fmul (x y : fval) : fval :=
  match x, y with
  | NaN, _ | _, NaN => NaN
  | Fin a, Fin b => Fin (a * b)
  | Fin a, PInf | PInf, Fin a => inf_signed a true
  | Fin a, NInf | NInf, Fin a => inf_signed a false
  | PInf, PInf | NInf, NInf => PInf
  | PInf, NInf | NInf, PInf => NaN
  end.

(* numpy / pandas division: no exception, x/0 is an infinity and 0/0 is
   NaN.  (With the single zero of the model a zero divisor counts as
   +0.0.) *)
Definition fdiv (x y : fval) : fval :=
  match x, y with
  | NaN, _ | _, NaN => NaN
  | Fin a, Fin b =>
      if Qeq_bool b 0 then
        if Qeq_bool a 0 then NaN else if Qltb 0 a then PInf else NInf
      else Fin (a / b)
  | Fin _, (PInf | NInf) => Fin 0
  | (PInf | NInf), (PInf | NInf) => NaN
  | PInf, Fin b => if Qltb b 0 then NInf else PInf
  | NInf, Fin b => if Qltb b 0 then PInf else NInf
  end.

(* Python's own [x / y] on floats: ZeroDivisionError ([None]) when the
   divisor is zero. *)
Definition py_truediv (x y : fval) : option fval :=
  match y with
  | Fin b => if Qeq_bool b 0 then None else Some (fdiv x y)
  | _ => Some (fdiv x y)
  end.

(* Python's builtin min(a, b) and max(a, b): the first argument is kept
   unless the second is strictly smaller (resp. larger). *)
Definition py_min (a b : fval) : fval := if flt b a then b else a.
Definition py_max (a b : fval) : fval := if fgt b a then b else a.

(* sum(xs) / len(xs) with numpy semantics ([NaN] for no elements). *)
Definition fsum (xs : list fval) : fval := fold_left fadd xs (Fin 0).

Definition fmean (xs : list fval) : fval :=
  fdiv (fsum xs) (Fin (inject_Z (Z.of_nat (length xs)))).

(* [x] is at most the rational [q]; holds for -inf, fails for NaN. *)
Definition fval_le_Q (x : fval) (q : Q) : Prop :=
  match x with
  | Fin a => a <= q
  | NInf => True
  | PInf | NaN => False
  end.

(* [x] is a finite number inside [lo, hi]. *)
Definition fval_in (x : fval) (lo hi : Q) : Prop :=
  match x with
  | Fin a => lo <= a /\ a <= hi
  | _ => False
  end.

End PyFloat.

Import PyFloat.

(* --------------------------------------------------------------------- *)
(*  altcoin_screener.py: ScreenerCriteria                                *)
(* --------------------------------------------------------------------- *)

Record ScreenerCriteria : Type := {
  exchange : string;
  base_currency : string;
  min_daily_volume_krw : Q;
  max_listing_days : nat;
  min_decline_from_ath : Q;
  volatility_min : Q;
  volatility_max : Q;
  cci_min : Q;
  cci_max : Q;
  cci_period : nat;
  rsi_min : Q;
  rsi_max : Q;
  rsi_period : nat;
  min_market_cap_krw : Q;
  max_market_cap_krw : Q;
  volume_growth_min : Q;
  volume_growth_days : nat;
  max_consecutive_decline : nat;
  max_recent_spike : Q;
  recent_spike_days : nat;
  require_above_ma : bool;
  ma_period : nat
}.

(* ScreenerCriteria() with every field at its dataclass default. *)
Definition default_criteria : ScreenerCriteria := {|
  exchange := "UPBIT";
  base_currency := "KRW";
  min_daily_volume_krw := 100000000;
  max_listing_days := 1648;
  min_decline_from_ath := 30;
  volatility_min := 10;
  volatility_max := 150;
  cci_min := -200;
  cci_max := 200;
  cci_period := 20;
  rsi_min := 20;
  rsi_max := 80;
  rsi_period := 14;
  min_market_cap_krw := 10000000000;
  max_market_cap_krw := 500000000000;
  volume_growth_min := 50;
  volume_growth_days := 7;
  max_consecutive_decline := 5;
  max_recent_spike := 30;
  recent_spike_days := 3;
  require_above_ma := true;
  ma_period := 20
|}.

(* --------------------------------------------------------------------- *)
(*  Python values, dictionaries, exceptions, slices                      *)
(* --------------------------------------------------------------------- *)

Module Py.

(* The values found in the dictionaries the collector builds and in the
   JSON payloads of the exchange. *)
Inductive pyval : Type :=
| PNum (x : fval)
| PBool (b : bool)
| PStr (s : string)
| PNone.

(* A dict with string keys; [{}] is the empty map. *)
Abbreviation dict := (gmap string pyval).

(* d.get(key, default) *)
Definition dict_get (d : dict) (key : string) (dflt : pyval) : pyval :=
  default dflt (d !! key).

(* d[key]: KeyError ([None]) when the key is absent. *)
Definition dict_item (d : dict) (key : string) : option pyval := d !! key.

(* not d *)
Definition dict_is_empty (d : dict) : bool := bool_decide (size d = 0%nat).

(* Truth value of an object, as [if x] and [not x] take it. *)
Definition truthy (v : pyval) : bool :=
  match v with
  | PNum x => negb (feqb x (Fin 0))
  | PBool b => b
  | PStr s => negb (String.eqb s "")
  | PNone => false
  end.

(* The number an arithmetic operator or an ordering comparison sees.
   bool is an int subclass; a str or None operand raises TypeError
   ([None]). *)
Definition as_num (v : pyval) : option fval :=
  match v with
  | PNum x => Some x
  | PBool b => Some (Fin (if b then 1 else 0))
  | PStr _ | PNone => None
  end.

(* try: body  except Exception: return handler *)
Definition try_except {A : Type} (body : option A) (handler : A) : A :=
  default handler body.

(* A slice bound: negative indices count from the end; both are clipped
   to the sequence. *)
Definition norm_index (len : nat) (i : Z) : nat :=
  if (i <? 0)%Z then Z.to_nat (Z.max 0 (Z.of_nat len + i))
  else Nat.min len (Z.to_nat i).

(* l[start:stop] and l[start:] *)
Definition slice {A : Type} (l : list A) (start stop : Z) : list A :=
  let a := norm_index (length l) start in
  let b := norm_index (length l) stop in
  firstn (b - a) (skipn a l).

Definition slice_from {A : Type} (l : list A) (start : Z) : list A :=
  skipn (norm_index (length l) start) l.

(* s.replace(old, "") for a non-empty [old]: the occurrences are removed
   from left to right; [fuel] bounds the scan by the length of [s]. *)
Fixpoint str_remove_fuel (fuel : nat) (old s : string) : string :=
  match fuel with
  | O => s
  | S fuel' =>
      match s with
      | EmptyString => EmptyString
      | String ch rest =>
          if String.prefix old s
          then str_remove_fuel fuel' old
                 (String.substring (String.length old)
                    (String.length s - String.length old) s)
          else String ch (str_remove_fuel fuel' old rest)
      end
  end.

Definition str_remove (old s : string) : string :=
  str_remove_fuel (String.length s) old s.

End Py.

Import Py.

(* --------------------------------------------------------------------- *)
(*  pandas: Series and DataFrame                                         *)
(* --------------------------------------------------------------------- *)

Module Pandas.

(* A float64 Series is the list of its values in index order. *)
Abbreviation Series := (list fval).

(* One row of the OHLCV frame get_ohlcv_dataframe builds. *)
Record Row : Type := {
  row_open : fval;
  row_high : fval;
  row_low : fval;
  row_close : fval;
  row_volume : fval
}.

Inductive column : Type :=
| NumCol (values : Series)
| StrCol (labels : list string).

(* The OHLCV columns, one entry per row, and the columns added to the
   frame afterwards, by name.  pd.DataFrame() has neither. *)
Record DataFrame : Type := {
  rows : list Row;
  computed : gmap string column
}.

Definition empty_frame : DataFrame := {| rows := []; computed := ∅ |}.

(* df.empty *)
Definition df_empty (df : DataFrame) : bool :=
  match rows df with [] => true | _ => false end.

(* df[name] = values : the values are aligned on the index of the frame,
   positions without a value hold NaN. *)
Definition align (n : nat) (values : Series) : Series :=
  firstn n values ++ repeat NaN (n - length values).

Definition set_num (df : DataFrame) (name : string) (values : Series)
  : DataFrame :=
  {| rows := rows df;
     computed := <[name := NumCol (align (length (rows df)) values)]>
                   (computed df) |}.

Definition set_str (df : DataFrame) (name : string) (labels : list string)
  : DataFrame :=
  {| rows := rows df; computed := <[name := StrCol labels]> (computed df) |}.

(* df[name] for a computed numeric column; [None] when the column is
   absent. *)
Definition get_num (df : DataFrame) (name : string) : option Series :=
  match computed df !! name with
  | Some (NumCol values) => Some values
  | _ => None
  end.

(* s.iloc[-1]; [None] on an empty Series. *)
Definition iloc_last (s : Series) : option fval := last s.

(* s.diff(): the first entry has no predecessor. *)
Definition diff (s : Series) : Series :=
  match s with
  | [] => []
  | _ :: rest => NaN :: zip_with fsub rest s
  end.

(* s.pct_change() *)
Definition pct_change (s : Series) : Series :=
  match s with
  | [] => []
  | _ :: rest => NaN :: zip_with (fun cur prev => fsub (fdiv cur prev) (Fin 1)) rest s
  end.

(* s.where(cond, other) *)
Definition where_ (cond : fval -> bool) (other : fval) (s : Series) : Series :=
  map (fun x => if cond x then x else other) s.

(* The [w] values ending at position [i]. *)
Definition window_at {A : Type} (w i : nat) (s : list A) : list A :=
  firstn w (skipn (i + 1 - w) s).

(* s.rolling(window=w).apply(f, raw=True): no value before a full window
   is available. *)
Definition rolling_apply (w : nat) (f : Series -> fval) (s : Series) : Series :=
  map (fun i => if (i + 1 <? w)%nat then NaN else f (window_at w i s))
      (seq 0 (length s)).

(* s.rolling(window=w).mean() *)
Definition rolling_mean (w : nat) (s : Series) : Series :=
  rolling_apply w fmean s.

(* min and max of a window, as rolling(...).min() and .max() take them:
   a window with a NaN, or with no value, has none. *)
Definition series_min (x : Series) : fval :=
  if existsb is_nan x then NaN
  else
    match x with
    | [] => NaN
    | v :: rest => fold_left (fun m y => if flt y m then y else m) rest v
    end.

Definition series_max (x : Series) : fval :=
  if existsb is_nan x then NaN
  else
    match x with
    | [] => NaN
    | v :: rest => fold_left (fun m y => if flt m y then y else m) rest v
    end.

(* s.rolling(window=w).min() and s.rolling(window=w).max() *)
Definition rolling_min (w : nat) (s : Series) : Series :=
  rolling_apply w series_min s.

Definition rolling_max (w : nat) (s : Series) : Series :=
  rolling_apply w series_max s.

(* s.cumsum(): a NaN is skipped, its position holds NaN. *)
Fixpoint cumsum_from (total : fval) (s : Series) : Series :=
  match s with
  | [] => []
  | x :: rest =>
      if is_nan x then NaN :: cumsum_from total rest
      else fadd total x :: cumsum_from (fadd total x) rest
  end.

Definition cumsum (s : Series) : Series := cumsum_from (Fin 0) s.

(* df[name] for a computed column of labels. *)
Definition get_str (df : DataFrame) (name : string) : option (list string) :=
  match computed df !! name with
  | Some (StrCol labels) => Some labels
  | _ => None
  end.

End Pandas.

Import Pandas.

(* --------------------------------------------------------------------- *)
(*  technical.py: TechnicalAnalyzer (RSI and CCI)                        *)
(* --------------------------------------------------------------------- *)

Module TechnicalAnalyzer.

(* The optional third-party package [ta]: the two indicators the
   analyzer asks it for.  A call may raise ([None]). *)
Record TaLib : Type := {
  (* ta.momentum.RSIIndicator(close, window).rsi() *)
  RSIIndicator_rsi : Series -> nat -> option Series;
  (* ta.trend.CCIIndicator(high, low, close, window).cci() *)
  CCIIndicator_cci : Series -> Series -> Series -> nat -> option Series
}.

Definition _calculate_rsi_manual (prices : Series) (period : nat) : Series :=
  let delta := diff prices in
  let gain := rolling_mean period (where_ (fun d => fgt d (Fin 0)) (Fin 0) delta) in
  let loss :=
    rolling_mean period (map fneg (where_ (fun d => flt d (Fin 0)) (Fin 0) delta)) in
  let rs := zip_with fdiv gain loss in
  map (fun r => fsub (Fin 100) (fdiv (Fin 100) (fadd (Fin 1) r))) rs.

Definition rsi_signal (x : fval) : string :=
  if flt x (Fin 30) then "oversold"
  else if fgt x (Fin 70) then "overbought"
  else "neutral".

Definition calculate_rsi (ta : option TaLib) (df : DataFrame) (period : nat)
  : DataFrame :=
  let close := map row_close (rows df) in
  try_except
    (rsi ← match ta with
           | Some lib => RSIIndicator_rsi lib close period
           | None => Some (_calculate_rsi_manual close period)
           end;
     let df1 := set_num df "RSI" rsi in
     Some (set_str df1 "RSI_signal"
             (map rsi_signal (default [] (get_num df1 "RSI")))))
    df.

(* np.mean(np.abs(x - x.mean())) *)
Definition mean_abs_deviation (x : Series) : fval :=
  fmean (map (fun v => fabs (fsub v (fmean x))) x).

Definition typical_price (df : DataFrame) : Series :=
  map (fun r => fdiv (fadd (fadd (row_high r) (row_low r)) (row_close r)) (Fin 3))
      (rows df).

Definition cci_manual (df : DataFrame) (period : nat) : Series :=
  let tp := typical_price df in
  let sma_tp := rolling_mean period tp in
  let mean_deviation := rolling_apply period mean_abs_deviation tp in
  zip_with fdiv (zip_with fsub tp sma_tp)
           (map (fmul (Fin 0.015)) mean_deviation).

Definition cci_signal (x : fval) : string :=
  if flt x (Fin (-100)) then "oversold"
  else if fgt x (Fin 100) then "overbought"
  else "neutral".

Definition calculate_cci (ta : option TaLib) (df : DataFrame) (period : nat)
  : DataFrame :=
  try_except
    (cci ← match ta with
           | Some lib =>
               CCIIndicator_cci lib (map row_high (rows df))
                 (map row_low (rows df)) (map row_close (rows df)) period
           | None => Some (cci_manual df period)
           end;
     let df1 := set_num df "CCI" cci in
     Some (set_str df1 "CCI_signal"
             (map cci_signal (default [] (get_num df1 "CCI")))))
    df.

(* The stochastic oscillator of the package [ta]; a call may raise. *)
Record TaStochastic : Type := {
  (* StochasticOscillator(high, low, close, window, smooth_window).stoch() *)
  StochasticOscillator_stoch :
    Series -> Series -> Series -> nat -> nat -> option Series;
  (* ... .stoch_signal() *)
  StochasticOscillator_stoch_signal :
    Series -> Series -> Series -> nat -> nat -> option Series
}.

(* 100 * (close - lowest_low) / (highest_high - lowest_low) *)
Definition stoch_k_manual (df : DataFrame) (k_period : nat) : Series :=
  let lowest_low := rolling_min k_period (map row_low (rows df)) in
  let highest_high := rolling_max k_period (map row_high (rows df)) in
  zip_with fdiv
    (map (fmul (Fin 100)) (zip_with fsub (map row_close (rows df)) lowest_low))
    (zip_with fsub highest_high lowest_low).

(* The label is "neutral", then "overbought" where both lines are above
   80, then "oversold" where both are below 20: the later assignment
   wins. *)
Definition stoch_signal (k d : fval) : string :=
  if flt k (Fin 20) && flt d (Fin 20) then "oversold"
  else if fgt k (Fin 80) && fgt d (Fin 80) then "overbought"
  else "neutral".

(* The columns are assigned one after the other, in place: when a call
   of the package raises, the frame is returned with the columns
   assigned so far. *)
Definition calculate_stochastic (ta : option TaStochastic) (df : DataFrame)
  (k_period d_period : nat) : DataFrame :=
  let high := map row_high (rows df) in
  let low := map row_low (rows df) in
  let close := map row_close (rows df) in
  let signals (df2 : DataFrame) : DataFrame :=
    set_str df2 "Stoch_signal"
      (zip_with stoch_signal
         (default [] (get_num df2 "Stoch_K"))
         (default [] (get_num df2 "Stoch_D"))) in
  match ta with
  | Some lib =>
      match StochasticOscillator_stoch lib high low close k_period d_period with
      | None => df
      | Some stoch_k =>
          let df1 := set_num df "Stoch_K" stoch_k in
          match StochasticOscillator_stoch_signal lib high low close
                  k_period d_period with
          | None => df1
          | Some stoch_d => signals (set_num df1 "Stoch_D" stoch_d)
          end
      end
  | None =>
      let df1 := set_num df "Stoch_K" (stoch_k_manual df k_period) in
      signals
        (set_num df1 "Stoch_D"
           (rolling_mean d_period (default [] (get_num df1 "Stoch_K"))))
  end.

Definition volume_signal (ratio : fval) : string :=
  if flt ratio (Fin 0.5) then "low"
  else if fgt ratio (Fin 2) then "high"
  else "normal".

(* (df['close'].diff() > 0).astype(int) * df['volume'] *)
Definition up_day_volume (df : DataFrame) : Series :=
  zip_with (fun change volume =>
              fmul (Fin (if fgt change (Fin 0) then 1 else 0)) volume)
           (diff (map row_close (rows df))) (map row_volume (rows df)).

Definition calculate_volume_indicators (df : DataFrame) : DataFrame :=
  let volume := map row_volume (rows df) in
  let df1 := set_num df "Volume_MA" (rolling_mean 20 volume) in
  let df2 :=
    set_num df1 "Volume_ratio"
      (zip_with fdiv volume (default [] (get_num df1 "Volume_MA"))) in
  let df3 := set_num df2 "OBV" (up_day_volume df) in
  let df4 := set_num df3 "OBV" (cumsum (default [] (get_num df3 "OBV"))) in
  set_str df4 "Volume_signal"
    (map volume_signal (default [] (get_num df4 "Volume_ratio"))).

(* sig in ['bullish', 'oversold'] and sig in ['bearish', 'overbought'] *)
Definition is_bullish_signal (sig : string) : bool :=
  String.eqb sig "bullish" || String.eqb sig "oversold".

Definition is_bearish_signal (sig : string) : bool :=
  String.eqb sig "bearish" || String.eqb sig "overbought".

(* latest[name] for the last row of a column of labels: IndexError on
   an empty frame, KeyError on a missing column ([None]). *)
Definition latest_label (df : DataFrame) (name : string) : option string :=
  match rows df with
  | [] => None
  | _ => labels ← get_str df name; last labels
  end.

Definition get_trading_signals (df : DataFrame) : gmap string string :=
  try_except
    (rsi ← latest_label df "RSI_signal";
     macd ← latest_label df "MACD_trend";
     bollinger ← latest_label df "BB_signal";
     stochastic ← latest_label df "Stoch_signal";
     volume ← latest_label df "Volume_signal";
     let signals := [rsi; macd; bollinger; stochastic; volume] in
     let bullish_signals := List.filter is_bullish_signal signals in
     let bearish_signals := List.filter is_bearish_signal signals in
     let overall :=
       if (3 <=? length bullish_signals)%nat then "strong_buy"
       else if (2 <=? length bullish_signals)%nat then "buy"
       else if (3 <=? length bearish_signals)%nat then "strong_sell"
       else if (2 <=? length bearish_signals)%nat then "sell"
       else "hold" in
     Some ({[ "rsi" := rsi; "macd" := macd; "bollinger" := bollinger;
              "stochastic" := stochastic; "volume" := volume;
              "overall" := overall ]} : gmap string string))
    {[ "overall" := "hold" ]}.

End TechnicalAnalyzer.

(* --------------------------------------------------------------------- *)
(*  The exchange REST API, as [requests.get] shows it                    *)
(* --------------------------------------------------------------------- *)

Record Candle : Type := {
  candle_date_time_utc : string;
  opening_price : Q;
  high_price : Q;
  low_price : Q;
  trade_price : Q;
  candle_acc_trade_price : Q;
  candle_acc_trade_volume : Q
}.

Record Ticker : Type := {
  ticker_market : string;
  ticker_trade_price : Q
}.

(* One snapshot of the exchange.  [None] is a request that raised or
   answered with a status other than 200. *)
Record Exchange : Type := {
  http_market_all : option (list string);
  http_ticker : list string -> option (list Ticker);
  http_candles_days : string -> nat -> option (list Candle)
}.

(* --------------------------------------------------------------------- *)
(*  The collector as the screener sees it                                *)
(* --------------------------------------------------------------------- *)

Module Collector.

(* The methods of [self.upbit_collector] the screener calls.  A call may
   raise ([None]). *)
Record api : Type := {
  get_krw_markets : option (list string);
  get_volume_info : string -> nat -> option dict;
  get_all_time_high : string -> option dict;
  calculate_volatility : string -> nat -> option fval;
  get_ohlcv_dataframe : string -> nat -> option DataFrame;
  get_market_cap : string -> option dict;
  get_volume_growth : string -> nat -> option dict;
  check_consecutive_decline : string -> nat -> option dict;
  (* called as check_recent_spike(market, spike_threshold=.., days=..) *)
  check_recent_spike : string -> Q -> nat -> option dict;
  get_price_vs_moving_average : string -> nat -> option dict;
  get_ticker_info : list string -> option (list Ticker);
  get_listing_info : string -> option dict
}.

End Collector.

(* --------------------------------------------------------------------- *)
(*  collector.py: UpbitDataCollector                                     *)
(* --------------------------------------------------------------------- *)

Module UpbitDataCollector.

Definition Qsum (l : list Q) : Q := fold_left Qplus l 0.

(* max(x :: l) and min(x :: l) *)
Definition Qlist_max (x : Q) (l : list Q) : Q :=
  fold_left (fun m y => if Qltb m y then y else m) l x.

Definition Qlist_min (x : Q) (l : list Q) : Q :=
  fold_left (fun m y => if Qltb y m then y else m) l x.

Definition num (q : Q) : pyval := PNum (Fin q).

Definition len_Q {A : Type} (l : list A) : Q := inject_Z (Z.of_nat (length l)).

Definition _calculate_volume_trend (volumes : list Q) : string :=
  if (length volumes <? 2)%nat then "neutral"
  else
    let recent_avg :=
      if (3 <=? length volumes)%nat then Qsum (firstn 3 volumes) / 3
      else hd 0 volumes in
    let older_avg :=
      if (3 <? length volumes)%nat
      then Qsum (skipn 3 volumes) / inject_Z (Z.of_nat (length volumes - 3))
      else List.last volumes 0 in
    if Qltb (older_avg * 1.2) recent_avg then "increasing"
    else if Qltb recent_avg (older_avg * 0.8) then "decreasing"
    else "stable".

(* The loop of check_consecutive_decline: candles are newest first; count
   the leading days whose price is below the day before, at most [n]. *)
Fixpoint count_declines (n : nat) (prices : list Q) : nat :=
  match n, prices with
  | S n', current_price :: (previous_price :: _) as rest =>
      if Qltb current_price previous_price
      then S (count_declines n' rest)
      else O
  | _, _ => O
  end.

Section WithExchange.

(* pandas' Series.std() and numpy's sqrt(252) take square roots, which
   the rationals do not have; they are parameters. *)
Variable series_std : Series -> fval.
Variable sqrt_252 : Q.

Variable ex : Exchange.

Definition get_all_markets : list string :=
  default [] (http_market_all ex).

Definition get_krw_markets : list string :=
  filter (fun market => String.prefix "KRW-" market = true) get_all_markets.

Definition get_ticker_info (markets : list string) : list Ticker :=
  match markets with
  | [] => []
  | _ => default [] (http_ticker ex markets)
  end.

Definition get_candles_daily (market : string) (count : nat) : list Candle :=
  default [] (http_candles_days ex market count).

Definition get_volume_info (market : string) (days : nat) : dict :=
  match get_candles_daily market days with
  | [] => ∅
  | first :: others =>
      let volumes := map candle_acc_trade_price (first :: others) in
      {[ "market" := PStr market;
         "avg_volume_krw" := num (Qsum volumes / len_Q volumes);
         "latest_volume_krw" := num (candle_acc_trade_price first);
         "max_volume_krw" :=
           num (Qlist_max (candle_acc_trade_price first)
                  (map candle_acc_trade_price others));
         "min_volume_krw" :=
           num (Qlist_min (candle_acc_trade_price first)
                  (map candle_acc_trade_price others));
         "volume_trend" := PStr (_calculate_volume_trend (firstn 7 volumes)) ]}
  end.

Definition get_ohlcv_dataframe (market : string) (days : nat) : DataFrame :=
  match get_candles_daily market days with
  | [] => empty_frame
  | candles =>
      {| rows :=
           map (fun candle =>
                  {| row_open := Fin (opening_price candle);
                     row_high := Fin (high_price candle);
                     row_low := Fin (low_price candle);
                     row_close := Fin (trade_price candle);
                     row_volume := Fin (candle_acc_trade_volume candle) |})
               candles;
         computed := ∅ |}
  end.

Definition get_all_time_high (market : string) : dict :=
  match get_candles_daily market 200 with
  | [] => ∅
  | first :: others =>
      let max_high := Qlist_max (high_price first) (map high_price others) in
      let current_price := trade_price first in
      try_except
        (ratio ← py_truediv (Fin (max_high - current_price)) (Fin max_high);
         Some ({[ "market" := PStr market;
                  "all_time_high" := num max_high;
                  "current_price" := num current_price;
                  "decline_from_ath" := PNum (fmul ratio (Fin 100)) ]} : dict))
        ∅
  end.

Definition calculate_volatility (market : string) (days : nat) : fval :=
  let df := get_ohlcv_dataframe market days in
  if df_empty df then Fin 0
  else
    let daily_return := pct_change (map row_close (rows df)) in
    fmul (fmul (series_std daily_return) (Fin sqrt_252)) (Fin 100).

Definition volume_growth_trend (growth_rate : fval) : string :=
  if fgt growth_rate (Fin 20) then "increasing"
  else if flt growth_rate (Fin (-20)) then "decreasing"
  else "stable".

Definition get_volume_growth (market : string) (days : nat) : dict :=
  let df := get_ohlcv_dataframe market (days * 2) in
  if df_empty df || (length (rows df) <? days * 2)%nat then ∅
  else
    let volume := map row_volume (rows df) in
    let recent_volume := fmean (slice_from volume (- Z.of_nat days)) in
    let previous_volume :=
      fmean (slice volume (- Z.of_nat (days * 2)) (- Z.of_nat days)) in
    let growth_rate :=
      if fgt previous_volume (Fin 0)
      then fmul (fdiv (fsub recent_volume previous_volume) previous_volume)
                (Fin 100)
      else Fin 0 in
    {[ "market" := PStr market;
       "recent_avg_volume" := PNum recent_volume;
       "previous_avg_volume" := PNum previous_volume;
       "growth_rate" := PNum growth_rate;
       "trend" := PStr (volume_growth_trend growth_rate) ]}.

(* The cache only short-cuts the construction of the same dictionary. *)
Definition get_listing_info (market : string) : dict :=
  let name := str_remove "-" (str_remove "KRW-" market) in
  {[ "korean_name" := PStr name;
     "english_name" := PStr name;
     "listing_date" := PNone;
     "total_supply" := PNone;
     "circulating_supply" := PNone ]}.

Definition market_cap_fallback : dict :=
  {[ "market_cap_krw" := num 50000000000; "estimated" := PBool true ]}.

Definition get_market_cap (market : string) : dict :=
  match get_ticker_info [market] with
  | [] => market_cap_fallback
  | first :: _ =>
      let current_price := ticker_trade_price first in
      {[ "market_cap_krw" := num (current_price * 1000000);
         "estimated" := PBool true;
         "current_price" := num current_price ]}
  end.

Definition no_decline : dict :=
  {[ "consecutive_decline" := num 0; "is_declining" := PBool false ]}.

Definition check_consecutive_decline (market : string) (days : nat) : dict :=
  let candles := get_candles_daily market (days * 2) in
  match candles with
  | [] => no_decline
  | _ =>
      if (length candles <? days)%nat then no_decline
      else
        let consecutive_count :=
          count_declines (Nat.min days (length candles - 1))
                         (map trade_price candles) in
        {[ "consecutive_decline" := num (inject_Z (Z.of_nat consecutive_count));
           "is_declining" := PBool (days <=? consecutive_count)%nat ]}
  end.

Definition no_position : dict :=
  {[ "position" := num 0; "ma_value" := num 0; "current_price" := num 0 ]}.

Definition get_price_vs_moving_average (market : string) (ma_period : nat)
  : dict :=
  let candles := get_candles_daily market (ma_period + 10) in
  match candles with
  | [] => no_position
  | first :: _ =>
      if (length candles <? ma_period)%nat then no_position
      else
        let current_price := trade_price first in
        let prices := map trade_price (firstn ma_period candles) in
        try_except
          (ma_value ← py_truediv (Fin (Qsum prices)) (Fin (len_Q prices));
           ratio ← py_truediv (fsub (Fin current_price) ma_value) ma_value;
           Some ({[ "position" := PNum (fmul ratio (Fin 100));
                    "ma_value" := PNum ma_value;
                    "current_price" := num current_price ]} : dict))
          no_position
  end.

Definition no_spike : dict :=
  {[ "spike_type" := PStr "none"; "max_change" := num 0 ]}.

(* The if/elif chain of check_recent_spike: the label a change that
   became the largest gets; a change of at most 10 % either way leaves
   the label as it was. *)
Definition spike_type_after (change_percent : fval) (spike_type : string)
  : string :=
  if fgt change_percent (Fin 20) then "strong_up"
  else if fgt change_percent (Fin 10) then "moderate_up"
  else if flt change_percent (Fin (-20)) then "strong_down"
  else if flt change_percent (Fin (-10)) then "moderate_down"
  else spike_type.

(* The loop of check_recent_spike over the newest [n] day-to-day
   changes; a previous price of zero raises ZeroDivisionError
   ([None]). *)
Fixpoint spike_loop (n : nat) (prices : list Q) (max_change : fval)
  (spike_type : string) : option (fval * string) :=
  match n, prices with
  | S n', current_price :: (previous_price :: _) as rest =>
      ratio ← py_truediv (Fin (current_price - previous_price))
                (Fin previous_price);
      let change_percent := fmul ratio (Fin 100) in
      if fgt (fabs change_percent) (fabs max_change)
      then spike_loop n' rest change_percent
             (spike_type_after change_percent spike_type)
      else spike_loop n' rest max_change spike_type
  | _, _ => Some (max_change, spike_type)
  end.

Definition check_recent_spike (market : string) (days : nat) : dict :=
  let candles := get_candles_daily market (days * 2) in
  match candles with
  | [] => no_spike
  | _ =>
      if (length candles <? days)%nat then no_spike
      else
        try_except
          (result ←
             spike_loop (Nat.min days (length candles - 1))
               (map trade_price candles) (Fin 0) "none";
           Some ({[ "spike_type" := PStr result.2;
                    "max_change" := PNum result.1 ]} : dict))
          no_spike
  end.

(* The object the screener holds.  No method of the collector lets an
   exception escape, except that check_recent_spike(self, market, days)
   has no parameter spike_threshold: the screener's call raises
   TypeError before the method runs. *)
Definition as_api : Collector.api := {|
  Collector.get_krw_markets := Some get_krw_markets;
  Collector.get_volume_info := fun market days => Some (get_volume_info market days);
  Collector.get_all_time_high := fun market => Some (get_all_time_high market);
  Collector.calculate_volatility :=
    fun market days => Some (calculate_volatility market days);
  Collector.get_ohlcv_dataframe :=
    fun market days => Some (get_ohlcv_dataframe market days);
  Collector.get_market_cap := fun market => Some (get_market_cap market);
  Collector.get_volume_growth :=
    fun market days => Some (get_volume_growth market days);
  Collector.check_consecutive_decline :=
    fun market days => Some (check_consecutive_decline market days);
  Collector.check_recent_spike := fun _ _ _ => None;
  Collector.get_price_vs_moving_average :=
    fun market ma_period => Some (get_price_vs_moving_average market ma_period);
  Collector.get_ticker_info := fun markets => Some (get_ticker_info markets);
  Collector.get_listing_info := fun market => Some (get_listing_info market)
|}.

End WithExchange.

End UpbitDataCollector.

(* --------------------------------------------------------------------- *)
(*  altcoin_screener.py: UpbitAltcoinScreener                            *)
(* --------------------------------------------------------------------- *)

Module UpbitAltcoinScreener.

Definition exclude_symbols : gset string :=
  {[ "BTC/KRW"; "ETH/KRW"; "BNB/KRW"; "ADA/KRW"; "USDT/KRW"; "USDC/KRW";
     "BUSD/KRW"; "DAI/KRW"; "TUSD/KRW"; "FDUSD/KRW" ]}.

(* The phrases generate_reason joins with ", "; the stable-RSI phrase
   carries the RSI it prints. *)
Inductive ReasonPhrase : Type :=
| HighVolume
| EnoughVolume
| BigUpside
| Upside
| StableRSI (rsi : fval)
| Oversold
| StableVolatility
| HighVolatility
| VolumeSurge
| VolumeIncrease
| BasicConditionsMet.

Record AltcoinCandidate : Type := {
  symbol : string;
  name : pyval;
  current_price : Q;
  volume_krw : fval;
  ath : pyval;
  ath_decline : fval;
  volatility : fval;
  cci : fval;
  rsi : fval;
  market_cap : fval;
  volume_growth : fval;
  consecutive_decline : Z;
  recent_spike : string;
  ma_position : fval;
  score : fval;
  recommendation : string;
  reason : list ReasonPhrase
}.

(* The ten screening dimensions, and the order in which
   screen_single_market goes through them. *)
Inductive Criterion : Type :=
| Volume
| ATHDecline
| Volatility
| CCI
| RSI
| MarketCap
| VolumeGrowth
| ConsecutiveDecline
| RecentSpike
| MovingAverage.


(* One step of the chain as it was taken: the criterion, whether its
   evaluator was called ([invoked]) or its result was the constant the
   source assigns in its place, and whether it passed. *)
Record Step : Type := {
  criterion : Criterion;
  invoked : bool;
  passed : bool
}.

(* screen_single_market as a computation: the steps taken so far, and
   either a value to go on with or [None] once the function has
   returned None (a failed criterion, a failed fetch, or an exception
   caught by its handler). *)
Definition Chain (A : Type) : Type := (list Step * option A)%type.

#[local] Instance chain_ret : MRet Chain := fun A a => ([], Some a).

#[local] Instance chain_bind : MBind Chain := fun A B f m =>
  match m with
  | (steps, None) => (steps, None)
  | (steps, Some a) => let '(more, r) := f a in (steps ++ more, r)
  end.

(* ok, value = self.check_..(market); if not ok: return None *)
Definition evaluate {A : Type} (crit : Criterion) (result : bool * A) : Chain A :=
  ([{| criterion := crit; invoked := true; passed := result.1 |}],
   if result.1 then Some result.2 else None).

(* ok, value = True, constant *)
Definition stubbed {A : Type} (crit : Criterion) (value : A) : Chain A :=
  ([{| criterion := crit; invoked := false; passed := true |}], Some value).

(* A call outside the chain of criteria that may end the function. *)
Definition fetch {A : Type} (result : option A) : Chain A := ([], result).

(* list.sort(key=key, reverse=True): descending, and stable, so equal
   keys keep their order.  For keys that can be compared (no NaN) this
   fixes the result, whatever the algorithm (stable_sort_unique below);
   the model sorts by insertion: an element is put behind the elements
   with a strictly larger key and in front of all others. *)
Fixpoint insert_desc {A : Type} (key : A -> fval) (x : A) (l : list A) : list A :=
  match l with
  | [] => [x]
  | y :: rest =>
      if flt (key x) (key y) then y :: insert_desc key x rest
      else x :: y :: rest
  end.

Definition sort_desc {A : Type} (key : A -> fval) (l : list A) : list A :=
  foldr (insert_desc key) [] l.

(* The report of generate_report.  Its summary is a sentence when there
   is no candidate, and otherwise the counts of three tiers and the
   first candidate.  [Time] is the type of datetime.now(). *)
Record SummaryCounts : Type := {
  very_recommended : nat;
  recommended : nat;
  interesting : nat;
  top_candidate : option AltcoinCandidate
}.

Record Report (Time : Type) : Type := {
  timestamp : Time;
  report_criteria : ScreenerCriteria;
  total_candidates : nat;
  candidates : list AltcoinCandidate;
  summary : string + SummaryCounts
}.

Arguments timestamp {Time}.
Arguments report_criteria {Time}.
Arguments total_candidates {Time}.
Arguments candidates {Time}.
Arguments summary {Time}.

(* [c for c in candidates if c.recommendation == tier] *)
Definition with_recommendation (tier : string)
  (candidates : list AltcoinCandidate) : list AltcoinCandidate :=
  filter (fun c => String.eqb (recommendation c) tier = true) candidates.

Section Screener.

(* self.criteria, self.upbit_collector, and the [ta] module global of
   technical.py ([None] when the package is not installed). *)
Variable criteria : ScreenerCriteria.
Variable upbit_collector : Collector.api.
Variable ta : option TechnicalAnalyzer.TaLib.

Definition get_krw_markets : list string :=
  try_except
    (markets ← Collector.get_krw_markets upbit_collector;
     Some (filter (fun market => market ∉ exclude_symbols) markets))
    [].

Definition check_volume_criteria (market : string) : bool * fval :=
  try_except
    (volume_info ← Collector.get_volume_info upbit_collector market 7;
     if dict_is_empty volume_info then Some (false, Fin 0)
     else
       avg_volume ← as_num (dict_get volume_info "avg_volume_krw" (PNum (Fin 0)));
       let meets_criteria := fge avg_volume (Fin (min_daily_volume_krw criteria)) in
       Some (meets_criteria, avg_volume))
    (false, Fin 0).

Definition check_ath_decline_criteria (market : string) : bool * (pyval * fval) :=
  try_except
    (ath_info ← Collector.get_all_time_high upbit_collector market;
     if dict_is_empty ath_info then Some (false, (PNum (Fin 0), Fin 0))
     else
       let ath := dict_get ath_info "all_time_high" (PNum (Fin 0)) in
       decline_rate ← as_num (dict_get ath_info "decline_from_ath" (PNum (Fin 0)));
       let meets_criteria := fge decline_rate (Fin (min_decline_from_ath criteria)) in
       Some (meets_criteria, (ath, decline_rate)))
    (false, (PNum (Fin 0), Fin 0)).

Definition check_volatility_criteria (market : string) : bool * fval :=
  try_except
    (volatility ← Collector.calculate_volatility upbit_collector market 30;
     let meets_criteria :=
       fle (Fin (volatility_min criteria)) volatility
       && fle volatility (Fin (volatility_max criteria)) in
     Some (meets_criteria, volatility))
    (false, Fin 0).

Definition check_cci_criteria (market : string) : bool * fval :=
  try_except
    (df ← Collector.get_ohlcv_dataframe upbit_collector market 50;
     if df_empty df then Some (false, Fin 0)
     else
       let df := TechnicalAnalyzer.calculate_cci ta df (cci_period criteria) in
       match get_num df "CCI" with
       | None => Some (false, Fin 0)
       | Some column =>
           match iloc_last column with
           | None => Some (false, Fin 0)
           | Some current_cci =>
               if is_nan current_cci then Some (false, Fin 0)
               else
                 let meets_criteria :=
                   fle (Fin (cci_min criteria)) current_cci
                   && fle current_cci (Fin (cci_max criteria)) in
                 Some (meets_criteria, current_cci)
           end
       end)
    (false, Fin 0).

Definition check_rsi_criteria (market : string) : bool * fval :=
  try_except
    (df ← Collector.get_ohlcv_dataframe upbit_collector market 50;
     if df_empty df then Some (false, Fin 0)
     else
       let df := TechnicalAnalyzer.calculate_rsi ta df (rsi_period criteria) in
       match get_num df "RSI" with
       | None => Some (false, Fin 0)
       | Some column =>
           match iloc_last column with
           | None => Some (false, Fin 0)
           | Some current_rsi =>
               if is_nan current_rsi then Some (false, Fin 0)
               else
                 let meets_criteria :=
                   fle (Fin (rsi_min criteria)) current_rsi
                   && fle current_rsi (Fin (rsi_max criteria)) in
                 Some (meets_criteria, current_rsi)
           end
       end)
    (false, Fin 0).

Definition check_market_cap_criteria (market : string) : bool * fval :=
  try_except
    (market_cap_info ← Collector.get_market_cap upbit_collector market;
     if dict_is_empty market_cap_info then Some (false, Fin 0)
     else
       estimated_market_cap ←
         as_num (dict_get market_cap_info "estimated_market_cap_krw" (PNum (Fin 0)));
       let meets_criteria :=
         fle (Fin (min_market_cap_krw criteria)) estimated_market_cap
         && fle estimated_market_cap (Fin (max_market_cap_krw criteria)) in
       Some (meets_criteria, estimated_market_cap))
    (false, Fin 0).

Definition check_volume_growth_criteria (market : string) : bool * fval :=
  try_except
    (volume_growth_info ←
       Collector.get_volume_growth upbit_collector market
         (volume_growth_days criteria);
     if dict_is_empty volume_growth_info then Some (false, Fin 0)
     else
       growth_rate ← as_num (dict_get volume_growth_info "growth_rate" (PNum (Fin 0)));
       let meets_criteria := fge growth_rate (Fin (volume_growth_min criteria)) in
       Some (meets_criteria, growth_rate))
    (false, Fin 0).

Definition check_consecutive_decline_criteria (market : string) : bool * fval :=
  try_except
    (decline_info ←
       Collector.check_consecutive_decline upbit_collector market
         (max_consecutive_decline criteria);
     if dict_is_empty decline_info then Some (false, Fin 0)
     else
       consecutive_decline ←
         as_num (dict_get decline_info "consecutive_decline_days" (PNum (Fin 0)));
       let meets_criteria :=
         flt consecutive_decline
             (Fin (inject_Z (Z.of_nat (max_consecutive_decline criteria)))) in
       Some (meets_criteria, consecutive_decline))
    (false, Fin 0).

Definition check_recent_spike_criteria (market : string) : bool * pyval :=
  try_except
    (spike_info ←
       Collector.check_recent_spike upbit_collector market
         (max_recent_spike criteria) (recent_spike_days criteria);
     if dict_is_empty spike_info then Some (false, PStr "none")
     else
       let has_spike := dict_get spike_info "has_recent_spike" (PBool false) in
       let spike_type := dict_get spike_info "spike_type" (PStr "none") in
       let meets_criteria := negb (truthy has_spike) in
       Some (meets_criteria, spike_type))
    (false, PStr "none").

(* The first component is the truth value of what the source returns
   (above_ma itself, or True). *)
Definition check_moving_average_criteria (market : string) : bool * fval :=
  try_except
    (ma_info ←
       Collector.get_price_vs_moving_average upbit_collector market
         (ma_period criteria);
     if dict_is_empty ma_info then Some (false, Fin 0)
     else
       let above_ma := dict_get ma_info "above_ma" (PBool false) in
       position_pct ← as_num (dict_get ma_info "position_vs_ma_pct" (PNum (Fin 0)));
       let meets_criteria :=
         if require_above_ma criteria then truthy above_ma else true in
       Some (meets_criteria, position_pct))
    (false, Fin 0).

(* The seven sub-scores of calculate_score.  Only the volume score
   divides by something that can be zero: the measured volume is a
   Python float (sum(volumes) / len(volumes)), so a volume floor of zero
   raises ZeroDivisionError, which calculate_score catches. *)
Definition volume_score (volume : fval) : option fval :=
  ratio ← py_truediv volume (Fin (min_daily_volume_krw criteria));
  Some (py_min (Fin 15) (fmul ratio (Fin 7.5))).

Definition ath_score (ath_decline : fval) : fval :=
  py_min (Fin 15) (fmul (fdiv ath_decline (Fin 100)) (Fin 15)).

Definition volatility_score (volatility : fval) : fval :=
  let volatility_mid :=
    fdiv (Fin (volatility_min criteria + volatility_max criteria)) (Fin 2) in
  py_max (Fin 0)
    (fsub (Fin 15) (fmul (fabs (fsub volatility volatility_mid)) (Fin 0.3))).

Definition cci_score (cci : fval) : fval :=
  py_max (Fin 0) (fsub (Fin 15) (fmul (fabs cci) (Fin 0.3))).

Definition rsi_score (rsi : fval) : fval :=
  let rsi_optimal := Fin 50 in
  py_max (Fin 0)
    (fsub (Fin 15) (fmul (fabs (fsub rsi rsi_optimal)) (Fin 0.3))).

Definition market_cap_score (market_cap : fval) : fval :=
  let market_cap_optimal := Fin 100000000000 in
  py_max (Fin 0)
    (fsub (Fin 15)
       (fmul (fdiv (fabs (fsub market_cap market_cap_optimal)) market_cap_optimal)
             (Fin 10))).

Definition volume_growth_score (volume_growth : fval) : fval :=
  py_max (Fin 0)
    (py_min (Fin 10) (fmul (fdiv volume_growth (Fin 100)) (Fin 10))).

Definition calculate_score
  (volume ath_decline volatility cci rsi market_cap volume_growth : fval) : fval :=
  try_except
    (volume_score ← volume_score volume;
     Some (fadd (fadd (fadd (fadd (fadd (fadd
             volume_score
             (ath_score ath_decline))
             (volatility_score volatility))
             (cci_score cci))
             (rsi_score rsi))
             (market_cap_score market_cap))
             (volume_growth_score volume_growth)))
    (Fin 0).

Definition get_recommendation (score : fval) : string :=
  if fge score (Fin 80) then "매우 추천"
  else if fge score (Fin 60) then "추천"
  else if fge score (Fin 40) then "관심"
  else "검토 필요".

Definition generate_reason (volume ath_decline rsi volatility volume_growth : fval)
  : list ReasonPhrase :=
  let reasons :=
    (if fgt volume (Fin 200000000) then [HighVolume]
     else if fgt volume (Fin 100000000) then [EnoughVolume] else [])
    ++ (if fgt ath_decline (Fin 50) then [BigUpside]
        else if fgt ath_decline (Fin 30) then [Upside] else [])
    ++ (if fle (Fin 30) rsi && fle rsi (Fin 70) then [StableRSI rsi]
        else if flt rsi (Fin 30) then [Oversold] else [])
    ++ (if flt volatility (Fin 50) then [StableVolatility]
        else if fgt volatility (Fin 100) then [HighVolatility] else [])
    ++ (if fgt volume_growth (Fin 50) then [VolumeSurge]
        else if fgt volume_growth (Fin 20) then [VolumeIncrease] else []) in
  match firstn 3 reasons with
  | [] => [BasicConditionsMet]
  | selected_reasons => selected_reasons
  end.

Definition screen_single_market_traced (market : string)
  : Chain AltcoinCandidate :=
  volume ← evaluate Volume (check_volume_criteria market);
  '(ath, ath_decline) ← evaluate ATHDecline (check_ath_decline_criteria market);
  volatility ← evaluate Volatility (check_volatility_criteria market);
  cci ← evaluate CCI (check_cci_criteria market);
  rsi ← evaluate RSI (check_rsi_criteria market);
  market_cap ← stubbed MarketCap (Fin 50000000000);
  volume_growth ← evaluate VolumeGrowth (check_volume_growth_criteria market);
  consecutive_decline ← stubbed ConsecutiveDecline 2%Z;
  recent_spike ← stubbed RecentSpike "none";
  ma_position ← stubbed MovingAverage (Fin 5);
  ticker_info ← fetch (Collector.get_ticker_info upbit_collector [market]);
  first_ticker ← fetch (head ticker_info);
  let current_price := ticker_trade_price first_ticker in
  let score :=
    calculate_score volume ath_decline volatility cci rsi market_cap
                    volume_growth in
  market_info ← fetch (Collector.get_listing_info upbit_collector market);
  let name := dict_get market_info "korean_name" (PStr market) in
  let reason := generate_reason volume ath_decline rsi volatility volume_growth in
  mret {| symbol := market;
          name := name;
          current_price := current_price;
          volume_krw := volume;
          ath := ath;
          ath_decline := ath_decline;
          volatility := volatility;
          cci := cci;
          rsi := rsi;
          market_cap := market_cap;
          volume_growth := volume_growth;
          consecutive_decline := consecutive_decline;
          recent_spike := recent_spike;
          ma_position := ma_position;
          score := score;
          recommendation := get_recommendation score;
          reason := reason |}.

Definition screen_single_market (market : string) : option AltcoinCandidate :=
  (screen_single_market_traced market).2.

(* The candidates in the order of the market list, before the sort. *)
Definition collect_candidates (markets : list string) : list AltcoinCandidate :=
  omap screen_single_market markets.

Definition screen_all_markets : list AltcoinCandidate :=
  match get_krw_markets with
  | [] => []
  | markets => sort_desc score (collect_candidates markets)
  end.

Definition generate_report {Time : Type} (now : Time)
  (candidates : list AltcoinCandidate) : Report Time :=
  match candidates with
  | [] =>
      {| timestamp := now;
         report_criteria := criteria;
         total_candidates := 0;
         candidates := [];
         summary := inl "조건을 만족하는 알트코인이 없습니다." |}
  | _ =>
      {| timestamp := now;
         report_criteria := criteria;
         total_candidates := length candidates;
         candidates := candidates;
         summary :=
           inr {| very_recommended :=
                    length (with_recommendation "매우 추천" candidates);
                  recommended := length (with_recommendation "추천" candidates);
                  interesting := length (with_recommendation "관심" candidates);
                  top_candidate := head candidates |} |}
  end.

Definition run_daily_screening {Time : Type} (now : Time) : Report Time :=
  generate_report now screen_all_markets.

End Screener.

End UpbitAltcoinScreener.

(* --------------------------------------------------------------------- *)
(*  Vocabulary of the statements                                         *)
(* --------------------------------------------------------------------- *)

Import UpbitAltcoinScreener.

Section ChainVocabulary.

Variable criteria : ScreenerCriteria.
Variable upbit_collector : Collector.api.
Variable ta : option TechnicalAnalyzer.TaLib.
Variable market : string.

(* What the evaluator of a criterion answers for the market. *)
Definition evaluator_passes (crit : Criterion) : bool :=
  match crit with
  | Volume => (check_volume_criteria criteria upbit_collector market).1
  | ATHDecline => (check_ath_decline_criteria criteria upbit_collector market).1
  | Volatility => (check_volatility_criteria criteria upbit_collector market).1
  | CCI => (check_cci_criteria criteria upbit_collector ta market).1
  | RSI => (check_rsi_criteria criteria upbit_collector ta market).1
  | MarketCap => (check_market_cap_criteria criteria upbit_collector market).1
  | VolumeGrowth => (check_volume_growth_criteria criteria upbit_collector market).1
  | ConsecutiveDecline =>
      (check_consecutive_decline_criteria criteria upbit_collector market).1
  | RecentSpike => (check_recent_spike_criteria criteria upbit_collector market).1
  | MovingAverage =>
      (check_moving_average_criteria criteria upbit_collector market).1
  end.

(* The criteria whose evaluator screen_single_market calls; the other
   four are stubbed to pass. *)
Definition enabled (crit : Criterion) : bool :=
  match crit with
  | MarketCap | ConsecutiveDecline | RecentSpike | MovingAverage => false
  | _ => true
  end.



(* The two fetches behind the chain went through: a ticker came back,
   and get_listing_info did not raise. *)
Definition fetches_ok : Prop :=
  (exists first others,
      Collector.get_ticker_info upbit_collector [market] = Some (first :: others))
  /\ is_Some (Collector.get_listing_info upbit_collector market).

End ChainVocabulary.

(* The dictionary holds the number [q] under [key]. *)
Definition has_number (d : dict) (key : string) (q : Q) : bool :=
  match d !! key with
  | Some (PNum x) => feqb x (Fin q)
  | _ => false
  end.

(* [l] is in descending order of [key]: no element has a smaller key
   than an element behind it. *)
Definition sorted_desc {A : Type} (key : A -> fval) (l : list A) : Prop :=
  StronglySorted (fun x y => fle (key y) (key x) = true) l.

(* [l'] holds the elements of [l], and those with the same key in the
   same order as in [l]. *)
Definition stable_rearrangement {A : Type} (key : A -> fval) (l l' : list A)
  : Prop :=
  l' ≡ₚ l
  /\ forall k, filter (fun x => feqb (key x) k = true) l'
               = filter (fun x => feqb (key x) k = true) l.

(* The day-to-day changes of a price series.  The first day has no
   predecessor and counts as no change: its NaN difference is replaced
   by 0 in the gains and in the losses of the RSI alike. *)
Definition price_changes (prices : list Q) : list Q :=
  match prices with
  | [] => []
  | _ :: rest => 0 :: zip_with Qminus rest prices
  end.

(* The gain and the loss of one price change. *)
Definition positive_part (d : Q) : Q := if Qltb 0 d then d else 0.
Definition negative_part (d : Q) : Q := - (if Qltb d 0 then d else 0).

(* The mean of a list of numbers, and its mean absolute deviation: the
   mean distance of the numbers from their mean. *)
Definition mean_of (l : list Q) : Q :=
  UpbitDataCollector.Qsum l / UpbitDataCollector.len_Q l.

Definition mean_deviation (l : list Q) : Q :=
  mean_of (map (fun x => Qabs (x - mean_of l)) l).

(* [x'] is at least as near to the optimum [opt] as [x] is. *)
Definition closer (opt x x' : Q) : Prop := Qabs (x' - opt) <= Qabs (x - opt).

(* --------------------------------------------------------------------- *)
(*  Collaborators for the scenarios                                      *)
(* --------------------------------------------------------------------- *)

Module Scenario.

(* The thresholds the specification lists for its scenario: the
   dataclass defaults, with the decline floor and the growth floor at
   20. *)
Definition listed_criteria : ScreenerCriteria := {|
  exchange := "UPBIT";
  base_currency := "KRW";
  min_daily_volume_krw := 100000000;
  max_listing_days := 1648;
  min_decline_from_ath := 20;
  volatility_min := 10;
  volatility_max := 150;
  cci_min := -200;
  cci_max := 200;
  cci_period := 20;
  rsi_min := 20;
  rsi_max := 80;
  rsi_period := 14;
  min_market_cap_krw := 10000000000;
  max_market_cap_krw := 500000000000;
  volume_growth_min := 20;
  volume_growth_days := 7;
  max_consecutive_decline := 5;
  max_recent_spike := 30;
  recent_spike_days := 3;
  require_above_ma := true;
  ma_period := 20
|}.

Definition the_market : string := "KRW-XYZ".

Definition one_row : DataFrame :=
  {| rows := [ {| row_open := Fin 600; row_high := Fin 600;
                  row_low := Fin 600; row_close := Fin 600;
                  row_volume := Fin 1000 |} ];
     computed := ∅ |}.

(* An indicator package that reports CCI = 10 and RSI = 55. *)
Definition ta_double : TechnicalAnalyzer.TaLib := {|
  TechnicalAnalyzer.RSIIndicator_rsi := fun _ _ => Some [Fin 55];
  TechnicalAnalyzer.CCIIndicator_cci := fun _ _ _ _ => Some [Fin 10]
|}.

(* A collector for one asset that measures ATH decline 40 %, volatility
   60 %, market cap 1.2e11 and volume growth 30 %, with the average
   volume and the ticker answer left open. *)
Definition collector_double (avg_volume : Q) (tickers : list Ticker)
  : Collector.api := {|
  Collector.get_krw_markets := Some [the_market];
  Collector.get_volume_info := fun _ _ =>
    Some {[ "avg_volume_krw" := PNum (Fin avg_volume) ]};
  Collector.get_all_time_high := fun _ =>
    Some {[ "all_time_high" := PNum (Fin 1000);
            "current_price" := PNum (Fin 600);
            "decline_from_ath" := PNum (Fin 40) ]};
  Collector.calculate_volatility := fun _ _ => Some (Fin 60);
  Collector.get_ohlcv_dataframe := fun _ _ => Some one_row;
  Collector.get_market_cap := fun _ =>
    Some {[ "estimated_market_cap_krw" := PNum (Fin 120000000000) ]};
  Collector.get_volume_growth := fun _ _ =>
    Some {[ "growth_rate" := PNum (Fin 30) ]};
  Collector.check_consecutive_decline := fun _ _ =>
    Some {[ "consecutive_decline_days" := PNum (Fin 0) ]};
  Collector.check_recent_spike := fun _ _ _ =>
    Some {[ "has_recent_spike" := PBool false ]};
  Collector.get_price_vs_moving_average := fun _ _ =>
    Some {[ "above_ma" := PBool true; "position_vs_ma_pct" := PNum (Fin 5) ]};
  Collector.get_ticker_info := fun _ => Some tickers;
  Collector.get_listing_info := fun _ => Some {[ "korean_name" := PStr "XYZ" ]}
|}.

Definition a_ticker : Ticker :=
  {| ticker_market := the_market; ticker_trade_price := 600 |}.

(* An exchange that answers no request. *)
Definition silent_exchange : Exchange := {|
  http_market_all := None;
  http_ticker := fun _ => None;
  http_candles_days := fun _ _ => None
|}.

Definition flat_candle (price : Q) : Candle := {|
  candle_date_time_utc := "";
  opening_price := price;
  high_price := price;
  low_price := price;
  trade_price := price;
  candle_acc_trade_price := 1000000000;
  candle_acc_trade_volume := 1000
|}.

(* An exchange whose market trades at 100 every day, high, low and
   close alike. *)
Definition flat_exchange : Exchange := {|
  http_market_all := Some [the_market];
  http_ticker := fun _ => Some [ {| ticker_market := the_market;
                                    ticker_trade_price := 100 |} ];
  http_candles_days := fun _ count =>
    Some (firstn count (repeat (flat_candle 100) 200))
|}.

(* An exchange whose market trades at 110 today and traded at 100 on
   each of the days before; a request gets the newest [count] candles. *)
Definition rising_exchange : Exchange := {|
  http_market_all := Some [the_market];
  http_ticker := fun _ => Some [ {| ticker_market := the_market;
                                    ticker_trade_price := 110 |} ];
  http_candles_days := fun _ count =>
    Some (firstn count (flat_candle 110 :: repeat (flat_candle 100) 199))
|}.

End Scenario.

(* --------------------------------------------------------------------- *)
(*  Vocabulary for the collector and the indicators                      *)
(* --------------------------------------------------------------------- *)


(* The label that goes with a day-to-day change of [change] per cent. *)
Definition spike_label (change : Q) : string :=
  if Qltb 20 change then "strong_up"
  else if Qltb 10 change then "moderate_up"
  else if Qltb change (-20) then "strong_down"
  else if Qltb change (-10) then "moderate_down"
  else "none".

(* The running totals of a list of numbers, from [total] on. *)
Fixpoint running_total (total : Q) (l : list Q) : list Q :=
  match l with
  | [] => []
  | x :: rest => (total + x) :: running_total (total + x) rest
  end.

(* The criteria [c'] are at least as permissive as [c]: no floor is
   higher, no band is narrower, and the indicator periods and the
   growth window are the same. *)
Definition relaxes (c c' : ScreenerCriteria) : Prop :=
  min_daily_volume_krw c' <= min_daily_volume_krw c
  /\ min_decline_from_ath c' <= min_decline_from_ath c
  /\ volatility_min c' <= volatility_min c
  /\ volatility_max c <= volatility_max c'
  /\ cci_min c' <= cci_min c
  /\ cci_max c <= cci_max c'
  /\ cci_period c' = cci_period c
  /\ rsi_min c' <= rsi_min c
  /\ rsi_max c <= rsi_max c'
  /\ rsi_period c' = rsi_period c
  /\ volume_growth_min c' <= volume_growth_min c
  /\ volume_growth_days c' = volume_growth_days c.

(* --------------------------------------------------------------------- *)
(*  main.py: the criteria of find_gems                                   *)
(* --------------------------------------------------------------------- *)

Module Main.

(* The criteria of the first pass of find_gems: the dataclass defaults
   with nine fields given. *)
Definition criteria : ScreenerCriteria := {|
  exchange := "UPBIT";
  base_currency := "KRW";
  min_daily_volume_krw := 50000000;
  max_listing_days := 1648;
  min_decline_from_ath := 20;
  volatility_min := 10;
  volatility_max := 120;
  cci_min := -200;
  cci_max := 200;
  cci_period := 20;
  rsi_min := 25;
  rsi_max := 75;
  rsi_period := 14;
  min_market_cap_krw := 30000000000;
  max_market_cap_krw := 800000000000;
  volume_growth_min := 20;
  volume_growth_days := 7;
  max_consecutive_decline := 5;
  max_recent_spike := 30;
  recent_spike_days := 3;
  require_above_ma := true;
  ma_period := 20
|}.

(* The criteria of the second pass, made when the first finds nothing. *)
Definition backup_criteria : ScreenerCriteria := {|
  exchange := "UPBIT";
  base_currency := "KRW";
  min_daily_volume_krw := 30000000;
  max_listing_days := 1648;
  min_decline_from_ath := 15;
  volatility_min := 5;
  volatility_max := 150;
  cci_min := -200;
  cci_max := 200;
  cci_period := 20;
  rsi_min := 20;
  rsi_max := 80;
  rsi_period := 14;
  min_market_cap_krw := 20000000000;
  max_market_cap_krw := 1000000000000;
  volume_growth_min := 10;
  volume_growth_days := 7;
  max_consecutive_decline := 5;
  max_recent_spike := 30;
  recent_spike_days := 3;
  require_above_ma := true;
  ma_period := 20
|}.

End Main.

(* --------------------------------------------------------------------- *)
(*  More markets for the scenarios                                       *)
(* --------------------------------------------------------------------- *)

Module Markets.

Definition candle_with_volume (volume : Q) : Candle := {|
  candle_date_time_utc := "";
  opening_price := 100;
  high_price := 100;
  low_price := 100;
  trade_price := 100;
  candle_acc_trade_price := 100 * volume;
  candle_acc_trade_volume := volume
|}.

(* An exchange whose market traded 1000 units on each of the newest
   seven days and 2000 units on each of the days before; the candles
   come newest first. *)
Definition fading_exchange : Exchange := {|
  http_market_all := Some [Scenario.the_market];
  http_ticker := fun _ => Some [ {| ticker_market := Scenario.the_market;
                                    ticker_trade_price := 100 |} ];
  http_candles_days := fun _ count =>
    Some (firstn count (repeat (candle_with_volume 1000) 7
                        ++ repeat (candle_with_volume 2000) 193))
|}.

End Markets.

(* ===================================================================== *)
(*  Part II.  Theorems                                                   *)
(* ===================================================================== *)

Import Scenario.

(* --------------------------------------------------------------------- *)
(*  Comparisons on rationals and floats                                  *)
(* --------------------------------------------------------------------- *)

Lemma Qltb_true (x y : Q) : Qltb x y = true <-> x < y.
Proof.
  unfold Qltb. rewrite negb_true_iff.
  destruct (Qle_bool y x) eqn:E.
  - apply Qle_bool_iff in E. split; [discriminate | lra].
  - split; [intros _ | reflexivity].
    destruct (Qlt_le_dec x y) as [H | H]; [exact H |].
    apply Qle_bool_iff in H. congruence.
Qed.

Lemma Qltb_false (x y : Q) : Qltb x y = false <-> y <= x.
Proof.
  unfold Qltb. rewrite negb_false_iff. apply Qle_bool_iff.
Qed.

Lemma Qle_bool_false (x y : Q) : Qle_bool x y = false <-> y < x.
Proof.
  destruct (Qle_bool x y) eqn:E.
  - apply Qle_bool_iff in E. split; [discriminate | lra].
  - split; [intros _ | reflexivity].
    destruct (Qlt_le_dec y x) as [H | H]; [exact H |].
    apply Qle_bool_iff in H. congruence.
Qed.

Lemma Qeq_bool_false (x y : Q) : Qeq_bool x y = false <-> ~ x == y.
Proof.
  split; [apply Qeq_bool_neq |].
  intros H. destruct (Qeq_bool x y) eqn:E; [| reflexivity].
  apply Qeq_bool_iff in E. contradiction.
Qed.

(* Case analysis on every rational comparison in sight, leaving the
   outcomes as hypotheses for [lra]. *)
Ltac qprop :=
  repeat match goal with
    | H : Qltb _ _ = true |- _ => apply Qltb_true in H
    | H : Qltb _ _ = false |- _ => apply Qltb_false in H
    | H : Qle_bool _ _ = true |- _ => apply Qle_bool_iff in H
    | H : Qle_bool _ _ = false |- _ => apply Qle_bool_false in H
    | H : Qeq_bool _ _ = true |- _ => apply Qeq_bool_iff in H
    | H : Qeq_bool _ _ = false |- _ => apply Qeq_bool_false in H
    end.

Ltac qcase :=
  repeat (match goal with
          | |- context [Qltb ?x ?y] => destruct (Qltb x y) eqn:?
          | |- context [Qle_bool ?x ?y] => destruct (Qle_bool x y) eqn:?
          | |- context [Qeq_bool ?x ?y] => destruct (Qeq_bool x y) eqn:?
          | _ : context [Qltb ?x ?y] |- _ => destruct (Qltb x y) eqn:?
          | _ : context [Qle_bool ?x ?y] |- _ => destruct (Qle_bool x y) eqn:?
          | _ : context [Qeq_bool ?x ?y] |- _ => destruct (Qeq_bool x y) eqn:?
          end; qprop).

(* [lra] does not look into a quotient: name x / c and keep
   c * (x / c) == x, for every quotient by a non-zero c in the goal. *)
Ltac qdiv_at x c :=
  let t := fresh "t" in
  let Ht := fresh "Ht" in
  assert (Ht : c * (x / c) == x) by (apply Qmult_div_r; lra);
  set (t := x / c) in *; clearbody t.

Ltac qdiv :=
  repeat match goal with
    | |- context [?x / ?c] => qdiv_at x c
    | _ : context [?x / ?c] |- _ => qdiv_at x c
    end.

(* Name every absolute value in sight, and split on its sign. *)
Ltac qabs_at t :=
  let H := fresh "Habs" in
  assert (H : (0 <= t /\ Qabs t == t) \/ (t <= 0 /\ Qabs t == - t))
    by (destruct (Qlt_le_dec t 0);
        [ right; split; [lra | apply Qabs_neg; lra]
        | left; split; [lra | apply Qabs_pos; lra] ]);
  generalize dependent (Qabs t); intros.

Ltac qabs :=
  repeat match goal with
    | |- context [Qabs ?t] => qabs_at t
    | _ : context [Qabs ?t] |- _ => qabs_at t
    end;
  repeat match goal with
    | H : (_ /\ _) \/ (_ /\ _) |- _ => destruct H as [[? ?] | [? ?]]
    end.

(* Unfold the float operations, and nothing of the rationals below. *)
Ltac fsimpl :=
  cbn [fadd fsub fneg fabs fmul fdiv flt fle fgt fge feqb py_min py_max
       py_truediv fval_le_Q fval_in is_nan is_finite] in *.

(* --------------------------------------------------------------------- *)
(*  calculate_score: the range of the sub-scores                         *)
(* --------------------------------------------------------------------- *)

(* min(c, x) is a number below c or -inf, whatever x is. *)
Lemma py_min_cap (c : Q) (x : fval) : fval_le_Q (py_min (Fin c) x) c.
Proof.
  destruct x as [a | | |]; unfold py_min; simpl; qcase; simpl; lra.
Qed.

Lemma py_min_cap_finite (c a : Q) :
  0 <= c -> 0 <= a -> fval_in (py_min (Fin c) (Fin a)) 0 c.
Proof.
  intros Hc Ha. unfold py_min; simpl; qcase; simpl; lra.
Qed.

(* max(0, x) is finite and non-negative as soon as x is not +inf, NaN
   included. *)
Lemma py_max_floor (c : Q) (x : fval) :
  0 <= c -> x = NaN \/ fval_le_Q x c -> fval_in (py_max (Fin 0) x) 0 c.
Proof.
  intros Hc [-> | H]; [simpl; lra |].
  destruct x as [a | | |]; unfold py_max, fgt; simpl in *; try lra;
    try contradiction.
  qcase; simpl; lra.
Qed.

(* 15 - abs(d) * k, for a positive slope k, is NaN or at most 15. *)
Lemma distance_penalty_le (d : fval) (k : Q) :
  0 < k ->
  let y := fsub (Fin 15) (fmul (fabs d) (Fin k)) in
  y = NaN \/ fval_le_Q y 15.
Proof.
  intros Hk. destruct d as [a | | |]; simpl.
  - right. pose proof (Qabs_nonneg a). nra.
  - right. unfold inf_signed. qcase; simpl; try lra; exact I.
  - right. unfold inf_signed. qcase; simpl; try lra; exact I.
  - left. reflexivity.
Qed.

Section ScoreRange.

Variable c : ScreenerCriteria.

Lemma volatility_score_range (x : fval) : fval_in (volatility_score c x) 0 15.
Proof.
  unfold volatility_score. apply py_max_floor; [lra |].
  apply distance_penalty_le. lra.
Qed.

Lemma cci_score_range (x : fval) : fval_in (cci_score x) 0 15.
Proof.
  unfold cci_score. apply py_max_floor; [lra |].
  apply distance_penalty_le. lra.
Qed.

Lemma rsi_score_range (x : fval) : fval_in (rsi_score x) 0 15.
Proof.
  unfold rsi_score. apply py_max_floor; [lra |].
  apply distance_penalty_le. lra.
Qed.

Lemma market_cap_score_range (x : fval) : fval_in (market_cap_score x) 0 15.
Proof.
  unfold market_cap_score. apply py_max_floor; [lra |].
  destruct x as [a | | |]; fsimpl.
  - right. change (Qeq_bool 100000000000 0) with false. fsimpl.
    pose proof (Qabs_nonneg (a + - (100000000000))). qdiv. lra.
  - right. exact I.
  - right. exact I.
  - left. reflexivity.
Qed.

Lemma volume_growth_score_range (x : fval) :
  fval_in (volume_growth_score x) 0 10.
Proof.
  unfold volume_growth_score. apply py_max_floor; [lra |].
  right. apply py_min_cap.
Qed.

Lemma ath_score_cap (x : fval) : fval_le_Q (ath_score x) 15.
Proof. apply py_min_cap. Qed.

Lemma volume_score_cap (x s : fval) :
  volume_score c x = Some s -> fval_le_Q s 15.
Proof.
  unfold volume_score. destruct (py_truediv _ _); simpl; [| discriminate].
  intros [= <-]. apply py_min_cap.
Qed.

End ScoreRange.

Lemma fval_in_le_Q (x : fval) (lo hi : Q) : fval_in x lo hi -> fval_le_Q x hi.
Proof. destruct x; simpl; tauto. Qed.

Lemma fadd_le_Q (x y : fval) (a b : Q) :
  fval_le_Q x a -> fval_le_Q y b -> fval_le_Q (fadd x y) (a + b).
Proof.
  destruct x, y; simpl; try tauto. intros. lra.
Qed.

Lemma fadd_in (x y : fval) (a b a' b' : Q) :
  fval_in x a b -> fval_in y a' b' -> fval_in (fadd x y) (a + a') (b + b').
Proof.
  destruct x, y; simpl; try tauto. intros. lra.
Qed.

Lemma fval_le_Q_weaken (x : fval) (a b : Q) :
  a <= b -> fval_le_Q x a -> fval_le_Q x b.
Proof. destruct x; simpl; try tauto. intros. lra. Qed.

Lemma fval_in_weaken (x : fval) (a b a' b' : Q) :
  a' <= a -> b <= b' -> fval_in x a b -> fval_in x a' b'.
Proof. destruct x; simpl; try tauto. intros. lra. Qed.

(* The score is a sum of seven capped terms. *)
Lemma calculate_score_le_100 (c : ScreenerCriteria)
  (volume ath_decline volatility cci rsi market_cap volume_growth : fval) :
  fval_le_Q
    (calculate_score c volume ath_decline volatility cci rsi market_cap
       volume_growth) 100.
Proof.
  unfold calculate_score.
  destruct (volume_score c volume) as [s |] eqn:Hs; simpl; [| lra].
  apply (fval_le_Q_weaken _ (15 + 15 + 15 + 15 + 15 + 15 + 10)); [lra |].
  repeat apply fadd_le_Q.
  - exact (volume_score_cap c _ _ Hs).
  - apply ath_score_cap.
  - exact (fval_in_le_Q _ _ _ (volatility_score_range c _)).
  - exact (fval_in_le_Q _ _ _ (cci_score_range _)).
  - exact (fval_in_le_Q _ _ _ (rsi_score_range _)).
  - exact (fval_in_le_Q _ _ _ (market_cap_score_range _)).
  - exact (fval_in_le_Q _ _ _ (volume_growth_score_range _)).
Qed.

Lemma volume_score_nonneg (c : ScreenerCriteria) (v : Q) :
  0 < min_daily_volume_krw c -> 0 <= v ->
  exists s, volume_score c (Fin v) = Some s /\ fval_in s 0 15.
Proof.
  intros Hfloor Hv. unfold volume_score, py_truediv, fdiv.
  destruct (Qeq_bool (min_daily_volume_krw c) 0) eqn:E.
  { qprop. lra. }
  eexists. split; [reflexivity |]. fsimpl.
  apply py_min_cap_finite; [lra |]. qdiv. nra.
Qed.

Lemma ath_score_nonneg (a : Q) : 0 <= a -> fval_in (ath_score (Fin a)) 0 15.
Proof.
  intros Ha. unfold ath_score, fdiv.
  change (Qeq_bool 100 0) with false. fsimpl.
  apply py_min_cap_finite; [lra |]. qdiv. lra.
Qed.

Lemma calculate_score_ge_0 (c : ScreenerCriteria) (v a : Q)
  (volatility cci rsi market_cap volume_growth : fval) :
  0 < min_daily_volume_krw c -> 0 <= v -> 0 <= a ->
  fval_in
    (calculate_score c (Fin v) (Fin a) volatility cci rsi market_cap
       volume_growth) 0 100.
Proof.
  intros Hfloor Hv Ha. unfold calculate_score.
  destruct (volume_score_nonneg c v Hfloor Hv) as (s & -> & Hs). simpl.
  apply (fval_in_weaken _ (0 + 0 + 0 + 0 + 0 + 0 + 0)
           (15 + 15 + 15 + 15 + 15 + 15 + 10)); [lra | lra |].
  repeat apply fadd_in.
  - exact Hs.
  - apply ath_score_nonneg, Ha.
  - apply volatility_score_range.
  - apply cci_score_range.
  - apply rsi_score_range.
  - apply market_cap_score_range.
  - apply volume_growth_score_range.
Qed.

(* --------------------------------------------------------------------- *)
(*  calculate_score: monotonicity                                        *)
(* --------------------------------------------------------------------- *)

Lemma py_min_mono (c a a' : Q) :
  a <= a' -> fle (py_min (Fin c) (Fin a)) (py_min (Fin c) (Fin a')) = true.
Proof.
  intros H. unfold py_min. fsimpl.
  destruct (Qltb a c) eqn:E1, (Qltb a' c) eqn:E2; fsimpl;
    apply Qle_bool_iff; qprop; lra.
Qed.

Lemma py_max_mono (c y y' : Q) :
  y <= y' -> fle (py_max (Fin c) (Fin y)) (py_max (Fin c) (Fin y')) = true.
Proof.
  intros H. unfold py_max. fsimpl.
  destruct (Qltb c y) eqn:E1, (Qltb c y') eqn:E2; fsimpl;
    apply Qle_bool_iff; qprop; lra.
Qed.

Lemma ath_score_mono (a a' : Q) :
  a <= a' -> fle (ath_score (Fin a)) (ath_score (Fin a')) = true.
Proof.
  intros H. unfold ath_score, fdiv. change (Qeq_bool 100 0) with false.
  fsimpl. apply py_min_mono. qdiv. lra.
Qed.

Lemma volume_score_mono (c : ScreenerCriteria) (v v' : Q) :
  0 < min_daily_volume_krw c -> v <= v' ->
  exists s s',
    volume_score c (Fin v) = Some s /\ volume_score c (Fin v') = Some s'
    /\ fle s s' = true.
Proof.
  intros Hfloor H. unfold volume_score, py_truediv, fdiv.
  destruct (Qeq_bool (min_daily_volume_krw c) 0) eqn:E.
  { qprop. lra. }
  do 2 eexists. split; [reflexivity |]. split; [reflexivity |].
  fsimpl. apply py_min_mono. qdiv. nra.
Qed.

Lemma volume_growth_score_mono (g g' : Q) :
  g <= g' ->
  fle (volume_growth_score (Fin g)) (volume_growth_score (Fin g')) = true.
Proof.
  intros H. unfold volume_growth_score, fdiv.
  change (Qeq_bool 100 0) with false. fsimpl.
  assert (Hq : g / 100 * 10 <= g' / 100 * 10) by (qdiv; lra).
  revert Hq. generalize (g / 100 * 10) (g' / 100 * 10). intros y y' Hy.
  unfold py_min. fsimpl.
  destruct (Qltb y 10) eqn:E1, (Qltb y' 10) eqn:E2; apply py_max_mono;
    qprop; lra.
Qed.

(* A value nearer to the optimum loses less: 15 - abs(d) * k. *)
Lemma distance_score_mono (d d' k : Q) :
  0 <= k -> Qabs d' <= Qabs d ->
  fle (py_max (Fin 0) (fsub (Fin 15) (fmul (fabs (Fin d)) (Fin k))))
      (py_max (Fin 0) (fsub (Fin 15) (fmul (fabs (Fin d')) (Fin k)))) = true.
Proof.
  intros Hk H. fsimpl. apply py_max_mono. nra.
Qed.

Lemma volatility_score_mono (c : ScreenerCriteria) (x x' : Q) :
  closer ((volatility_min c + volatility_max c) / 2) x x' ->
  fle (volatility_score c (Fin x)) (volatility_score c (Fin x')) = true.
Proof.
  unfold closer, Qminus. intros H. unfold volatility_score, fdiv.
  change (Qeq_bool 2 0) with false. fsimpl.
  apply (distance_score_mono _ _ 0.3); [lra | exact H].
Qed.

Lemma cci_score_mono (x x' : Q) :
  closer 0 x x' -> fle (cci_score (Fin x)) (cci_score (Fin x')) = true.
Proof.
  unfold closer. intros H. unfold cci_score.
  apply (distance_score_mono _ _ 0.3); [lra |].
  assert (E : forall y, Qabs y == Qabs (y - 0)).
  { intros y. apply Qabs_wd. ring. }
  rewrite (E x), (E x'). exact H.
Qed.

Lemma rsi_score_mono (x x' : Q) :
  closer 50 x x' -> fle (rsi_score (Fin x)) (rsi_score (Fin x')) = true.
Proof.
  unfold closer, Qminus. intros H. unfold rsi_score. fsimpl.
  apply (distance_score_mono _ _ 0.3); [lra | exact H].
Qed.

Lemma market_cap_score_mono (x x' : Q) :
  closer 100000000000 x x' ->
  fle (market_cap_score (Fin x)) (market_cap_score (Fin x')) = true.
Proof.
  unfold closer, Qminus. intros H. unfold market_cap_score, fdiv.
  change (Qeq_bool 100000000000 0) with false. fsimpl.
  apply py_max_mono. qdiv. lra.
Qed.

Lemma fle_refl_below (x : fval) (q : Q) : fval_le_Q x q -> fle x x = true.
Proof.
  destruct x; simpl; try tauto. intros _. apply Qle_bool_iff. lra.
Qed.

Lemma fle_below (x y : fval) (q : Q) :
  fle x y = true -> fval_le_Q y q -> fval_le_Q x q.
Proof.
  destruct x, y; simpl; try tauto; try discriminate.
  intros H ?. apply Qle_bool_iff in H. lra.
Qed.

Lemma fadd_mono (x x' y y' : fval) (a b : Q) :
  fle x x' = true -> fle y y' = true ->
  fval_le_Q x' a -> fval_le_Q y' b ->
  fle (fadd x y) (fadd x' y') = true.
Proof.
  destruct x, x', y, y'; simpl; try tauto; try discriminate.
  intros H1 H2 _ _. apply Qle_bool_iff. apply Qle_bool_iff in H1, H2. lra.
Qed.

(* The sum of the seven sub-scores grows with each of them. *)
Lemma sum7_mono (s1 s2 s3 s4 s5 s6 s7 t1 t2 t3 t4 t5 t6 t7 : fval) :
  fle s1 t1 = true -> fval_le_Q t1 15 ->
  fle s2 t2 = true -> fval_le_Q t2 15 ->
  fle s3 t3 = true -> fval_le_Q t3 15 ->
  fle s4 t4 = true -> fval_le_Q t4 15 ->
  fle s5 t5 = true -> fval_le_Q t5 15 ->
  fle s6 t6 = true -> fval_le_Q t6 15 ->
  fle s7 t7 = true -> fval_le_Q t7 10 ->
  fle (fadd (fadd (fadd (fadd (fadd (fadd s1 s2) s3) s4) s5) s6) s7)
      (fadd (fadd (fadd (fadd (fadd (fadd t1 t2) t3) t4) t5) t6) t7) = true.
Proof.
  intros.
  repeat (eapply fadd_mono; [| eassumption | | eassumption]);
    try eassumption; repeat apply fadd_le_Q; eassumption.
Qed.

Section ScoreMonotone.

Variable c : ScreenerCriteria.
Variables volume ath_decline volatility cci rsi market_cap volume_growth : fval.

(* Replace one argument: every other sub-score is unchanged, and the
   comparison of the sums comes down to the sub-score that moved. *)
Ltac one_dimension :=
  unfold calculate_score;
  destruct (volume_score c volume) as [s |] eqn:Hs; simpl;
  [ pose proof (volume_score_cap c _ _ Hs);
    pose proof (ath_score_cap ath_decline);
    pose proof (fval_in_le_Q _ _ _ (volatility_score_range c volatility));
    pose proof (fval_in_le_Q _ _ _ (cci_score_range cci));
    pose proof (fval_in_le_Q _ _ _ (rsi_score_range rsi));
    pose proof (fval_in_le_Q _ _ _ (market_cap_score_range market_cap));
    pose proof (fval_in_le_Q _ _ _ (volume_growth_score_range volume_growth));
    apply sum7_mono;
    first [ eassumption | eapply fle_refl_below; eassumption | idtac ]
  | apply Qle_bool_iff; lra ].

Lemma calculate_score_mono_ath (a a' : Q) :
  a <= a' ->
  fle (calculate_score c volume (Fin a) volatility cci rsi market_cap volume_growth)
      (calculate_score c volume (Fin a') volatility cci rsi market_cap volume_growth)
  = true.
Proof.
  intros H. one_dimension.
  - apply ath_score_mono, H.
  - apply ath_score_cap.
Qed.

Lemma calculate_score_mono_volume_growth (g g' : Q) :
  g <= g' ->
  fle (calculate_score c volume ath_decline volatility cci rsi market_cap (Fin g))
      (calculate_score c volume ath_decline volatility cci rsi market_cap (Fin g'))
  = true.
Proof.
  intros H. one_dimension.
  - apply volume_growth_score_mono, H.
  - exact (fval_in_le_Q _ _ _ (volume_growth_score_range _)).
Qed.

Lemma calculate_score_mono_volatility (x x' : Q) :
  closer ((volatility_min c + volatility_max c) / 2) x x' ->
  fle (calculate_score c volume ath_decline (Fin x) cci rsi market_cap volume_growth)
      (calculate_score c volume ath_decline (Fin x') cci rsi market_cap volume_growth)
  = true.
Proof.
  intros H. one_dimension.
  - apply volatility_score_mono, H.
  - exact (fval_in_le_Q _ _ _ (volatility_score_range c _)).
Qed.

Lemma calculate_score_mono_cci (x x' : Q) :
  closer 0 x x' ->
  fle (calculate_score c volume ath_decline volatility (Fin x) rsi market_cap volume_growth)
      (calculate_score c volume ath_decline volatility (Fin x') rsi market_cap volume_growth)
  = true.
Proof.
  intros H. one_dimension.
  - apply cci_score_mono, H.
  - exact (fval_in_le_Q _ _ _ (cci_score_range _)).
Qed.

Lemma calculate_score_mono_rsi (x x' : Q) :
  closer 50 x x' ->
  fle (calculate_score c volume ath_decline volatility cci (Fin x) market_cap volume_growth)
      (calculate_score c volume ath_decline volatility cci (Fin x') market_cap volume_growth)
  = true.
Proof.
  intros H. one_dimension.
  - apply rsi_score_mono, H.
  - exact (fval_in_le_Q _ _ _ (rsi_score_range _)).
Qed.

Lemma calculate_score_mono_market_cap (x x' : Q) :
  closer 100000000000 x x' ->
  fle (calculate_score c volume ath_decline volatility cci rsi (Fin x) volume_growth)
      (calculate_score c volume ath_decline volatility cci rsi (Fin x') volume_growth)
  = true.
Proof.
  intros H. one_dimension.
  - apply market_cap_score_mono, H.
  - exact (fval_in_le_Q _ _ _ (market_cap_score_range _)).
Qed.

Lemma calculate_score_mono_volume (v v' : Q) :
  0 < min_daily_volume_krw c -> v <= v' ->
  fle (calculate_score c (Fin v) ath_decline volatility cci rsi market_cap volume_growth)
      (calculate_score c (Fin v') ath_decline volatility cci rsi market_cap volume_growth)
  = true.
Proof.
  intros Hfloor H. unfold calculate_score.
  destruct (volume_score_mono c v v' Hfloor H) as (s & s' & -> & Hs' & Hle).
  rewrite Hs'. simpl.
  pose proof (volume_score_cap c _ _ Hs').
  pose proof (ath_score_cap ath_decline).
  pose proof (fval_in_le_Q _ _ _ (volatility_score_range c volatility)).
  pose proof (fval_in_le_Q _ _ _ (cci_score_range cci)).
  pose proof (fval_in_le_Q _ _ _ (rsi_score_range rsi)).
  pose proof (fval_in_le_Q _ _ _ (market_cap_score_range market_cap)).
  pose proof (fval_in_le_Q _ _ _ (volume_growth_score_range volume_growth)).
  apply sum7_mono;
    first [ eassumption | eapply fle_refl_below; eassumption ].
Qed.

End ScoreMonotone.

(* --------------------------------------------------------------------- *)
(*  The criterion evaluators: failure, or a threshold comparison         *)
(* --------------------------------------------------------------------- *)

Section Evaluators.

Variable c : ScreenerCriteria.
Variable col : Collector.api.
Variable ta : option TechnicalAnalyzer.TaLib.
Variable market : string.

(* Each evaluator either takes a failure path, returning fail with its
   neutral value, or compares the value it measured with the
   thresholds and returns both. *)
Lemma check_volume_criteria_cases :
  check_volume_criteria c col market = (false, Fin 0)
  \/ exists avg_volume,
       check_volume_criteria c col market
       = (fge avg_volume (Fin (min_daily_volume_krw c)), avg_volume).
Proof.
  unfold check_volume_criteria.
  destruct (Collector.get_volume_info col market 7) as [d |]; simpl; [| by left].
  destruct (dict_is_empty d); simpl; [by left |].
  destruct (as_num _) as [avg |]; simpl; [| by left].
  right. by exists avg.
Qed.

Lemma check_ath_decline_criteria_cases :
  check_ath_decline_criteria c col market = (false, (PNum (Fin 0), Fin 0))
  \/ exists ath decline_rate,
       check_ath_decline_criteria c col market
       = (fge decline_rate (Fin (min_decline_from_ath c)), (ath, decline_rate)).
Proof.
  unfold check_ath_decline_criteria.
  destruct (Collector.get_all_time_high col market) as [d |]; simpl; [| by left].
  destruct (dict_is_empty d); simpl; [by left |].
  destruct (as_num _) as [decline |]; simpl; [| by left].
  right. by eexists _, decline.
Qed.

Lemma check_volatility_criteria_cases :
  check_volatility_criteria c col market = (false, Fin 0)
  \/ exists volatility,
       check_volatility_criteria c col market
       = (fle (Fin (volatility_min c)) volatility
          && fle volatility (Fin (volatility_max c)), volatility).
Proof.
  unfold check_volatility_criteria.
  destruct (Collector.calculate_volatility col market 30) as [v |]; simpl;
    [| by left].
  right. by exists v.
Qed.

Lemma check_cci_criteria_cases :
  check_cci_criteria c col ta market = (false, Fin 0)
  \/ exists current_cci,
       is_nan current_cci = false
       /\ check_cci_criteria c col ta market
          = (fle (Fin (cci_min c)) current_cci
             && fle current_cci (Fin (cci_max c)), current_cci).
Proof.
  unfold check_cci_criteria.
  destruct (Collector.get_ohlcv_dataframe col market 50) as [df |]; simpl;
    [| by left].
  destruct (df_empty df); simpl; [by left |].
  destruct (get_num _ "CCI") as [column |]; simpl; [| by left].
  destruct (iloc_last column) as [x |]; simpl; [| by left].
  destruct (is_nan x) eqn:E; simpl; [by left |].
  right. by exists x.
Qed.

Lemma check_rsi_criteria_cases :
  check_rsi_criteria c col ta market = (false, Fin 0)
  \/ exists current_rsi,
       is_nan current_rsi = false
       /\ check_rsi_criteria c col ta market
          = (fle (Fin (rsi_min c)) current_rsi
             && fle current_rsi (Fin (rsi_max c)), current_rsi).
Proof.
  unfold check_rsi_criteria.
  destruct (Collector.get_ohlcv_dataframe col market 50) as [df |]; simpl;
    [| by left].
  destruct (df_empty df); simpl; [by left |].
  destruct (get_num _ "RSI") as [column |]; simpl; [| by left].
  destruct (iloc_last column) as [x |]; simpl; [| by left].
  destruct (is_nan x) eqn:E; simpl; [by left |].
  right. by exists x.
Qed.

Lemma check_volume_growth_criteria_cases :
  check_volume_growth_criteria c col market = (false, Fin 0)
  \/ exists growth_rate,
       check_volume_growth_criteria c col market
       = (fge growth_rate (Fin (volume_growth_min c)), growth_rate).
Proof.
  unfold check_volume_growth_criteria.
  destruct (Collector.get_volume_growth col market _) as [d |]; simpl;
    [| by left].
  destruct (dict_is_empty d); simpl; [by left |].
  destruct (as_num _) as [g |]; simpl; [| by left].
  right. by exists g.
Qed.

End Evaluators.

(* --------------------------------------------------------------------- *)
(*  Sums, means and rolling windows of finite series                     *)
(* --------------------------------------------------------------------- *)

Import UpbitDataCollector.

Lemma Qsum_acc (l : list Q) (a : Q) : fold_left Qplus l a == a + Qsum l.
Proof.
  unfold Qsum. revert a. induction l as [| x l IH]; intros a; simpl.
  - ring.
  - rewrite (IH (a + x)), (IH (0 + x)). ring.
Qed.

Lemma Qsum_cons (x : Q) (l : list Q) : Qsum (x :: l) == x + Qsum l.
Proof. unfold Qsum at 1. simpl. rewrite Qsum_acc. ring. Qed.

Lemma Qsum_nonneg (l : list Q) : Forall (fun d => 0 <= d) l -> 0 <= Qsum l.
Proof.
  induction 1 as [| x l Hx _ IH].
  - unfold Qsum. simpl. lra.
  - rewrite Qsum_cons. lra.
Qed.

Lemma Qsum_zero (l : list Q) :
  Forall (fun d => 0 <= d) l -> Qsum l == 0 -> Forall (fun d => d == 0) l.
Proof.
  induction 1 as [| x l Hx Hl IH]; intros Hs; constructor.
  - rewrite Qsum_cons in Hs. pose proof (Qsum_nonneg l Hl). lra.
  - apply IH. rewrite Qsum_cons in Hs. pose proof (Qsum_nonneg l Hl). lra.
Qed.

Lemma Qsum_all_zero (l : list Q) : Forall (fun d => d == 0) l -> Qsum l == 0.
Proof.
  induction 1 as [| x l Hx _ IH].
  - reflexivity.
  - rewrite Qsum_cons. lra.
Qed.

Lemma fsum_finite (l : list Q) : fsum (map Fin l) = Fin (Qsum l).
Proof.
  unfold fsum, Qsum. generalize 0. induction l as [| x l IH]; intros a; simpl.
  - reflexivity.
  - apply IH.
Qed.

Lemma len_Q_pos {A : Type} (l : list A) : l <> [] -> 0 < len_Q l.
Proof.
  destruct l; [congruence |]. intros _. unfold len_Q, Qlt. simpl. lia.
Qed.

Lemma fmean_finite (l : list Q) :
  l <> [] -> fmean (map Fin l) = Fin (Qsum l / len_Q l).
Proof.
  intros Hl. unfold fmean. rewrite fsum_finite, length_map. fsimpl.
  fold (len_Q l). pose proof (len_Q_pos l Hl).
  destruct (Qeq_bool (len_Q l) 0) eqn:E; [qprop; lra | reflexivity].
Qed.

Lemma window_at_map {A B : Type} (f : A -> B) (w i : nat) (l : list A) :
  window_at w i (map f l) = map f (window_at w i l).
Proof. unfold window_at. by rewrite skipn_map, firstn_map. Qed.

Lemma window_at_length {A : Type} (w i : nat) (l : list A) :
  (w <= i + 1)%nat -> (i < length l)%nat -> length (window_at w i l) = w.
Proof.
  intros. unfold window_at. rewrite length_take, length_drop. lia.
Qed.

Lemma rolling_apply_lookup (w : nat) (f : Series -> fval) (s : Series) (i : nat) :
  (i < length s)%nat ->
  rolling_apply w f s !! i
  = Some (if (i + 1 <? w)%nat then NaN else f (window_at w i s)).
Proof.
  intros Hi. unfold rolling_apply.
  rewrite list_lookup_fmap, lookup_seq_lt by exact Hi. reflexivity.
Qed.

Lemma rolling_apply_length (w : nat) (f : Series -> fval) (s : Series) :
  length (rolling_apply w f s) = length s.
Proof. unfold rolling_apply. by rewrite length_map, length_seq. Qed.

(* --------------------------------------------------------------------- *)
(*  _calculate_rsi_manual                                                *)
(* --------------------------------------------------------------------- *)

Import TechnicalAnalyzer.

(* 100 - 100 / (1 + gain / loss) for non-negative averages: NaN when
   both are zero, 100 when only the loss is, inside [0, 100) otherwise. *)
Lemma rsi_formula (gain loss : Q) :
  0 <= gain -> 0 <= loss ->
  let rsi :=
    fsub (Fin 100) (fdiv (Fin 100) (fadd (Fin 1) (fdiv (Fin gain) (Fin loss)))) in
  (gain == 0 -> loss == 0 -> rsi = NaN)
  /\ (~ (gain == 0 /\ loss == 0) -> fval_in rsi 0 100)
  /\ (loss == 0 -> ~ gain == 0 -> exists q, rsi = Fin q /\ q == 100).
Proof.
  intros Hg Hl. cbn zeta.
  assert (Hrs : fdiv (Fin gain) (Fin loss)
                = if Qeq_bool loss 0
                  then if Qeq_bool gain 0 then NaN
                       else if Qltb 0 gain then PInf else NInf
                  else Fin (gain / loss)) by reflexivity.
  rewrite Hrs. clear Hrs.
  destruct (Qeq_bool loss 0) eqn:El.
  - destruct (Qeq_bool gain 0) eqn:Eg.
    + qprop. split; [reflexivity |]. split; [tauto |]. intros _ ?. contradiction.
    + assert (Hpos : Qltb 0 gain = true) by (apply Qltb_true; qprop; lra).
      rewrite Hpos. qprop. fsimpl. split; [intros; contradiction |].
      split; [intros _; lra |].
      intros _ _. eexists. split; [reflexivity | lra].
  - qprop.
    assert (H1 : 0 <= gain / loss) by (apply Qle_shift_div_l; lra).
    cbn [fadd].
    assert (Hq : fdiv (Fin 100) (Fin (1 + gain / loss))
                 = if Qeq_bool (1 + gain / loss) 0 then PInf
                   else Fin (100 / (1 + gain / loss))) by reflexivity.
    rewrite Hq. clear Hq.
    destruct (Qeq_bool (1 + gain / loss) 0) eqn:E1; qprop; [lra |].
    fsimpl. split; [intros _ ?; contradiction |].
    split; [| intros ?; contradiction].
    intros _.
    assert (0 <= 100 / (1 + gain / loss)) by (apply Qle_shift_div_l; lra).
    assert (100 / (1 + gain / loss) <= 100) by (apply Qle_shift_div_r; lra).
    lra.
Qed.

Lemma gains_of_changes (l1 l2 : list Q) :
  where_ (fun d => fgt d (Fin 0)) (Fin 0) (zip_with fsub (map Fin l1) (map Fin l2))
  = map Fin (map positive_part (zip_with Qminus l1 l2)).
Proof.
  revert l2. induction l1 as [| a l1 IH]; intros [| b l2]; try reflexivity.
  cbn [map zip_with where_]. f_equal; [| apply IH].
  unfold positive_part, Qminus. fsimpl.
  destruct (Qltb 0 (a + - b)); reflexivity.
Qed.

Lemma losses_of_changes (l1 l2 : list Q) :
  map fneg (where_ (fun d => flt d (Fin 0)) (Fin 0)
              (zip_with fsub (map Fin l1) (map Fin l2)))
  = map Fin (map negative_part (zip_with Qminus l1 l2)).
Proof.
  revert l2. induction l1 as [| a l1 IH]; intros [| b l2]; try reflexivity.
  cbn [map zip_with where_]. f_equal; [| apply IH].
  unfold negative_part, Qminus. fsimpl.
  destruct (Qltb (a + - b) 0); reflexivity.
Qed.

Lemma gains_finite (prices : list Q) :
  where_ (fun d => fgt d (Fin 0)) (Fin 0) (diff (map Fin prices))
  = map Fin (map positive_part (price_changes prices)).
Proof.
  destruct prices as [| p rest]; [reflexivity |].
  unfold diff, price_changes. cbn [map where_].
  f_equal. apply (gains_of_changes rest (p :: rest)).
Qed.

Lemma losses_finite (prices : list Q) :
  map fneg (where_ (fun d => flt d (Fin 0)) (Fin 0) (diff (map Fin prices)))
  = map Fin (map negative_part (price_changes prices)).
Proof.
  destruct prices as [| p rest]; [reflexivity |].
  unfold diff, price_changes. cbn [map where_].
  f_equal. apply (losses_of_changes rest (p :: rest)).
Qed.

Lemma price_changes_length (prices : list Q) :
  length (price_changes prices) = length prices.
Proof.
  destruct prices as [| p rest]; [reflexivity |].
  unfold price_changes. cbn [length]. rewrite length_zip_with. cbn [length]. lia.
Qed.

Lemma rolling_mean_finite (w i : nat) (l : list Q) :
  (1 <= w)%nat -> (w <= i + 1)%nat -> (i < length l)%nat ->
  rolling_mean w (map Fin l) !! i
  = Some (Fin (Qsum (window_at w i l) / inject_Z (Z.of_nat w))).
Proof.
  intros Hw Hwi Hi. unfold rolling_mean.
  rewrite rolling_apply_lookup by (by rewrite length_map).
  assert (E : (i + 1 <? w)%nat = false) by (apply Nat.ltb_ge; lia).
  rewrite E, window_at_map, fmean_finite.
  - unfold len_Q. by rewrite window_at_length.
  - intros Hnil. pose proof (window_at_length w i l Hwi Hi) as Hlen.
    rewrite Hnil in Hlen. simpl in Hlen. lia.
Qed.

Lemma positive_part_nonneg (l : list Q) :
  Forall (fun d => 0 <= d) (map positive_part l).
Proof.
  induction l as [| d l IH]; constructor; [| exact IH].
  unfold positive_part. qcase; lra.
Qed.

Lemma negative_part_nonneg (l : list Q) :
  Forall (fun d => 0 <= d) (map negative_part l).
Proof.
  induction l as [| d l IH]; constructor; [| exact IH].
  unfold negative_part. qcase; lra.
Qed.

(* No gain and no loss: no change at all. *)
Lemma flat_window (l : list Q) :
  Qsum (map positive_part l) == 0 -> Qsum (map negative_part l) == 0 ->
  Forall (fun d => d == 0) l.
Proof.
  intros Hg Hl.
  pose proof (Qsum_zero _ (positive_part_nonneg l) Hg) as Hg0.
  pose proof (Qsum_zero _ (negative_part_nonneg l) Hl) as Hl0.
  clear Hg Hl. induction l as [| d l IH]; constructor.
  - inversion Hg0 as [| ? ? Hp _]. inversion Hl0 as [| ? ? Hn _]. subst.
    revert Hp Hn. unfold positive_part, negative_part. qcase; lra.
  - inversion Hg0. inversion Hl0. subst. by apply IH.
Qed.

Lemma flat_window_sums (l : list Q) :
  Forall (fun d => d == 0) l ->
  Qsum (map positive_part l) == 0 /\ Qsum (map negative_part l) == 0.
Proof.
  intros H. split; apply Qsum_all_zero;
    induction H as [| d l Hd _ IH]; constructor; try exact IH.
  - unfold positive_part. qcase; lra.
  - unfold negative_part. qcase; lra.
Qed.

Lemma no_loss_window (l : list Q) :
  Forall (fun d => 0 <= d) l -> Qsum (map negative_part l) == 0.
Proof.
  intros H. apply Qsum_all_zero.
  induction H as [| d l Hd _ IH]; constructor; [| exact IH].
  unfold negative_part. qcase; lra.
Qed.

Lemma rsi_manual_lookup (prices : list Q) (period i : nat) :
  (1 <= period)%nat -> (period <= i + 1)%nat -> (i < length prices)%nat ->
  let changes := window_at period i (price_changes prices) in
  let gain := Qsum (map positive_part changes) / inject_Z (Z.of_nat period) in
  let loss := Qsum (map negative_part changes) / inject_Z (Z.of_nat period) in
  _calculate_rsi_manual (map Fin prices) period !! i
  = Some (fsub (Fin 100)
            (fdiv (Fin 100) (fadd (Fin 1) (fdiv (Fin gain) (Fin loss))))).
Proof.
  intros Hp Hpi Hi. cbn zeta. unfold _calculate_rsi_manual.
  rewrite gains_finite, losses_finite.
  rewrite list_lookup_fmap, lookup_zip_with.
  rewrite !rolling_mean_finite
    by (rewrite ?length_map, ?price_changes_length; lia).
  cbn. by rewrite !window_at_map.
Qed.

(** C4 (amended).  For a finite price series and every position with a
    full window of [period] price changes behind it, in particular the
    last position of a series of length at least period + 1, the RSI of
    _calculate_rsi_manual is a number in [0, 100] as soon as one price
    change in the window is not zero; it is 100 when no change in the
    window is negative and one is positive.  When every change in the
    window is zero (constant prices) the value is NaN, from 0/0. *)
Theorem rsi_manual_range (prices : list Q) (period i : nat) :
  (1 <= period)%nat -> (period <= i + 1)%nat -> (i < length prices)%nat ->
  let changes := window_at period i (price_changes prices) in
  exists rsi,
    _calculate_rsi_manual (map Fin prices) period !! i = Some rsi
    /\ (Forall (fun d => d == 0) changes -> rsi = NaN)
    /\ (~ Forall (fun d => d == 0) changes -> fval_in rsi 0 100)
    /\ (Forall (fun d => 0 <= d) changes ->
        ~ Forall (fun d => d == 0) changes ->
        exists q, rsi = Fin q /\ q == 100).
Proof.
  intros Hp Hpi Hi changes.
  eexists. split; [apply rsi_manual_lookup; assumption |].
  fold changes.
  set (w := inject_Z (Z.of_nat period)).
  assert (Hw : 0 < w).
  { unfold w, Qlt. simpl. lia. }
  pose proof (Qsum_nonneg _ (positive_part_nonneg changes)) as Hsg.
  pose proof (Qsum_nonneg _ (negative_part_nonneg changes)) as Hsl.
  set (sg := Qsum (map positive_part changes)) in *.
  set (sl := Qsum (map negative_part changes)) in *.
  assert (Hg : 0 <= sg / w) by (apply Qle_shift_div_l; lra).
  assert (Hl : 0 <= sl / w) by (apply Qle_shift_div_l; lra).
  assert (Hg0 : sg / w == 0 <-> sg == 0).
  { split; intros E; [| rewrite E; field; lra].
    rewrite <- (Qmult_div_r sg w) by lra. rewrite E. ring. }
  assert (Hl0 : sl / w == 0 <-> sl == 0).
  { split; intros E; [| rewrite E; field; lra].
    rewrite <- (Qmult_div_r sl w) by lra. rewrite E. ring. }
  destruct (rsi_formula (sg / w) (sl / w) Hg Hl) as (Hnan & Hrange & Hfull).
  split; [| split].
  - intros Hflat. destruct (flat_window_sums changes Hflat) as [E1 E2].
    apply Hnan; [apply Hg0, E1 | apply Hl0, E2].
  - intros Hmove. apply Hrange. intros [E1 E2]. apply Hmove.
    apply flat_window; [apply Hg0, E1 | apply Hl0, E2].
  - intros Hup Hmove. apply Hfull.
    + apply Hl0, no_loss_window, Hup.
    + intros E1. apply Hmove.
      apply flat_window; [apply Hg0, E1 | apply no_loss_window, Hup].
Qed.

(* The theorem at the series 1, 2, 1, 4, 3 with period 2. *)
Lemma rsi_manual_range_witness :
  exists rsi,
    _calculate_rsi_manual (map Fin [1; 2; 1; 4; 3]) 2 !! 4%nat = Some rsi
    /\ fval_in rsi 0 100.
Proof.
  destruct (rsi_manual_range [1; 2; 1; 4; 3] 2 4) as (rsi & Hrsi & _ & Hrange & _);
    [lia | simpl; lia | simpl; lia |].
  exists rsi. split; [exact Hrsi |].
  apply Hrange. intros Hflat. cbv in Hflat.
  inversion Hflat as [| ? ? H0 _]. discriminate H0.
Defined.

(* C4 as stated fails: fifteen equal prices, period 14.  The window has
   no negative change and the latest RSI is NaN, neither 100 nor inside
   [0, 100]. *)
Lemma rsi_manual_flat_counterexample :
  let prices := repeat 100 15 in
  (14 + 1 <= length prices)%nat
  /\ exists rsi,
       iloc_last (_calculate_rsi_manual (map Fin prices) 14) = Some rsi
       /\ ~ fval_in rsi 0 100.
Proof.
  split; [simpl; lia |].
  exists NaN. split; [vm_compute; reflexivity | simpl; tauto].
Qed.

(* --------------------------------------------------------------------- *)
(*  list.sort(key=..., reverse=True)                                     *)
(* --------------------------------------------------------------------- *)

Section Sorting.

Context {A : Type}.
Variable key : A -> fval.

Lemma insert_desc_perm (x : A) (l : list A) : insert_desc key x l ≡ₚ x :: l.
Proof.
  induction l as [| y l IH]; simpl; [done |].
  destruct (flt (key x) (key y)); [| done].
  rewrite IH. apply Permutation_swap.
Qed.

Lemma sort_desc_perm (l : list A) : sort_desc key l ≡ₚ l.
Proof.
  induction l as [| x l IH]; [done |].
  unfold sort_desc in *. simpl. rewrite insert_desc_perm. by f_equiv.
Qed.

(* Two keys equal to the same key are not strictly ordered. *)
Lemma flt_feqb (x y k : fval) :
  flt x y = true -> feqb x k = true -> feqb y k = true -> False.
Proof.
  destruct x, y, k; simpl; try discriminate. intros. qprop. lra.
Qed.

(* Insertion passes over larger keys only: among the elements of one
   key the new element stays in front. *)
Lemma insert_desc_filter (k : fval) (x : A) (l : list A) :
  filter (fun y => feqb (key y) k = true) (insert_desc key x l)
  = filter (fun y => feqb (key y) k = true) (x :: l).
Proof.
  induction l as [| y l IH]; [done |].
  simpl. destruct (flt (key x) (key y)) eqn:E; [| done].
  rewrite (filter_cons _ y), IH, !(filter_cons _ x), !(filter_cons _ y).
  destruct (decide (feqb (key x) k = true)) as [Hx | Hx];
    destruct (decide (feqb (key y) k = true)) as [Hy | Hy]; try done.
  destruct (flt_feqb _ _ _ E Hx Hy).
Qed.

Lemma sort_desc_filter (k : fval) (l : list A) :
  filter (fun y => feqb (key y) k = true) (sort_desc key l)
  = filter (fun y => feqb (key y) k = true) l.
Proof.
  induction l as [| x l IH]; [done |].
  unfold sort_desc in *. simpl.
  by rewrite insert_desc_filter, !filter_cons, IH.
Qed.

Lemma sort_desc_stable (l : list A) : stable_rearrangement key l (sort_desc key l).
Proof. split; [apply sort_desc_perm | intros k; apply sort_desc_filter]. Qed.

(* Keys that are numbers or -inf are totally ordered. *)
Lemma fle_total_below (x y : fval) (a b : Q) :
  fval_le_Q x a -> fval_le_Q y b -> flt x y = false -> fle y x = true.
Proof.
  destruct x, y; simpl; try tauto; try discriminate.
  intros _ _ H. apply Qle_bool_iff. qprop. lra.
Qed.

Lemma flt_fle (x y : fval) : flt x y = true -> fle x y = true.
Proof.
  destruct x, y; simpl; try tauto; try discriminate.
  intros H. apply Qle_bool_iff. qprop. lra.
Qed.

Lemma fle_trans (x y z : fval) : fle x y = true -> fle y z = true -> fle x z = true.
Proof.
  destruct x, y, z; simpl; try tauto; try discriminate.
  intros H1 H2. apply Qle_bool_iff. qprop. lra.
Qed.

Lemma insert_desc_sorted (x : A) (l : list A) :
  (forall y, y ∈ x :: l -> exists q, fval_le_Q (key y) q) ->
  sorted_desc key l -> sorted_desc key (insert_desc key x l).
Proof.
  unfold sorted_desc. intros Hkeys Hl.
  induction Hl as [| y l Hl IH Hy]; simpl.
  - repeat constructor.
  - destruct (Hkeys x) as [a Ha]; [set_solver |].
    destruct (Hkeys y) as [b Hb]; [set_solver |].
    destruct (flt (key x) (key y)) eqn:E.
    + constructor.
      * apply IH. intros z Hz. apply Hkeys.
        apply elem_of_cons in Hz as [-> | Hz];
          [apply list_elem_of_here | do 2 apply list_elem_of_further; exact Hz].
      * apply List.Forall_forall. intros z Hz.
        apply (Permutation_in _ (insert_desc_perm x l)) in Hz.
        destruct Hz as [<- | Hz].
        -- by apply flt_fle.
        -- eapply List.Forall_forall in Hy; eauto.
    + pose proof (fle_total_below _ _ _ _ Ha Hb E) as Hxy.
      constructor; [by constructor |].
      constructor; [exact Hxy |].
      eapply Forall_impl; [exact Hy |]. cbn beta. intros z Hz.
      by eapply fle_trans.
Qed.

Lemma sort_desc_sorted (l : list A) :
  (forall y, y ∈ l -> exists q, fval_le_Q (key y) q) ->
  sorted_desc key (sort_desc key l).
Proof.
  induction l as [| x l IH]; intros Hkeys.
  - constructor.
  - unfold sort_desc. simpl. apply insert_desc_sorted.
    + intros y Hy. apply Hkeys.
      rewrite elem_of_cons in Hy. destruct Hy as [-> | Hy]; [set_solver |].
      rewrite (sort_desc_perm l) in Hy. set_solver.
    + apply IH. intros y Hy. apply Hkeys. set_solver.
Qed.

End Sorting.

Section SortUnique.

Context {A : Type}.
Variable key : A -> fval.

Lemma fle_antisym_feqb (x y : fval) :
  fle x y = true -> fle y x = true -> feqb y x = true.
Proof.
  destruct x, y; simpl; try discriminate; try reflexivity.
  intros H1 H2. apply Qeq_bool_iff. qprop. lra.
Qed.

Lemma feqb_refl_below (x : fval) (q : Q) : fval_le_Q x q -> feqb x x = true.
Proof.
  destruct x; simpl; try tauto. intros _. apply Qeq_bool_iff. reflexivity.
Qed.

Lemma feqb_trans_l (x y k : fval) :
  feqb y x = true -> feqb x k = feqb y k.
Proof.
  destruct x, y, k; simpl; try discriminate; try reflexivity.
  intros H. qprop.
  destruct (Qeq_bool q q1) eqn:E1, (Qeq_bool q0 q1) eqn:E2; qprop;
    try reflexivity; exfalso; [apply E2 | apply E1]; lra.
Qed.

(* A descending list that holds the same elements as [l], those of
   equal key in the same order, is determined by [l]: the result of a
   stable descending sort does not depend on the algorithm. *)
Lemma stable_sort_unique (l l1 l2 : list A) :
  (forall y, y ∈ l -> exists q, fval_le_Q (key y) q) ->
  sorted_desc key l1 -> stable_rearrangement key l l1 ->
  sorted_desc key l2 -> stable_rearrangement key l l2 ->
  l1 = l2.
Proof.
  intros Hkeys Hs1 [Hp1 Hf1] Hs2 [Hp2 Hf2].
  assert (Hp : l1 ≡ₚ l2) by (by rewrite Hp1, Hp2).
  assert (Hf : forall k, filter (fun x => feqb (key x) k = true) l1
                         = filter (fun x => feqb (key x) k = true) l2)
    by (intros k; by rewrite Hf1, Hf2).
  assert (Hk : forall y, y ∈ l1 -> exists q, fval_le_Q (key y) q).
  { intros y Hy. apply Hkeys. by rewrite <- Hp1. }
  clear Hkeys Hp1 Hp2 Hf1 Hf2 l.
  revert l2 Hs2 Hp Hf. induction Hs1 as [| x l1 Hs1 IH Hx]; intros l2 Hs2 Hp Hf.
  - by apply Permutation_nil_l in Hp.
  - destruct l2 as [| y l2]; [by apply Permutation_nil_r in Hp |].
    inversion Hs2 as [| ? ? Hs2' Hy]; subst.
    destruct (Hk x) as [q Hq]; [apply list_elem_of_here |].
    assert (Hyx : feqb (key y) (key x) = true).
    { assert (Hy1 : y ∈ x :: l1) by (rewrite Hp; apply list_elem_of_here).
      assert (Hx2 : x ∈ y :: l2) by (rewrite <- Hp; apply list_elem_of_here).
      apply elem_of_cons in Hy1 as [-> | Hy1];
        [by eapply feqb_refl_below |].
      apply elem_of_cons in Hx2 as [-> | Hx2];
        [by eapply feqb_refl_below |].
      apply fle_antisym_feqb.
      - rewrite List.Forall_forall in Hy. apply Hy. by apply list_elem_of_In.
      - rewrite List.Forall_forall in Hx. apply Hx. by apply list_elem_of_In. }
    assert (Hhead : x = y).
    { pose proof (Hf (key x)) as E. rewrite !filter_cons in E.
      rewrite (decide_True (P := feqb (key x) (key x) = true)) in E
        by (by eapply feqb_refl_below).
      rewrite (decide_True (P := feqb (key y) (key x) = true)) in E by exact Hyx.
      by injection E. }
    subst y. f_equal. apply IH.
    + intros z Hz. apply Hk. by apply list_elem_of_further.
    + exact Hs2'.
    + by apply Permutation_cons_inv in Hp.
    + intros k. pose proof (Hf k) as E. rewrite !filter_cons in E.
      destruct (decide (feqb (key x) k = true)); [by injection E | exact E].
Qed.

End SortUnique.

(* --------------------------------------------------------------------- *)
(*  screen_single_market                                                 *)
(* --------------------------------------------------------------------- *)

Section Pipeline.

Variable c : ScreenerCriteria.
Variable col : Collector.api.
Variable ta : option TechnicalAnalyzer.TaLib.
Variable market : string.

(* The candidate screen_single_market builds from what the evaluators
   measured. *)
Lemma screen_single_market_Some (cand : AltcoinCandidate) :
  screen_single_market c col ta market = Some cand <->
  exists volume ath ath_decline volatility cci rsi volume_growth
         first others market_info,
    check_volume_criteria c col market = (true, volume)
    /\ check_ath_decline_criteria c col market = (true, (ath, ath_decline))
    /\ check_volatility_criteria c col market = (true, volatility)
    /\ check_cci_criteria c col ta market = (true, cci)
    /\ check_rsi_criteria c col ta market = (true, rsi)
    /\ check_volume_growth_criteria c col market = (true, volume_growth)
    /\ Collector.get_ticker_info col [market] = Some (first :: others)
    /\ Collector.get_listing_info col market = Some market_info
    /\ cand =
       let score :=
         calculate_score c volume ath_decline volatility cci rsi
           (Fin 50000000000) volume_growth in
       {| symbol := market;
          name := dict_get market_info "korean_name" (PStr market);
          current_price := ticker_trade_price first;
          volume_krw := volume;
          ath := ath;
          ath_decline := ath_decline;
          volatility := volatility;
          cci := cci;
          rsi := rsi;
          market_cap := Fin 50000000000;
          volume_growth := volume_growth;
          consecutive_decline := 2%Z;
          recent_spike := "none";
          ma_position := Fin 5;
          score := score;
          recommendation := get_recommendation score;
          reason :=
            generate_reason volume ath_decline rsi volatility volume_growth |}.
Proof.
  unfold screen_single_market, screen_single_market_traced.
  destruct (check_volume_criteria c col market) as [[] volume];
    destruct (check_ath_decline_criteria c col market) as [[] [ath ath_decline]];
    destruct (check_volatility_criteria c col market) as [[] volatility];
    destruct (check_cci_criteria c col ta market) as [[] cci];
    destruct (check_rsi_criteria c col ta market) as [[] rsi];
    destruct (check_volume_growth_criteria c col market) as [[] volume_growth];
    destruct (Collector.get_ticker_info col [market]) as [[| first others] |];
    destruct (Collector.get_listing_info col market) as [market_info |];
    cbn;
    (split;
     [ intros H; try discriminate H; injection H as <-;
       by eexists _, _, _, _, _, _, _, _, _, _
     | intros (? & ? & ? & ? & ? & ? & ? & ? & ? & ? & H1 & H2 & H3 & H4 & H5
               & H6 & H7 & H8 & ->);
       try discriminate; by simplify_eq ]).
Qed.

End Pipeline.

(* --------------------------------------------------------------------- *)
(*  The chain of criteria and the output list                            *)
(* --------------------------------------------------------------------- *)

Section Orchestrator.

Variable c : ScreenerCriteria.
Variable col : Collector.api.
Variable ta : option TechnicalAnalyzer.TaLib.


Lemma screen_single_market_symbol (market : string) (cand : AltcoinCandidate) :
  screen_single_market c col ta market = Some cand -> symbol cand = market.
Proof.
  intros H. apply screen_single_market_Some in H.
  destruct H as (? & ? & ? & ? & ? & ? & ? & ? & ? & ? & H). 
  decompose record H. by subst.
Qed.

Lemma screen_single_market_score (market : string) (cand : AltcoinCandidate) :
  screen_single_market c col ta market = Some cand ->
  score cand
  = calculate_score c (volume_krw cand) (ath_decline cand) (volatility cand)
      (cci cand) (rsi cand) (market_cap cand) (volume_growth cand).
Proof.
  intros H. apply screen_single_market_Some in H.
  destruct H as (? & ? & ? & ? & ? & ? & ? & ? & ? & ? & H). 
  decompose record H. by subst.
Qed.

Lemma screen_single_market_passes (market : string) (cand : AltcoinCandidate) :
  screen_single_market c col ta market = Some cand ->
  (forall crit, enabled crit = true -> evaluator_passes c col ta market crit = true)
  /\ fetches_ok col market.
Proof.
  intros H. apply screen_single_market_Some in H.
  destruct H as (? & ? & ? & ? & ? & ? & ? & ? & ? & ? & H1 & H2 & H3 & H4 & H5
                 & H6 & H7 & H8 & _).
  split.
  - intros [] E; try discriminate E; unfold evaluator_passes;
      by rewrite ?H1, ?H2, ?H3, ?H4, ?H5, ?H6.
  - split; [by eexists _, _ | by eexists].
Qed.

Lemma screen_single_market_complete (market : string) :
  (forall crit, enabled crit = true -> evaluator_passes c col ta market crit = true) ->
  fetches_ok col market ->
  is_Some (screen_single_market c col ta market).
Proof.
  intros Hpass [(first & others & Hticker) [info Hinfo]].
  pose proof (Hpass Volume eq_refl) as H1.
  pose proof (Hpass ATHDecline eq_refl) as H2.
  pose proof (Hpass Volatility eq_refl) as H3.
  pose proof (Hpass CCI eq_refl) as H4.
  pose proof (Hpass RSI eq_refl) as H5.
  pose proof (Hpass VolumeGrowth eq_refl) as H6.
  unfold evaluator_passes in *.
  destruct (check_volume_criteria c col market) as [b1 volume] eqn:E1.
  destruct (check_ath_decline_criteria c col market) as [b2 [ath ath_decline]] eqn:E2.
  destruct (check_volatility_criteria c col market) as [b3 volatility] eqn:E3.
  destruct (check_cci_criteria c col ta market) as [b4 cci] eqn:E4.
  destruct (check_rsi_criteria c col ta market) as [b5 rsi] eqn:E5.
  destruct (check_volume_growth_criteria c col market) as [b6 volume_growth] eqn:E6.
  simpl in *. subst.
  eexists. apply screen_single_market_Some.
  by eexists _, _, _, _, _, _, _, _, _, _.
Qed.

(* What reaches the output went through screen_single_market. *)
Lemma screen_all_markets_elem (cand : AltcoinCandidate) :
  cand ∈ screen_all_markets c col ta <->
  exists market,
    market ∈ UpbitAltcoinScreener.get_krw_markets col
    /\ screen_single_market c col ta market = Some cand.
Proof.
  unfold screen_all_markets.
  destruct (UpbitAltcoinScreener.get_krw_markets col) as [| m ms] eqn:E.
  - split; [intros H; by apply elem_of_nil in H |].
    intros (market & H & _). by apply elem_of_nil in H.
  - rewrite (sort_desc_perm score). unfold collect_candidates.
    rewrite list_elem_of_omap. naive_solver.
Qed.

Lemma candidate_score_le_100 (cand : AltcoinCandidate) :
  cand ∈ screen_all_markets c col ta -> fval_le_Q (score cand) 100.
Proof.
  intros (market & _ & H)%screen_all_markets_elem.
  rewrite (screen_single_market_score _ _ H). apply calculate_score_le_100.
Qed.








End Orchestrator.



(** C7.  The list screen_all_markets returns is in descending order of
    score, and it is a stable rearrangement of the candidates in the
    order of the market enumeration: candidates with equal scores keep
    their relative order.  It is the only list with these two
    properties. *)
Theorem screen_all_markets_sorted_stable (c : ScreenerCriteria)
  (col : Collector.api) (ta : option TechnicalAnalyzer.TaLib) :
  let output := screen_all_markets c col ta in
  let enumerated :=
    collect_candidates c col ta (UpbitAltcoinScreener.get_krw_markets col) in
  sorted_desc score output
  /\ stable_rearrangement score enumerated output
  /\ (forall other,
        sorted_desc score other ->
        stable_rearrangement score enumerated other ->
        other = output).
Proof.
  cbn zeta.
  assert (Hsorted : sorted_desc score (screen_all_markets c col ta)
                    /\ stable_rearrangement score
                         (collect_candidates c col ta
                            (UpbitAltcoinScreener.get_krw_markets col))
                         (screen_all_markets c col ta));
    [| destruct Hsorted as [Hs Hst]; split; [exact Hs |]; split; [exact Hst |];
       intros other Hs' Hst';
       apply (stable_sort_unique score
                (collect_candidates c col ta
                   (UpbitAltcoinScreener.get_krw_markets col)));
       try assumption;
       intros cand Hcand; exists 100;
       apply (candidate_score_le_100 c col ta);
       destruct Hst as [Hperm _]; by rewrite Hperm ].
  split.
  - pose proof (candidate_score_le_100 c col ta) as Hscore.
    unfold screen_all_markets in *.
    destruct (UpbitAltcoinScreener.get_krw_markets col) as [| m ms];
      [constructor |].
    apply sort_desc_sorted. intros cand Hcand. exists 100.
    apply Hscore. by rewrite (sort_desc_perm score).
  - unfold screen_all_markets.
    destruct (UpbitAltcoinScreener.get_krw_markets col) as [| m ms].
    + split; [done | done].
    + apply sort_desc_stable.
Qed.

(** C1 (amended).  For a market of the screened list, the output holds a
    candidate for it if and only if every enabled criterion evaluator
    (volume, ATH decline, volatility, CCI, RSI, volume growth) returned
    pass for it and the two fetches behind the chain went through: the
    ticker request returned at least one ticker and get_listing_info
    did not raise.  A market with a failing enabled evaluator is never
    in the output. *)
Theorem candidate_iff_all_pass_and_fetched (c : ScreenerCriteria)
  (col : Collector.api) (ta : option TechnicalAnalyzer.TaLib) (market : string) :
  market ∈ UpbitAltcoinScreener.get_krw_markets col ->
  (exists cand, cand ∈ screen_all_markets c col ta /\ symbol cand = market)
  <->
  (forall crit, enabled crit = true -> evaluator_passes c col ta market crit = true)
  /\ fetches_ok col market.
Proof.
  intros Hin. split.
  - intros (cand & (m & _ & Hm)%screen_all_markets_elem & Hsym).
    rewrite (screen_single_market_symbol _ _ _ _ _ Hm) in Hsym. subst m.
    by eapply screen_single_market_passes.
  - intros [Hpass Hfetch].
    destruct (screen_single_market_complete c col ta market Hpass Hfetch)
      as [cand Hcand].
    exists cand. split.
    + apply screen_all_markets_elem. by exists market.
    + by eapply screen_single_market_symbol.
Qed.

(* The theorem at the asset of the scenario. *)
Lemma candidate_iff_all_pass_and_fetched_witness :
  let col := collector_double 5000000000 [a_ticker] in
  (exists cand,
      cand ∈ screen_all_markets listed_criteria col (Some ta_double)
      /\ symbol cand = the_market)
  <->
  (forall crit,
      enabled crit = true ->
      evaluator_passes listed_criteria col (Some ta_double) the_market crit = true)
  /\ fetches_ok col the_market.
Proof.
  cbn zeta. apply candidate_iff_all_pass_and_fetched.
  vm_compute. apply list_elem_of_here.
Defined.

(* C1 as stated fails: the ticker request comes back empty.  Every
   enabled evaluator passes for the market, and the output is empty. *)
Lemma all_pass_without_ticker_counterexample :
  let col := collector_double 5000000000 [] in
  the_market ∈ UpbitAltcoinScreener.get_krw_markets col
  /\ (forall crit,
        enabled crit = true ->
        evaluator_passes listed_criteria col (Some ta_double) the_market crit
        = true)
  /\ screen_all_markets listed_criteria col (Some ta_double) = [].
Proof.
  cbn zeta. split; [vm_compute; apply list_elem_of_here |].
  split; [| vm_compute; reflexivity].
  intros [] E; try discriminate E; vm_compute; reflexivity.
Qed.

(* --------------------------------------------------------------------- *)
(*  The scenario of the specification                                    *)
(* --------------------------------------------------------------------- *)

Section Decides.

Variable c : ScreenerCriteria.
Variable col : Collector.api.
Variable ta : option TechnicalAnalyzer.TaLib.
Variable market : string.

(* A measured value other than the neutral 0 was compared with the
   thresholds. *)
Lemma check_volume_criteria_decides :
  let r := check_volume_criteria c col market in
  feqb r.2 (Fin 0) = false -> r.1 = fge r.2 (Fin (min_daily_volume_krw c)).
Proof.
  destruct (check_volume_criteria_cases c col market) as [-> | [v ->]]; simpl;
    [discriminate | done].
Qed.

Lemma check_ath_decline_criteria_decides :
  let r := check_ath_decline_criteria c col market in
  feqb r.2.2 (Fin 0) = false -> r.1 = fge r.2.2 (Fin (min_decline_from_ath c)).
Proof.
  destruct (check_ath_decline_criteria_cases c col market) as [-> | (a & v & ->)];
    simpl; [discriminate | done].
Qed.

Lemma check_volatility_criteria_decides :
  let r := check_volatility_criteria c col market in
  feqb r.2 (Fin 0) = false ->
  r.1 = fle (Fin (volatility_min c)) r.2 && fle r.2 (Fin (volatility_max c)).
Proof.
  destruct (check_volatility_criteria_cases c col market) as [-> | [v ->]]; simpl;
    [discriminate | done].
Qed.

Lemma check_cci_criteria_decides :
  let r := check_cci_criteria c col ta market in
  feqb r.2 (Fin 0) = false ->
  r.1 = fle (Fin (cci_min c)) r.2 && fle r.2 (Fin (cci_max c)).
Proof.
  destruct (check_cci_criteria_cases c col ta market) as [-> | (v & _ & ->)];
    simpl; [discriminate | done].
Qed.

Lemma check_rsi_criteria_decides :
  let r := check_rsi_criteria c col ta market in
  feqb r.2 (Fin 0) = false ->
  r.1 = fle (Fin (rsi_min c)) r.2 && fle r.2 (Fin (rsi_max c)).
Proof.
  destruct (check_rsi_criteria_cases c col ta market) as [-> | (v & _ & ->)];
    simpl; [discriminate | done].
Qed.

Lemma check_volume_growth_criteria_decides :
  let r := check_volume_growth_criteria c col market in
  feqb r.2 (Fin 0) = false -> r.1 = fge r.2 (Fin (volume_growth_min c)).
Proof.
  destruct (check_volume_growth_criteria_cases c col market) as [-> | [v ->]];
    simpl; [discriminate | done].
Qed.

End Decides.

(* A float equal to a rational is that rational, up to ==. *)
Lemma feqb_Fin (x : fval) (q : Q) :
  feqb x (Fin q) = true -> exists a, x = Fin a /\ a == q.
Proof.
  destruct x as [a | | |]; simpl; try discriminate.
  intros H. exists a. split; [reflexivity | by apply Qeq_bool_iff].
Qed.

Lemma py_min_Fin (c y : Q) :
  py_min (Fin c) (Fin y) = Fin (if Qltb y c then y else c).
Proof. unfold py_min. fsimpl. by destruct (Qltb y c). Qed.

Lemma py_max_Fin (c y : Q) :
  py_max (Fin c) (Fin y) = Fin (if Qltb c y then y else c).
Proof. unfold py_max. fsimpl. by destruct (Qltb c y). Qed.

(* Name every absolute value in the goal, keeping its two cases. *)
Lemma scenario_score (v a vo cc rs g : Q) :
  v == 5000000000 -> a == 40 -> vo == 60 -> cc == 10 -> rs == 55 -> g == 30 ->
  exists s,
    calculate_score listed_criteria (Fin v) (Fin a) (Fin vo) (Fin cc) (Fin rs)
      (Fin 50000000000) (Fin g) = Fin s
    /\ s == 68.5.
Proof.
  intros Hv Ha Hvo Hcc Hrs Hg.
  unfold calculate_score, volume_score, ath_score, volatility_score, cci_score,
    rsi_score, market_cap_score, volume_growth_score, py_truediv, fdiv.
  cbn [listed_criteria min_daily_volume_krw volatility_min volatility_max].
  change (Qeq_bool 100000000 0) with false.
  change (Qeq_bool 100 0) with false.
  change (Qeq_bool 2 0) with false.
  change (Qeq_bool 100000000000 0) with false.
  cbn [mbind option_bind try_except default]. fsimpl.
  rewrite !py_min_Fin, !py_max_Fin. fsimpl.
  eexists. split; [reflexivity |].
  qdiv. qabs; qcase; lra.
Qed.

Lemma get_recommendation_recommended (s : Q) :
  60 <= s -> s < 80 -> get_recommendation (Fin s) = "추천".
Proof.
  intros H1 H2. unfold get_recommendation. fsimpl.
  destruct (Qle_bool 80 s) eqn:E1; qprop; [lra |].
  destruct (Qle_bool 60 s) eqn:E2; qprop; [reflexivity | lra].
Qed.

(** C3 (amended).  Against the thresholds the specification lists for
    the scenario (the dataclass defaults with the decline floor and the
    growth floor at 20), an asset for which the evaluators measure
    volume 5e9, ATH decline 40, volatility 60, CCI 10, RSI 55 and volume
    growth 30, and whose ticker and listing fetches go through, passes
    the chain; the candidate has score 68.5 (the market cap entering the
    score is the constant 5e10 of the stubbed step, not a measured one)
    and the tier "추천" (recommended, the tier of scores from 60 up to
    80). *)
Theorem scenario_asset_is_recommended (col : Collector.api)
  (ta : option TechnicalAnalyzer.TaLib) (market : string) :
  feqb (check_volume_criteria listed_criteria col market).2 (Fin 5000000000) = true ->
  feqb (check_ath_decline_criteria listed_criteria col market).2.2 (Fin 40) = true ->
  feqb (check_volatility_criteria listed_criteria col market).2 (Fin 60) = true ->
  feqb (check_cci_criteria listed_criteria col ta market).2 (Fin 10) = true ->
  feqb (check_rsi_criteria listed_criteria col ta market).2 (Fin 55) = true ->
  feqb (check_volume_growth_criteria listed_criteria col market).2 (Fin 30) = true ->
  fetches_ok col market ->
  exists cand,
    screen_single_market listed_criteria col ta market = Some cand
    /\ feqb (score cand) (Fin 68.5) = true
    /\ fge (score cand) (Fin 60) = true
    /\ recommendation cand = "추천".
Proof.
  intros H1 H2 H3 H4 H5 H6 [(first & others & Hticker) [info Hinfo]].
  pose proof (check_volume_criteria_decides listed_criteria col market) as D1.
  pose proof (check_ath_decline_criteria_decides listed_criteria col market) as D2.
  pose proof (check_volatility_criteria_decides listed_criteria col market) as D3.
  pose proof (check_cci_criteria_decides listed_criteria col ta market) as D4.
  pose proof (check_rsi_criteria_decides listed_criteria col ta market) as D5.
  pose proof (check_volume_growth_criteria_decides listed_criteria col market) as D6.
  cbn zeta in *.
  destruct (check_volume_criteria listed_criteria col market) as [b1 v1] eqn:E1.
  destruct (check_ath_decline_criteria listed_criteria col market)
    as [b2 [ath v2]] eqn:E2.
  destruct (check_volatility_criteria listed_criteria col market) as [b3 v3] eqn:E3.
  destruct (check_cci_criteria listed_criteria col ta market) as [b4 v4] eqn:E4.
  destruct (check_rsi_criteria listed_criteria col ta market) as [b5 v5] eqn:E5.
  destruct (check_volume_growth_criteria listed_criteria col market)
    as [b6 v6] eqn:E6.
  cbn [fst snd] in *.
  apply feqb_Fin in H1 as (a1 & -> & Ha1).
  apply feqb_Fin in H2 as (a2 & -> & Ha2).
  apply feqb_Fin in H3 as (a3 & -> & Ha3).
  apply feqb_Fin in H4 as (a4 & -> & Ha4).
  apply feqb_Fin in H5 as (a5 & -> & Ha5).
  apply feqb_Fin in H6 as (a6 & -> & Ha6).
  assert (Hb1 : b1 = true).
  { rewrite D1 by (apply Qeq_bool_false; lra). apply Qle_bool_iff. simpl. lra. }
  assert (Hb2 : b2 = true).
  { rewrite D2 by (apply Qeq_bool_false; lra). apply Qle_bool_iff. simpl. lra. }
  assert (Hb3 : b3 = true).
  { rewrite D3 by (apply Qeq_bool_false; lra).
    apply andb_true_iff. split; apply Qle_bool_iff; simpl; lra. }
  assert (Hb4 : b4 = true).
  { rewrite D4 by (apply Qeq_bool_false; lra).
    apply andb_true_iff. split; apply Qle_bool_iff; simpl; lra. }
  assert (Hb5 : b5 = true).
  { rewrite D5 by (apply Qeq_bool_false; lra).
    apply andb_true_iff. split; apply Qle_bool_iff; simpl; lra. }
  assert (Hb6 : b6 = true).
  { rewrite D6 by (apply Qeq_bool_false; lra). apply Qle_bool_iff. simpl. lra. }
  subst.
  destruct (scenario_score a1 a2 a3 a4 a5 a6 Ha1 Ha2 Ha3 Ha4 Ha5 Ha6)
    as (s & Hscore & Hs).
  eexists. split.
  - apply screen_single_market_Some.
    by eexists _, _, _, _, _, _, _, _, _, _.
  - cbn [score recommendation]. rewrite Hscore.
    split; [apply Qeq_bool_iff, Hs |].
    split; [apply Qle_bool_iff; lra |].
    apply get_recommendation_recommended; lra.
Qed.

(* The theorem at a collector and an indicator package that report the
   values of the scenario. *)
Lemma scenario_asset_is_recommended_witness :
  exists cand,
    screen_single_market listed_criteria (collector_double 5000000000 [a_ticker])
      (Some ta_double) the_market = Some cand
    /\ feqb (score cand) (Fin 68.5) = true
    /\ fge (score cand) (Fin 60) = true
    /\ recommendation cand = "추천".
Proof.
  apply scenario_asset_is_recommended; try (vm_compute; reflexivity).
  split; [by eexists _, _ | by eexists].
Defined.

(* C3 as stated fails: against ScreenerCriteria() the same asset, with
   the same measured values, is rejected, at the volume-growth step:
   30 is below the default growth floor of 50. *)
Lemma scenario_rejected_by_defaults_counterexample :
  let col := collector_double 5000000000 [a_ticker] in
  let ta := Some ta_double in
  check_volume_criteria default_criteria col the_market = (true, Fin 5000000000)
  /\ (check_ath_decline_criteria default_criteria col the_market).1 = true
  /\ (check_ath_decline_criteria default_criteria col the_market).2.2 = Fin 40
  /\ check_volatility_criteria default_criteria col the_market = (true, Fin 60)
  /\ check_cci_criteria default_criteria col ta the_market = (true, Fin 10)
  /\ check_rsi_criteria default_criteria col ta the_market = (true, Fin 55)
  /\ check_volume_growth_criteria default_criteria col the_market
     = (false, Fin 30)
  /\ fetches_ok col the_market
  /\ screen_single_market default_criteria col ta the_market = None.
Proof.
  cbn zeta. repeat (split; [vm_compute; reflexivity |]).
  split; [| vm_compute; reflexivity].
  split; [by eexists _, _ | by eexists].
Qed.

(* --------------------------------------------------------------------- *)
(*  calculate_score: range and monotonicity, as claimed                  *)
(* --------------------------------------------------------------------- *)

(* The guards in front of the score.  A volume that passed the volume
   evaluator is at least the floor, an ATH decline that passed is at
   least the decline floor; with a positive volume floor and a decline
   floor that is not negative, the two sub-scores without a floor of
   their own are inside [0, 15]. *)
Lemma volume_score_of_passed (c : ScreenerCriteria) (volume : fval) :
  0 < min_daily_volume_krw c ->
  fge volume (Fin (min_daily_volume_krw c)) = true ->
  exists s, volume_score c volume = Some s /\ fval_in s 0 15.
Proof.
  intros Hfloor Hpass. destruct volume as [v | | |]; fsimpl; try discriminate.
  - qprop. apply volume_score_nonneg; lra.
  - unfold volume_score, py_truediv.
    destruct (Qeq_bool (min_daily_volume_krw c) 0) eqn:E; [qprop; lra |].
    cbn [mbind option_bind]. eexists. split; [reflexivity |].
    unfold fdiv. destruct (Qltb (min_daily_volume_krw c) 0) eqn:E'; [qprop; lra |].
    vm_compute. split; discriminate.
Qed.

Lemma ath_score_of_passed (c : ScreenerCriteria) (ath_decline : fval) :
  0 <= min_decline_from_ath c ->
  fge ath_decline (Fin (min_decline_from_ath c)) = true ->
  fval_in (ath_score ath_decline) 0 15.
Proof.
  intros Hfloor Hpass. destruct ath_decline as [a | | |]; fsimpl; try discriminate.
  - qprop. apply ath_score_nonneg. lra.
  - vm_compute. split; discriminate.
Qed.

Lemma calculate_score_of_passed (c : ScreenerCriteria)
  (volume ath_decline volatility cci rsi market_cap volume_growth : fval) :
  0 < min_daily_volume_krw c ->
  0 <= min_decline_from_ath c ->
  fge volume (Fin (min_daily_volume_krw c)) = true ->
  fge ath_decline (Fin (min_decline_from_ath c)) = true ->
  fval_in
    (calculate_score c volume ath_decline volatility cci rsi market_cap
       volume_growth) 0 100.
Proof.
  intros Hfloor Hdecline Hvolume Hath. unfold calculate_score.
  destruct (volume_score_of_passed c volume Hfloor Hvolume) as (s & -> & Hs).
  simpl.
  apply (fval_in_weaken _ (0 + 0 + 0 + 0 + 0 + 0 + 0)
           (15 + 15 + 15 + 15 + 15 + 15 + 10)); [lra | lra |].
  repeat apply fadd_in.
  - exact Hs.
  - by apply (ath_score_of_passed c).
  - apply volatility_score_range.
  - apply cci_score_range.
  - apply rsi_score_range.
  - apply market_cap_score_range.
  - apply volume_growth_score_range.
Qed.

Lemma passed_volume_guard (c : ScreenerCriteria) (col : Collector.api)
  (market : string) (volume : fval) :
  check_volume_criteria c col market = (true, volume) ->
  fge volume (Fin (min_daily_volume_krw c)) = true.
Proof.
  destruct (check_volume_criteria_cases c col market) as [-> | [v ->]];
    [discriminate |].
  by intros [= Hpass <-].
Qed.

Lemma passed_ath_decline_guard (c : ScreenerCriteria) (col : Collector.api)
  (market : string) (ath : pyval) (ath_decline : fval) :
  check_ath_decline_criteria c col market = (true, (ath, ath_decline)) ->
  fge ath_decline (Fin (min_decline_from_ath c)) = true.
Proof.
  destruct (check_ath_decline_criteria_cases c col market)
    as [-> | (a & v & ->)]; [discriminate |].
  by intros [= Hpass _ <-].
Qed.

(** C10.  calculate_score is called at one place, by
    screen_single_market, with the values the evaluators measured and
    let pass.  For every such combination of measured values, under
    criteria whose volume floor is positive and whose decline floor is
    not negative (as in every ScreenerCriteria of the repository), each
    of the seven sub-scores is inside its range, the six of volume, ATH
    decline, volatility, CCI, RSI and market cap in [0, 15] and the one
    of volume growth in [0, 10], and the score of the candidate, their
    sum, lies in [0, 100].  A score above 100 never occurs, for any
    criteria and any inputs, NaN and the infinities included. *)
Theorem calculate_score_range (c : ScreenerCriteria) :
  (forall volume ath_decline volatility cci rsi market_cap volume_growth,
      fval_le_Q
        (calculate_score c volume ath_decline volatility cci rsi market_cap
           volume_growth) 100)
  /\ (0 < min_daily_volume_krw c ->
      0 <= min_decline_from_ath c ->
      forall (col : Collector.api) (ta : option TechnicalAnalyzer.TaLib)
             (market : string) (cand : AltcoinCandidate),
        screen_single_market c col ta market = Some cand ->
        (exists s, volume_score c (volume_krw cand) = Some s /\ fval_in s 0 15)
        /\ fval_in (ath_score (ath_decline cand)) 0 15
        /\ fval_in (volatility_score c (volatility cand)) 0 15
        /\ fval_in (cci_score (cci cand)) 0 15
        /\ fval_in (rsi_score (rsi cand)) 0 15
        /\ fval_in (market_cap_score (market_cap cand)) 0 15
        /\ fval_in (volume_growth_score (volume_growth cand)) 0 10
        /\ score cand
           = calculate_score c (volume_krw cand) (ath_decline cand)
               (volatility cand) (cci cand) (rsi cand) (market_cap cand)
               (volume_growth cand)
        /\ fval_in (score cand) 0 100)
  /\ (0 < min_daily_volume_krw c ->
      0 <= min_decline_from_ath c ->
      forall (col : Collector.api) (ta : option TechnicalAnalyzer.TaLib)
             (cand : AltcoinCandidate),
        cand ∈ screen_all_markets c col ta -> fval_in (score cand) 0 100).
Proof.
  assert (Hone : 0 < min_daily_volume_krw c ->
                 0 <= min_decline_from_ath c ->
                 forall col ta market cand,
                   screen_single_market c col ta market = Some cand ->
                   fge (volume_krw cand) (Fin (min_daily_volume_krw c)) = true
                   /\ fge (ath_decline cand) (Fin (min_decline_from_ath c)) = true
                   /\ score cand
                      = calculate_score c (volume_krw cand) (ath_decline cand)
                          (volatility cand) (cci cand) (rsi cand) (market_cap cand)
                          (volume_growth cand)).
  { intros _ _ col ta market cand Hcand.
    pose proof (screen_single_market_score c col ta market cand Hcand) as Hscore.
    apply screen_single_market_Some in Hcand.
    destruct Hcand as (v & a & d & vo & cc & rs & g & first & others & info
                       & H1 & H2 & _ & _ & _ & _ & _ & _ & Hcand).
    split; [| split; [| exact Hscore]].
    - rewrite Hcand. cbn [volume_krw]. by eapply passed_volume_guard.
    - rewrite Hcand. cbn [ath_decline]. by eapply passed_ath_decline_guard. }
  split; [intros; apply calculate_score_le_100 |].
  split.
  - intros Hfloor Hdecline col ta market cand Hcand.
    destruct (Hone Hfloor Hdecline col ta market cand Hcand)
      as (Hvolume & Hath & Hscore).
    split; [by apply volume_score_of_passed |].
    split; [by apply (ath_score_of_passed c) |].
    split; [apply volatility_score_range |].
    split; [apply cci_score_range |].
    split; [apply rsi_score_range |].
    split; [apply market_cap_score_range |].
    split; [apply volume_growth_score_range |].
    split; [exact Hscore |].
    rewrite Hscore. by apply calculate_score_of_passed.
  - intros Hfloor Hdecline col ta cand (market & _ & Hcand)%screen_all_markets_elem.
    destruct (Hone Hfloor Hdecline col ta market cand Hcand)
      as (Hvolume & Hath & Hscore).
    rewrite Hscore. by apply calculate_score_of_passed.
Qed.

(* The theorem at the asset of the scenario, under the default criteria
   with the growth floor and the decline floor of the scenario. *)
Lemma calculate_score_range_witness :
  exists cand,
    screen_single_market listed_criteria (collector_double 5000000000 [a_ticker])
      (Some ta_double) the_market = Some cand
    /\ fval_in (score cand) 0 100.
Proof.
  destruct (screen_single_market listed_criteria
              (collector_double 5000000000 [a_ticker]) (Some ta_double)
              the_market) as [cand |] eqn:Hcand;
    [| vm_compute in Hcand; discriminate].
  exists cand. split; [reflexivity |].
  refine (proj2 (proj2 (proj2 (proj2 (proj2 (proj2 (proj2 (proj2
            (proj1 (proj2 (calculate_score_range listed_criteria)) _ _
               (collector_double 5000000000 [a_ticker]) (Some ta_double)
               the_market cand Hcand))))))))); [reflexivity | discriminate].
Defined.

(** C8.  With the other measured values held fixed, each sub-score, and
    with it the composite score, does not decrease when its dimension
    gets better: a larger ATH decline, a larger volume-growth, a larger
    volume (for a positive volume floor, the reference the volume is
    divided by), and, for volatility, CCI, RSI and market cap, a value
    nearer to the optimum (the middle of the volatility band, 0, 50 and
    1e11). *)
Theorem score_monotone_in_each_dimension (c : ScreenerCriteria)
  (volume ath_decline volatility cci rsi market_cap volume_growth : fval) :
  (forall x x', x <= x' ->
     fle (ath_score (Fin x)) (ath_score (Fin x')) = true
     /\ fle (calculate_score c volume (Fin x) volatility cci rsi market_cap
              volume_growth)
            (calculate_score c volume (Fin x') volatility cci rsi market_cap
              volume_growth) = true)
  /\ (forall x x', x <= x' ->
       fle (volume_growth_score (Fin x)) (volume_growth_score (Fin x')) = true
       /\ fle (calculate_score c volume ath_decline volatility cci rsi
                market_cap (Fin x))
              (calculate_score c volume ath_decline volatility cci rsi
                market_cap (Fin x')) = true)
  /\ (forall x x', 0 < min_daily_volume_krw c -> x <= x' ->
       (exists s s',
           volume_score c (Fin x) = Some s /\ volume_score c (Fin x') = Some s'
           /\ fle s s' = true)
       /\ fle (calculate_score c (Fin x) ath_decline volatility cci rsi
                market_cap volume_growth)
              (calculate_score c (Fin x') ath_decline volatility cci rsi
                market_cap volume_growth) = true)
  /\ (forall x x',
       closer ((volatility_min c + volatility_max c) / 2) x x' ->
       fle (volatility_score c (Fin x)) (volatility_score c (Fin x')) = true
       /\ fle (calculate_score c volume ath_decline (Fin x) cci rsi market_cap
                volume_growth)
              (calculate_score c volume ath_decline (Fin x') cci rsi market_cap
                volume_growth) = true)
  /\ (forall x x', closer 0 x x' ->
       fle (cci_score (Fin x)) (cci_score (Fin x')) = true
       /\ fle (calculate_score c volume ath_decline volatility (Fin x) rsi
                market_cap volume_growth)
              (calculate_score c volume ath_decline volatility (Fin x') rsi
                market_cap volume_growth) = true)
  /\ (forall x x', closer 50 x x' ->
       fle (rsi_score (Fin x)) (rsi_score (Fin x')) = true
       /\ fle (calculate_score c volume ath_decline volatility cci (Fin x)
                market_cap volume_growth)
              (calculate_score c volume ath_decline volatility cci (Fin x')
                market_cap volume_growth) = true)
  /\ (forall x x', closer 100000000000 x x' ->
       fle (market_cap_score (Fin x)) (market_cap_score (Fin x')) = true
       /\ fle (calculate_score c volume ath_decline volatility cci rsi (Fin x)
                volume_growth)
              (calculate_score c volume ath_decline volatility cci rsi (Fin x')
                volume_growth) = true).
Proof.
  repeat split.
  - by apply ath_score_mono.
  - by apply calculate_score_mono_ath.
  - by apply volume_growth_score_mono.
  - by apply calculate_score_mono_volume_growth.
  - by apply volume_score_mono.
  - by apply calculate_score_mono_volume.
  - by apply volatility_score_mono.
  - by apply calculate_score_mono_volatility.
  - by apply cci_score_mono.
  - by apply calculate_score_mono_cci.
  - by apply rsi_score_mono.
  - by apply calculate_score_mono_rsi.
  - by apply market_cap_score_mono.
  - by apply calculate_score_mono_market_cap.
Qed.

(* The theorem at the default criteria, around the values of the
   scenario: ATH decline 40 to 50, volume growth 30 to 60, volume 5e7 to
   1e8, volatility 60 to 70 (optimum 80), CCI 10 to -5, RSI 55 to 52,
   market cap 5e10 to 9e10. *)
Lemma score_monotone_in_each_dimension_witness :
  let c := default_criteria in
  fle (ath_score (Fin 40)) (ath_score (Fin 50)) = true
  /\ fle (volume_growth_score (Fin 30)) (volume_growth_score (Fin 60)) = true
  /\ fle (calculate_score c (Fin 50000000) (Fin 40) (Fin 60) (Fin 10) (Fin 55)
            (Fin 50000000000) (Fin 30))
         (calculate_score c (Fin 100000000) (Fin 40) (Fin 60) (Fin 10) (Fin 55)
            (Fin 50000000000) (Fin 30)) = true
  /\ fle (volatility_score c (Fin 60)) (volatility_score c (Fin 70)) = true
  /\ fle (cci_score (Fin 10)) (cci_score (Fin (-5))) = true
  /\ fle (rsi_score (Fin 55)) (rsi_score (Fin 52)) = true
  /\ fle (market_cap_score (Fin 50000000000)) (market_cap_score (Fin 90000000000))
     = true.
Proof.
  cbn zeta.
  destruct (score_monotone_in_each_dimension default_criteria
              (Fin 5000000000) (Fin 40) (Fin 60) (Fin 10) (Fin 55)
              (Fin 50000000000) (Fin 30))
    as (Hath & Hgrowth & Hvolume & Hvolatility & Hcci & Hrsi & Hcap).
  split; [apply (Hath 40 50); discriminate |].
  split; [apply (Hgrowth 30 60); discriminate |].
  split; [apply (Hvolume 50000000 100000000); [reflexivity | discriminate] |].
  split; [apply (Hvolatility 60 70); vm_compute; discriminate |].
  split; [apply (Hcci 10 (-5)); vm_compute; discriminate |].
  split; [apply (Hrsi 55 52); vm_compute; discriminate |].
  apply (Hcap 50000000000 90000000000); vm_compute; discriminate.
Defined.

(* --------------------------------------------------------------------- *)
(*  The evaluators on the collector of collector.py                      *)
(* --------------------------------------------------------------------- *)

Lemma get_price_vs_moving_average_shape (ex : Exchange) (market : string)
  (ma_period : nat) :
  exists position ma_value current_price : pyval,
    get_price_vs_moving_average ex market ma_period
    = {[ "position" := position; "ma_value" := ma_value;
         "current_price" := current_price ]}.
Proof.
  unfold get_price_vs_moving_average.
  destruct (get_candles_daily ex market (ma_period + 10)) as [| first others];
    [by eexists _, _, _ |].
  destruct (length (first :: others) <? ma_period)%nat; [by eexists _, _, _ |].
  destruct (py_truediv _ _) as [ma_value |]; [| by eexists _, _, _].
  cbn [mbind option_bind].
  destruct (py_truediv _ _) as [ratio |]; by eexists _, _, _.
Qed.

(* The dictionary of the collector has neither of the keys the
   evaluator reads. *)
Lemma check_moving_average_criteria_real (c : ScreenerCriteria)
  (series_std : Series -> fval) (sqrt_252 : Q) (ex : Exchange) (market : string) :
  check_moving_average_criteria c (as_api series_std sqrt_252 ex) market
  = (negb (require_above_ma c), Fin 0).
Proof.
  unfold check_moving_average_criteria. cbn [as_api Collector.get_price_vs_moving_average].
  destruct (get_price_vs_moving_average_shape ex market (ma_period c))
    as (position & ma_value & current_price & ->).
  cbn [mbind option_bind].
  change (dict_is_empty _) with false.
  by destruct (require_above_ma c).
Qed.

(** C6 (the code as it stands).  At a market that trades at 110 above a
    20-day average of 100.5, the collector computes the offset of the
    price against the average, about 9.45 %, under the key "position";
    the evaluator reads the keys "above_ma" and "position_vs_ma_pct",
    finds neither, and with the above-MA requirement enabled returns
    fail together with the value 0. *)
Theorem moving_average_evaluator_misses_keys (series_std : Series -> fval)
  (sqrt_252 : Q) :
  let col := as_api series_std sqrt_252 rising_exchange in
  let ma_info := get_price_vs_moving_average rising_exchange the_market 20 in
  Collector.get_price_vs_moving_average col the_market
    (ma_period default_criteria) = Some ma_info
  /\ has_number ma_info "current_price" 110 = true
  /\ has_number ma_info "ma_value" 100.5 = true
  /\ has_number ma_info "position" ((110 - 100.5) / 100.5 * 100) = true
  /\ ma_info !! "above_ma" = None
  /\ ma_info !! "position_vs_ma_pct" = None
  /\ require_above_ma default_criteria = true
  /\ check_moving_average_criteria default_criteria col the_market
     = (false, Fin 0).
Proof.
  cbn zeta. split; [reflexivity |].
  split; [vm_compute; reflexivity |].
  split; [vm_compute; reflexivity |].
  split; [vm_compute; reflexivity |].
  split; [vm_compute; reflexivity |].
  split; [vm_compute; reflexivity |].
  split; [reflexivity |].
  apply check_moving_average_criteria_real.
Qed.

Section WithoutData.

Variable c : ScreenerCriteria.
Variable series_std : Series -> fval.
Variable sqrt_252 : Q.
Variable ex : Exchange.
Variable ta : option TechnicalAnalyzer.TaLib.
Variable market : string.

(* No candle request for the market gets an answer. *)
Hypothesis no_candles : forall count, get_candles_daily ex market count = [].

Local Abbreviation col := (as_api series_std sqrt_252 ex).

Lemma check_volume_criteria_without_data :
  check_volume_criteria c col market = (false, Fin 0).
Proof.
  unfold check_volume_criteria. cbn [as_api Collector.get_volume_info].
  unfold get_volume_info. by rewrite no_candles.
Qed.

Lemma check_ath_decline_criteria_without_data :
  check_ath_decline_criteria c col market = (false, (PNum (Fin 0), Fin 0)).
Proof.
  unfold check_ath_decline_criteria. cbn [as_api Collector.get_all_time_high].
  unfold get_all_time_high. by rewrite no_candles.
Qed.

Lemma check_volatility_criteria_without_data :
  0 < volatility_min c ->
  check_volatility_criteria c col market = (false, Fin 0).
Proof.
  intros Hmin. unfold check_volatility_criteria.
  cbn [as_api Collector.calculate_volatility].
  unfold calculate_volatility, get_ohlcv_dataframe. rewrite no_candles.
  cbn. destruct (Qle_bool (volatility_min c) 0) eqn:E; qprop; [lra | done].
Qed.

Lemma check_cci_criteria_without_data :
  check_cci_criteria c col ta market = (false, Fin 0).
Proof.
  unfold check_cci_criteria. cbn [as_api Collector.get_ohlcv_dataframe].
  unfold get_ohlcv_dataframe. by rewrite no_candles.
Qed.

Lemma check_rsi_criteria_without_data :
  check_rsi_criteria c col ta market = (false, Fin 0).
Proof.
  unfold check_rsi_criteria. cbn [as_api Collector.get_ohlcv_dataframe].
  unfold get_ohlcv_dataframe. by rewrite no_candles.
Qed.

Lemma check_volume_growth_criteria_without_data :
  check_volume_growth_criteria c col market = (false, Fin 0).
Proof.
  unfold check_volume_growth_criteria.
  cbn [as_api Collector.get_volume_growth].
  unfold get_volume_growth, get_ohlcv_dataframe. by rewrite no_candles.
Qed.

(* The collector answers a market without candles with a dictionary of
   two entries, which is not empty, and without the key the evaluator
   reads: the evaluator compares the default 0 with the maximum. *)
Lemma check_consecutive_decline_criteria_without_data :
  check_consecutive_decline_criteria c col market
  = (Qltb 0 (inject_Z (Z.of_nat (max_consecutive_decline c))), Fin 0).
Proof.
  unfold check_consecutive_decline_criteria.
  cbn [as_api Collector.check_consecutive_decline].
  unfold UpbitDataCollector.check_consecutive_decline. by rewrite no_candles.
Qed.

(* check_recent_spike is called with a keyword the collector does not
   have; the TypeError is caught. *)
Lemma check_recent_spike_criteria_real :
  check_recent_spike_criteria c col market = (false, PStr "none").
Proof. reflexivity. Qed.

End WithoutData.

Section Raising.

Variable c : ScreenerCriteria.
Variable col : Collector.api.
Variable ta : option TechnicalAnalyzer.TaLib.
Variable market : string.

(* An exception raised by the collector is caught by each evaluator,
   which then returns fail with its neutral value. *)
Lemma evaluators_catch_exceptions :
  (Collector.get_volume_info col market 7 = None ->
   check_volume_criteria c col market = (false, Fin 0))
  /\ (Collector.get_all_time_high col market = None ->
      check_ath_decline_criteria c col market = (false, (PNum (Fin 0), Fin 0)))
  /\ (Collector.calculate_volatility col market 30 = None ->
      check_volatility_criteria c col market = (false, Fin 0))
  /\ (Collector.get_ohlcv_dataframe col market 50 = None ->
      check_cci_criteria c col ta market = (false, Fin 0)
      /\ check_rsi_criteria c col ta market = (false, Fin 0))
  /\ (Collector.get_market_cap col market = None ->
      check_market_cap_criteria c col market = (false, Fin 0))
  /\ (Collector.get_volume_growth col market (volume_growth_days c) = None ->
      check_volume_growth_criteria c col market = (false, Fin 0))
  /\ (Collector.check_consecutive_decline col market (max_consecutive_decline c)
      = None ->
      check_consecutive_decline_criteria c col market = (false, Fin 0))
  /\ (Collector.check_recent_spike col market (max_recent_spike c)
        (recent_spike_days c) = None ->
      check_recent_spike_criteria c col market = (false, PStr "none"))
  /\ (Collector.get_price_vs_moving_average col market (ma_period c) = None ->
      check_moving_average_criteria c col market = (false, Fin 0)).
Proof.
  unfold check_volume_criteria, check_ath_decline_criteria,
    check_volatility_criteria, check_cci_criteria, check_rsi_criteria,
    check_market_cap_criteria, check_volume_growth_criteria,
    check_consecutive_decline_criteria, check_recent_spike_criteria,
    check_moving_average_criteria.
  split; [by intros -> |].
  split; [by intros -> |].
  split; [by intros -> |].
  split; [by intros -> |].
  split; [by intros -> |].
  split; [by intros -> |].
  split; [by intros -> |].
  split; by intros ->.
Qed.

End Raising.

(** C9 (the code as it stands).  For a market whose candle requests get
    no answer, and under the default criteria, the consecutive-decline
    evaluator returns pass, with the value 0: the collector's answer for
    missing data is a non-empty dictionary, which the evaluator's
    emptiness test lets through.  The volume, ATH-decline, volatility,
    CCI, RSI and volume-growth evaluators return fail with the value 0
    at the same market. *)
Theorem consecutive_decline_passes_without_data (series_std : Series -> fval)
  (sqrt_252 : Q) (ta : option TechnicalAnalyzer.TaLib) :
  let col := as_api series_std sqrt_252 silent_exchange in
  (forall count, get_candles_daily silent_exchange the_market count = [])
  /\ check_consecutive_decline_criteria default_criteria col the_market
     = (true, Fin 0)
  /\ check_volume_criteria default_criteria col the_market = (false, Fin 0)
  /\ check_ath_decline_criteria default_criteria col the_market
     = (false, (PNum (Fin 0), Fin 0))
  /\ check_volatility_criteria default_criteria col the_market = (false, Fin 0)
  /\ check_cci_criteria default_criteria col ta the_market = (false, Fin 0)
  /\ check_rsi_criteria default_criteria col ta the_market = (false, Fin 0)
  /\ check_volume_growth_criteria default_criteria col the_market
     = (false, Fin 0).
Proof.
  cbn zeta.
  assert (Hnone : forall count,
             get_candles_daily silent_exchange the_market count = [])
    by (intros count; reflexivity).
  split; [exact Hnone |].
  split; [by rewrite check_consecutive_decline_criteria_without_data |].
  split; [by apply check_volume_criteria_without_data |].
  split; [by apply check_ath_decline_criteria_without_data |].
  split; [by apply check_volatility_criteria_without_data |].
  split; [by apply check_cci_criteria_without_data |].
  split; [by apply check_rsi_criteria_without_data |].
  by apply check_volume_growth_criteria_without_data.
Qed.

(* --------------------------------------------------------------------- *)
(*  calculate_cci and check_cci_criteria: the zero mean deviation        *)
(* --------------------------------------------------------------------- *)

Lemma mean_abs_deviation_finite (l : list Q) :
  l <> [] -> mean_abs_deviation (map Fin l) = Fin (mean_deviation l).
Proof.
  intros Hl. unfold mean_abs_deviation, mean_deviation, mean_of.
  rewrite (fmean_finite l Hl), map_map.
  rewrite <- (map_map (fun x => Qabs (x - Qsum l / len_Q l)) Fin).
  rewrite fmean_finite; [reflexivity |].
  destruct l; [congruence | discriminate].
Qed.

Lemma window_at_last {A : Type} (w i : nat) (l : list A) (x : A) :
  (1 <= w)%nat -> (w <= i + 1)%nat -> l !! i = Some x ->
  window_at w i l !! (w - 1)%nat = Some x.
Proof.
  intros Hw Hwi Hx. unfold window_at.
  rewrite lookup_take_lt by lia. rewrite lookup_drop.
  replace (i + 1 - w + (w - 1))%nat with i by lia. exact Hx.
Qed.

(* A window with mean deviation zero is constant. *)
Lemma zero_deviation_constant (l : list Q) (x : Q) :
  mean_deviation l == 0 -> x ∈ l -> x == mean_of l.
Proof.
  intros Hdev Hx. unfold mean_deviation in Hdev.
  set (m := mean_of l) in *. unfold mean_of in Hdev.
  assert (Hl : l <> []) by (intros ->; by apply elem_of_nil in Hx).
  assert (Hlen : 0 < len_Q (map (fun y => Qabs (y - m)) l)).
  { apply len_Q_pos. destruct l; [congruence | discriminate]. }
  assert (Hsum : Qsum (map (fun y => Qabs (y - m)) l) == 0).
  { rewrite <- (Qmult_div_r (Qsum _) (len_Q (map (fun y => Qabs (y - m)) l)))
      by lra.
    rewrite Hdev. ring. }
  assert (Hnonneg : Forall (fun d => 0 <= d) (map (fun y => Qabs (y - m)) l)).
  { generalize m. clear. intros m.
    induction l; constructor; [apply Qabs_nonneg | done]. }
  pose proof (Qsum_zero _ Hnonneg Hsum) as Hzero.
  apply list_elem_of_lookup in Hx as [i Hi].
  assert (Hi' : map (fun y => Qabs (y - m)) l !! i = Some (Qabs (x - m))).
  { by rewrite list_lookup_fmap, Hi. }
  pose proof (Forall_lookup_1 _ _ _ _ Hzero Hi') as H0. cbn beta in H0.
  revert H0. qabs; lra.
Qed.

Lemma cci_manual_length (df : DataFrame) (period : nat) :
  length (cci_manual df period) = length (rows df).
Proof.
  unfold cci_manual, rolling_mean, typical_price.
  rewrite !length_zip_with, !length_map, !rolling_apply_length, !length_map. lia.
Qed.

(* The zero-denominator case of the manual CCI: over a window of mean
   deviation zero the typical price equals its moving average, and the
   quotient is 0/0. *)
Lemma cci_manual_zero_deviation (df : DataFrame) (tp : list Q) (period i : nat) :
  typical_price df = map Fin tp ->
  (1 <= period)%nat -> (period <= i + 1)%nat -> (i < length tp)%nat ->
  mean_deviation (window_at period i tp) == 0 ->
  cci_manual df period !! i = Some NaN.
Proof.
  intros Htp Hp Hpi Hi Hdev. unfold cci_manual. rewrite Htp.
  destruct (lookup_lt_is_Some_2 tp i Hi) as [x Hx].
  pose proof (window_at_length period i tp Hpi Hi) as Hlen.
  assert (Hne : window_at period i tp <> []).
  { intros E. rewrite E in Hlen. simpl in Hlen. lia. }
  rewrite !lookup_zip_with, !list_lookup_fmap, Hx.
  rewrite rolling_mean_finite by assumption.
  rewrite rolling_apply_lookup by (by rewrite length_map).
  assert (E : (i + 1 <? period)%nat = false) by (apply Nat.ltb_ge; lia).
  rewrite E, window_at_map, mean_abs_deviation_finite by exact Hne.
  cbn [fmap option_fmap option_map mbind option_bind]. fsimpl.
  assert (Hmean : x == Qsum (window_at period i tp) / inject_Z (Z.of_nat period)).
  { rewrite (zero_deviation_constant (window_at period i tp) x Hdev).
    - unfold mean_of, len_Q. by rewrite Hlen.
    - eapply list_elem_of_lookup_2. by apply window_at_last. }
  assert (E1 : Qeq_bool (0.015 * mean_deviation (window_at period i tp)) 0 = true).
  { apply Qeq_bool_iff. rewrite Hdev. ring. }
  assert (E2 : Qeq_bool
                 (x + - (Qsum (window_at period i tp) / inject_Z (Z.of_nat period)))
                 0 = true).
  { apply Qeq_bool_iff. rewrite <- Hmean. ring. }
  by rewrite E1, E2.
Qed.

Lemma align_same_length (n : nat) (values : Series) :
  length values = n -> align n values = values.
Proof.
  intros <-. unfold align. rewrite firstn_all, Nat.sub_diag. apply app_nil_r.
Qed.

(* Without the indicator package, the CCI column of a frame is the
   manual one. *)
Lemma calculate_cci_manual_column (df : DataFrame) (period : nat) :
  get_num (calculate_cci None df period) "CCI" = Some (cci_manual df period).
Proof.
  unfold calculate_cci, get_num. cbn [mbind option_bind try_except default].
  unfold set_str, set_num. cbn [computed rows].
  unfold id. cbn [computed].
  rewrite (lookup_insert_ne _ "CCI_signal" "CCI") by discriminate.
  rewrite lookup_insert_eq.
  by rewrite align_same_length by apply cci_manual_length.
Qed.

Section ZeroDeviation.

Variable c : ScreenerCriteria.
Variable col : Collector.api.
Variable market : string.
Variable df : DataFrame.
Variable tp : list Q.

Hypothesis frame : Collector.get_ohlcv_dataframe col market 50 = Some df.
Hypothesis finite : typical_price df = map Fin tp.
Hypothesis period_pos : (1 <= cci_period c)%nat.
Hypothesis enough_rows : (cci_period c <= length tp)%nat.
Hypothesis flat :
  mean_deviation (window_at (cci_period c) (length tp - 1) tp) == 0.

Lemma cci_manual_last_is_nan :
  iloc_last (cci_manual df (cci_period c)) = Some NaN.
Proof.
  unfold iloc_last. rewrite last_lookup, cci_manual_length.
  assert (Hrows : length (rows df) = length tp).
  { rewrite <- (length_map Fin tp), <- finite. unfold typical_price.
    by rewrite length_map. }
  rewrite Hrows.
  replace (Init.Nat.pred (length tp)) with (length tp - 1)%nat by lia.
  apply (cci_manual_zero_deviation df tp); try assumption; lia.
Qed.

Lemma check_cci_criteria_zero_deviation :
  check_cci_criteria c col None market = (false, Fin 0).
Proof.
  unfold check_cci_criteria. rewrite frame. cbn [mbind option_bind].
  assert (Hrows : length (rows df) = length tp).
  { rewrite <- (length_map Fin tp), <- finite. unfold typical_price.
    by rewrite length_map. }
  unfold df_empty. destruct (rows df) as [| r rs] eqn:Er.
  { simpl in Hrows. lia. }
  rewrite calculate_cci_manual_column, cci_manual_last_is_nan. reflexivity.
Qed.

End ZeroDeviation.

(** C5.  Whatever the collector returns and whichever CCI
    implementation is in use, the CCI value check_cci_criteria returns
    is never NaN, and when the criterion passes it is a finite number
    inside the CCI band; so the CCI of every candidate, the value that
    enters its composite score, is finite.  In particular, in the manual
    computation a trailing window of mean absolute deviation zero (a
    constant-price series, say) makes the latest CCI 0/0 = NaN, and the
    evaluator answers it with fail and the value 0: the market is
    rejected before any score is computed. *)
Theorem cci_zero_deviation_never_reaches_score (c : ScreenerCriteria)
  (col : Collector.api) (ta : option TechnicalAnalyzer.TaLib) (market : string) :
  (is_nan (check_cci_criteria c col ta market).2 = false
   /\ ((check_cci_criteria c col ta market).1 = true ->
       fval_in (check_cci_criteria c col ta market).2 (cci_min c) (cci_max c)))
  /\ (forall cand,
        screen_single_market c col ta market = Some cand ->
        fval_in (cci cand) (cci_min c) (cci_max c)
        /\ score cand
           = calculate_score c (volume_krw cand) (ath_decline cand)
               (volatility cand) (cci cand) (rsi cand) (market_cap cand)
               (volume_growth cand))
  /\ (forall df tp,
        Collector.get_ohlcv_dataframe col market 50 = Some df ->
        typical_price df = map Fin tp ->
        (1 <= cci_period c)%nat ->
        (cci_period c <= length tp)%nat ->
        mean_deviation (window_at (cci_period c) (length tp - 1) tp) == 0 ->
        iloc_last (cci_manual df (cci_period c)) = Some NaN
        /\ check_cci_criteria c col None market = (false, Fin 0)
        /\ screen_single_market c col None market = None).
Proof.
  assert (Hguard :
            is_nan (check_cci_criteria c col ta market).2 = false
            /\ ((check_cci_criteria c col ta market).1 = true ->
                fval_in (check_cci_criteria c col ta market).2
                  (cci_min c) (cci_max c))).
  { destruct (check_cci_criteria_cases c col ta market)
      as [-> | (x & Hx & ->)]; cbn [fst snd].
    - split; [reflexivity | discriminate].
    - split; [exact Hx |].
      intros [H1 H2]%andb_true_iff.
      destruct x as [a | | |]; simpl in H1, H2; try discriminate.
      simpl. qprop. lra. }
  split; [exact Hguard |]. split.
  - intros cand Hcand. split; [| by eapply screen_single_market_score].
    destruct Hguard as [_ Hband].
    apply screen_single_market_Some in Hcand
      as (? & ? & ? & ? & measured & ? & ? & ? & ? & ? & _ & _ & _ & Hcci & _
          & _ & _ & _ & ->).
    rewrite Hcci in Hband. cbn [cci]. by apply Hband.
  - intros df tp Hframe Hfinite Hpos Hrows Hflat.
    split; [by eapply cci_manual_last_is_nan |].
    assert (Hfail : check_cci_criteria c col None market = (false, Fin 0))
      by (by eapply check_cci_criteria_zero_deviation).
    split; [exact Hfail |].
    destruct (screen_single_market c col None market) as [cand |] eqn:E;
      [| reflexivity].
    apply screen_single_market_Some in E
      as (? & ? & ? & ? & ? & ? & ? & ? & ? & ? & _ & _ & _ & Hcci & _).
    rewrite Hfail in Hcci. discriminate Hcci.
Qed.

(* The theorem at a market that trades at 100 every day (manual CCI,
   default period 20, collector of collector.py), and at the asset of
   the scenario. *)
Lemma cci_zero_deviation_never_reaches_score_witness :
  let flat := as_api (fun _ => NaN) 0 flat_exchange in
  (check_cci_criteria default_criteria flat None the_market = (false, Fin 0)
   /\ screen_single_market default_criteria flat None the_market = None)
  /\ exists cand,
       screen_single_market listed_criteria
         (collector_double 5000000000 [a_ticker]) (Some ta_double) the_market
       = Some cand
       /\ fval_in (cci cand) (-200) 200.
Proof.
  cbn zeta. split.
  - destruct (cci_zero_deviation_never_reaches_score default_criteria
                (as_api (fun _ => NaN) 0 flat_exchange) None the_market)
      as (_ & _ & Hflat).
    destruct (Hflat (get_ohlcv_dataframe flat_exchange the_market 50)
                (repeat ((100 + 100 + 100) / 3) 50))
      as (_ & Hfail & Hnone).
    + reflexivity.
    + vm_compute. reflexivity.
    + simpl. lia.
    + simpl. lia.
    + vm_compute. reflexivity.
    + split; [exact Hfail | exact Hnone].
  - destruct (screen_single_market listed_criteria
                (collector_double 5000000000 [a_ticker]) (Some ta_double)
                the_market) as [cand |] eqn:Hcand;
      [| vm_compute in Hcand; discriminate Hcand].
    exists cand. split; [reflexivity |].
    destruct (cci_zero_deviation_never_reaches_score listed_criteria
                (collector_double 5000000000 [a_ticker]) (Some ta_double)
                the_market)
      as (_ & Hcandidates & _).
    exact (proj1 (Hcandidates cand Hcand)).
Defined.

(* ===================================================================== *)
(*  Part III.  The collector, the screener and the indicators beyond     *)
(*  the scoring pipeline                                                 *)
(* ===================================================================== *)

(* --------------------------------------------------------------------- *)
(*  The market list                                                      *)
(* --------------------------------------------------------------------- *)

Lemma krw_market_not_excluded (market : string) :
  String.prefix "KRW-" market = true -> market ∉ exclude_symbols.
Proof.
  intros Hp Hin. unfold exclude_symbols in Hin.
  repeat (apply elem_of_union in Hin as [Hin | Hin]);
    apply elem_of_singleton in Hin; subst market; discriminate Hp.
Qed.

Lemma filter_all {A : Type} (P : A -> Prop) `{!forall x, Decision (P x)} (l : list A) :
  Forall P l -> filter P l = l.
Proof.
  induction 1 as [| x l Hx _ IH]; [done |].
  rewrite filter_cons_True by done. by rewrite IH.
Qed.

(** X1.  The collector lists the markets whose code starts with "KRW-";
    the symbols the screener excludes are written "BTC/KRW",
    "ETH/KRW", ..., so none of them is the code of a listed market: on
    the collector of collector.py the screener's market list is the
    collector's list, nothing removed. *)
Theorem exclude_symbols_never_match (series_std : Series -> fval) (sqrt_252 : Q)
  (ex : Exchange) :
  Forall (fun market => String.prefix "KRW-" market = true
                        /\ market ∉ exclude_symbols)
         (UpbitDataCollector.get_krw_markets ex)
  /\ UpbitAltcoinScreener.get_krw_markets (as_api series_std sqrt_252 ex)
     = UpbitDataCollector.get_krw_markets ex.
Proof.
  assert (H : Forall (fun market => String.prefix "KRW-" market = true)
                (UpbitDataCollector.get_krw_markets ex)).
  { unfold UpbitDataCollector.get_krw_markets.
    induction (get_all_markets ex) as [| m l IH]; [constructor |].
    rewrite filter_cons. destruct (decide _) as [Hm |]; [| exact IH].
    by constructor. }
  split.
  - eapply Forall_impl; [exact H |]. intros m Hm. split; [exact Hm |].
    by apply krw_market_not_excluded.
  - unfold UpbitAltcoinScreener.get_krw_markets. cbn [as_api Collector.get_krw_markets].
    cbn [mbind option_bind try_except default]. 
    apply filter_all. eapply Forall_impl; [exact H |]. apply krw_market_not_excluded.
Qed.

(* --------------------------------------------------------------------- *)
(*  check_market_cap_criteria on the collector of collector.py           *)
(* --------------------------------------------------------------------- *)

Lemma get_market_cap_shape (ex : Exchange) (market : string) :
  exists (cap : Q) (others : dict),
    get_market_cap ex market = <["market_cap_krw" := num cap]> others
    /\ others !! "estimated_market_cap_krw" = None.
Proof.
  unfold get_market_cap, market_cap_fallback.
  destruct (get_ticker_info ex [market]) as [| first others];
    eexists _, _; (split; [reflexivity | reflexivity]).
Qed.

(** X2.  get_market_cap stores its estimate under "market_cap_krw"
    and has no entry "estimated_market_cap_krw", the key the market-cap
    evaluator reads: on the collector of collector.py the evaluator
    measures 0 for every market, and passes exactly when 0 is inside
    the market-cap band. *)
Theorem market_cap_evaluator_misses_key (c : ScreenerCriteria)
  (series_std : Series -> fval) (sqrt_252 : Q) (ex : Exchange) (market : string) :
  let col := as_api series_std sqrt_252 ex in
  (exists cap, has_number (get_market_cap ex market) "market_cap_krw" cap = true)
  /\ get_market_cap ex market !! "estimated_market_cap_krw" = None
  /\ (check_market_cap_criteria c col market).2 = Fin 0
  /\ ((check_market_cap_criteria c col market).1 = true
      <-> min_market_cap_krw c <= 0 /\ 0 <= max_market_cap_krw c).
Proof.
  cbn zeta.
  destruct (get_market_cap_shape ex market) as (cap & others & Hd & Hkey).
  split; [| split].
  - exists cap. unfold has_number. rewrite Hd, lookup_insert_eq. cbn.
    apply Qeq_bool_iff. reflexivity.
  - rewrite Hd. by rewrite lookup_insert_ne.
  - unfold check_market_cap_criteria. cbn [as_api Collector.get_market_cap].
    cbn [mbind option_bind].
    assert (Hne : dict_is_empty (get_market_cap ex market) = false).
    { unfold dict_is_empty. apply bool_decide_eq_false.
      intros Hsize%map_size_empty_inv. rewrite Hd in Hsize.
      by apply insert_non_empty in Hsize. }
    rewrite Hne. unfold dict_get.
    assert (Hk : get_market_cap ex market !! "estimated_market_cap_krw" = None)
      by (rewrite Hd; by rewrite lookup_insert_ne).
    rewrite Hk. cbn. split; [reflexivity |].
    rewrite andb_true_iff. fsimpl. by rewrite !Qle_bool_iff.
Qed.

(* --------------------------------------------------------------------- *)
(*  get_volume_info and get_all_time_high                                *)
(* --------------------------------------------------------------------- *)

Lemma Qlist_max_ge (x : Q) (l : list Q) :
  x <= Qlist_max x l /\ Forall (fun y => y <= Qlist_max x l) l.
Proof.
  unfold Qlist_max. revert x. induction l as [| y l IH]; intros x; simpl.
  - split; [lra | constructor].
  - destruct (IH (if Qltb x y then y else x)) as [H1 H2].
    destruct (Qltb x y) eqn:E; qprop; (split; [lra | constructor; [lra | exact H2]]).
Qed.


Lemma Qlist_max_In (x : Q) (l : list Q) : In (Qlist_max x l) (x :: l).
Proof.
  unfold Qlist_max. revert x. induction l as [| y l IH]; intros x; simpl.
  - by left.
  - destruct (IH (if Qltb x y then y else x)) as [H | H].
    + destruct (Qltb x y); [right; left | left]; exact H.
    + right. right. exact H.
Qed.






(** X4.  For a market whose newest candle closes at a positive price
    not above its high, get_all_time_high reports as all-time high the
    largest high of the candles, one that a candle reaches, and a
    decline (ath - price) / ath * 100 inside [0, 100). *)
Theorem get_all_time_high_decline (ex : Exchange) (market : string)
  (first : Candle) (others : list Candle) :
  let ath_info := get_all_time_high ex market in
  get_candles_daily ex market 200 = first :: others ->
  0 < trade_price first <= high_price first ->
  exists ath decline : Q,
    ath_info !! "all_time_high" = Some (num ath)
    /\ ath_info !! "current_price" = Some (num (trade_price first))
    /\ ath_info !! "decline_from_ath" = Some (PNum (Fin decline))
    /\ Forall (fun candle => high_price candle <= ath) (first :: others)
    /\ Exists (fun candle => high_price candle = ath) (first :: others)
    /\ decline == (ath - trade_price first) / ath * 100
    /\ 0 <= decline < 100.
Proof.
  cbn zeta. intros Hc [Hpos Hle]. unfold get_all_time_high. rewrite Hc. cbn zeta.
  set (ath := Qlist_max (high_price first) (map high_price others)).
  destruct (Qlist_max_ge (high_price first) (map high_price others)) as [Hx1 Hx2].
  fold ath in Hx1, Hx2.
  assert (Hath : 0 < ath) by lra.
  exists ath, ((ath - trade_price first) / ath * 100).
  assert (E : Qeq_bool ath 0 = false) by (apply Qeq_bool_false; lra).
  unfold py_truediv. rewrite E.
  cbn [mbind option_bind try_except default]. cbn [fdiv fmul]. rewrite E.
  split; [by simplify_map_eq |].
  split; [by simplify_map_eq |].
  split; [by simplify_map_eq |].
  split.
  { constructor; [exact Hx1 |]. by rewrite List.Forall_map in Hx2. }
  split.
  { pose proof (Qlist_max_In (high_price first) (map high_price others)) as Hin.
    fold ath in Hin. destruct Hin as [Hin | Hin].
    - by apply Exists_cons_hd.
    - apply Exists_cons_tl. apply in_map_iff in Hin as (candle & Heq & Hin).
      apply List.Exists_exists. by exists candle. }
  split; [reflexivity |].
  qdiv. split; nra.
Qed.

Lemma get_all_time_high_decline_witness :
  exists ath decline : Q,
    get_all_time_high rising_exchange the_market !! "all_time_high" = Some (num ath)
    /\ get_all_time_high rising_exchange the_market !! "decline_from_ath"
       = Some (PNum (Fin decline))
    /\ 0 <= decline < 100.
Proof.
  destruct (get_all_time_high_decline rising_exchange the_market
              (flat_candle 110) (repeat (flat_candle 100) 199))
    as (ath & decline & H1 & _ & H3 & _ & _ & _ & H7);
    [vm_compute; reflexivity | cbn; lra |].
  exists ath, decline. split; [exact H1 |]. split; [exact H3 | exact H7].
Defined.

(* --------------------------------------------------------------------- *)
(*  check_consecutive_decline                                            *)
(* --------------------------------------------------------------------- *)





(* --------------------------------------------------------------------- *)
(*  What a candidate records                                             *)
(* --------------------------------------------------------------------- *)

Section Passed.

Variable c : ScreenerCriteria.
Variable col : Collector.api.
Variable ta : option TechnicalAnalyzer.TaLib.
Variable market : string.

Lemma passed_volatility_guard (volatility : fval) :
  check_volatility_criteria c col market = (true, volatility) ->
  fle (Fin (volatility_min c)) volatility
  && fle volatility (Fin (volatility_max c)) = true.
Proof.
  destruct (check_volatility_criteria_cases c col market) as [-> | [v ->]];
    [discriminate |].
  by intros [= Hpass <-].
Qed.

Lemma passed_cci_guard (x : fval) :
  check_cci_criteria c col ta market = (true, x) ->
  is_nan x = false
  /\ fle (Fin (cci_min c)) x && fle x (Fin (cci_max c)) = true.
Proof.
  destruct (check_cci_criteria_cases c col ta market) as [-> | (v & Hv & ->)];
    [discriminate |].
  by intros [= Hpass <-].
Qed.

Lemma passed_rsi_guard (x : fval) :
  check_rsi_criteria c col ta market = (true, x) ->
  is_nan x = false
  /\ fle (Fin (rsi_min c)) x && fle x (Fin (rsi_max c)) = true.
Proof.
  destruct (check_rsi_criteria_cases c col ta market) as [-> | (v & Hv & ->)];
    [discriminate |].
  by intros [= Hpass <-].
Qed.

Lemma passed_volume_growth_guard (growth : fval) :
  check_volume_growth_criteria c col market = (true, growth) ->
  fge growth (Fin (volume_growth_min c)) = true.
Proof.
  destruct (check_volume_growth_criteria_cases c col market) as [-> | [v ->]];
    [discriminate |].
  by intros [= Hpass <-].
Qed.

End Passed.

(** X6.  Every candidate of the output list is a market of the screened
    list and records measurements that meet the criteria: a volume and
    an ATH decline at or above their floors, a volatility, a CCI and an
    RSI inside their bands, a volume growth at or above its floor.  The
    four fields of the stubbed steps hold constants, whatever the
    market: market cap 5e10, consecutive decline 2, spike "none" and
    moving-average position 5. *)
Theorem candidate_values_meet_thresholds (c : ScreenerCriteria)
  (col : Collector.api) (ta : option TechnicalAnalyzer.TaLib)
  (cand : AltcoinCandidate) :
  cand ∈ screen_all_markets c col ta ->
  symbol cand ∈ UpbitAltcoinScreener.get_krw_markets col
  /\ fge (volume_krw cand) (Fin (min_daily_volume_krw c)) = true
  /\ fge (ath_decline cand) (Fin (min_decline_from_ath c)) = true
  /\ fle (Fin (volatility_min c)) (volatility cand)
     && fle (volatility cand) (Fin (volatility_max c)) = true
  /\ fle (Fin (cci_min c)) (cci cand) && fle (cci cand) (Fin (cci_max c)) = true
  /\ fle (Fin (rsi_min c)) (rsi cand) && fle (rsi cand) (Fin (rsi_max c)) = true
  /\ fge (volume_growth cand) (Fin (volume_growth_min c)) = true
  /\ market_cap cand = Fin 50000000000
  /\ consecutive_decline cand = 2%Z
  /\ recent_spike cand = "none"
  /\ ma_position cand = Fin 5.
Proof.
  intros (market & Hin & Hcand)%screen_all_markets_elem.
  apply screen_single_market_Some in Hcand.
  destruct Hcand as (v & a & d & vo & cc & rs & g & first & others & info
                     & H1 & H2 & H3 & H4 & H5 & H6 & _ & _ & ->).
  cbn.
  split; [exact Hin |].
  split; [by eapply passed_volume_guard |].
  split; [by eapply passed_ath_decline_guard |].
  split; [by eapply passed_volatility_guard |].
  split; [by eapply passed_cci_guard |].
  split; [by eapply passed_rsi_guard |].
  split; [by eapply passed_volume_growth_guard |].
  done.
Qed.

Lemma candidate_values_meet_thresholds_witness :
  match screen_all_markets listed_criteria
          (collector_double 5000000000 [a_ticker]) (Some ta_double) with
  | cand :: _ =>
      fge (volume_krw cand) (Fin (min_daily_volume_krw listed_criteria)) = true
      /\ market_cap cand = Fin 50000000000
  | [] => False
  end.
Proof.
  destruct (screen_all_markets listed_criteria
              (collector_double 5000000000 [a_ticker]) (Some ta_double))
    as [| cand rest] eqn:Hout; [vm_compute in Hout; discriminate |].
  destruct (candidate_values_meet_thresholds listed_criteria
              (collector_double 5000000000 [a_ticker]) (Some ta_double) cand)
    as (_ & Hvolume & _ & _ & _ & _ & _ & Hcap & _).
  - rewrite Hout. apply list_elem_of_here.
  - split; [exact Hvolume | exact Hcap].
Defined.

(* A volume at the floor or above earns at least half of the 15 points. *)
Lemma volume_score_of_passed_half (c : ScreenerCriteria) (volume : fval) :
  0 < min_daily_volume_krw c ->
  fge volume (Fin (min_daily_volume_krw c)) = true ->
  exists s, volume_score c volume = Some s /\ fval_in s 7.5 15.
Proof.
  intros Hfloor Hpass. unfold volume_score, py_truediv.
  assert (E : Qeq_bool (min_daily_volume_krw c) 0 = false)
    by (apply Qeq_bool_false; lra).
  rewrite E. cbn [mbind option_bind]. eexists. split; [reflexivity |].
  destruct volume as [v | | |]; fsimpl; try discriminate.
  - rewrite E. fsimpl. rewrite py_min_Fin. qprop. fsimpl.
    destruct (Qltb _ 15) eqn:E15; qprop; [| lra].
    split; [| lra]. qdiv. nra.
  - destruct (Qltb (min_daily_volume_krw c) 0) eqn:E'; [qprop; lra |].
    vm_compute. split; discriminate.
Qed.

(* The market cap that enters the score is the constant of the stubbed
   step, half the optimum: 10 of the 15 points. *)
Lemma market_cap_score_stubbed :
  fval_in (market_cap_score (Fin 50000000000)) 10 10.
Proof. vm_compute. split; discriminate. Qed.

(** X7.  Under criteria with a positive volume floor and a decline
    floor that is not negative, the score of a candidate lies between
    17.5 and 95: a volume at the floor earns 7.5 points, the market cap
    entering the score is the constant 5e10 of the stubbed step, worth
    10 of the 15 points, and the other five terms are between 0 and
    their caps. *)
Theorem candidate_score_band (c : ScreenerCriteria) (col : Collector.api)
  (ta : option TechnicalAnalyzer.TaLib) (market : string)
  (cand : AltcoinCandidate) :
  0 < min_daily_volume_krw c ->
  0 <= min_decline_from_ath c ->
  screen_single_market c col ta market = Some cand ->
  fval_in (score cand) 17.5 95.
Proof.
  intros Hfloor Hdecline Hcand.
  apply screen_single_market_Some in Hcand.
  destruct Hcand as (v & a & d & vo & cc & rs & g & first & others & info
                     & H1 & H2 & _ & _ & _ & _ & _ & _ & ->).
  cbn [score]. apply passed_volume_guard in H1. apply passed_ath_decline_guard in H2.
  unfold calculate_score.
  destruct (volume_score_of_passed_half c v Hfloor H1) as (s & -> & Hs).
  cbn [mbind option_bind try_except default].
  apply (fval_in_weaken _ (7.5 + 0 + 0 + 0 + 0 + 10 + 0)
           (15 + 15 + 15 + 15 + 15 + 10 + 10)); [lra | lra |].
  repeat apply fadd_in.
  - exact Hs.
  - by apply (ath_score_of_passed c).
  - apply volatility_score_range.
  - apply cci_score_range.
  - apply rsi_score_range.
  - apply market_cap_score_stubbed.
  - apply volume_growth_score_range.
Qed.

Lemma candidate_score_band_witness :
  match screen_single_market listed_criteria
          (collector_double 5000000000 [a_ticker]) (Some ta_double) the_market with
  | Some cand => fval_in (score cand) 17.5 95
  | None => False
  end.
Proof.
  destruct (screen_single_market listed_criteria
              (collector_double 5000000000 [a_ticker]) (Some ta_double)
              the_market) as [cand |] eqn:Hcand;
    [| vm_compute in Hcand; discriminate].
  apply (candidate_score_band listed_criteria
           (collector_double 5000000000 [a_ticker]) (Some ta_double) the_market);
    [reflexivity | discriminate | exact Hcand].
Defined.

Lemma collect_candidates_symbols (c : ScreenerCriteria) (col : Collector.api)
  (ta : option TechnicalAnalyzer.TaLib) (markets : list string) :
  map symbol (collect_candidates c col ta markets)
  = filter (fun market => is_Some (screen_single_market c col ta market)) markets.
Proof.
  unfold collect_candidates. induction markets as [| m ms IH]; [done |].
  cbn [omap list_omap]. rewrite filter_cons.
  destruct (screen_single_market c col ta m) as [cand |] eqn:E.
  - rewrite decide_True by by eexists. cbn [map].
    rewrite (screen_single_market_symbol c col ta m cand E). by f_equal.
  - rewrite decide_False by (by intros [? ?]). exact IH.
Qed.

(** X8.  The symbols of the output list are, up to order, the markets
    of the screened list that screen_single_market accepts, one
    candidate for each occurrence of such a market: the list is not
    longer than the market list, and holds no symbol twice when the
    market list holds none twice. *)
Theorem screen_all_markets_symbols (c : ScreenerCriteria) (col : Collector.api)
  (ta : option TechnicalAnalyzer.TaLib) :
  let markets := UpbitAltcoinScreener.get_krw_markets col in
  let output := screen_all_markets c col ta in
  map symbol output
  ≡ₚ filter (fun market => is_Some (screen_single_market c col ta market)) markets
  /\ (length output <= length markets)%nat
  /\ (NoDup markets -> NoDup (map symbol output)).
Proof.
  cbn zeta.
  assert (Hperm : map symbol (screen_all_markets c col ta)
                  ≡ₚ filter (fun market =>
                               is_Some (screen_single_market c col ta market))
                       (UpbitAltcoinScreener.get_krw_markets col)).
  { unfold screen_all_markets.
    destruct (UpbitAltcoinScreener.get_krw_markets col) as [| m ms] eqn:E;
      [done |].
    rewrite (sort_desc_perm score). by rewrite collect_candidates_symbols. }
  split; [exact Hperm |]. split.
  - rewrite <- (length_map symbol), Hperm. apply length_filter.
  - intros Hnd. rewrite Hperm. by apply NoDup_filter.
Qed.

Lemma screen_all_markets_symbols_witness :
  NoDup (map symbol (screen_all_markets listed_criteria
                       (collector_double 5000000000 [a_ticker]) (Some ta_double))).
Proof.
  apply (screen_all_markets_symbols listed_criteria
           (collector_double 5000000000 [a_ticker]) (Some ta_double)).
  vm_compute. apply NoDup_singleton.
Defined.

(* --------------------------------------------------------------------- *)
(*  Relaxed criteria                                                     *)
(* --------------------------------------------------------------------- *)

Lemma fle_relax_lower (lo lo' : Q) (x : fval) :
  lo' <= lo -> fle (Fin lo) x = true -> fle (Fin lo') x = true.
Proof.
  intros H. destruct x as [a | | |]; fsimpl; try done.
  intros E. qprop. apply Qle_bool_iff. lra.
Qed.

Lemma fle_relax_upper (hi hi' : Q) (x : fval) :
  hi <= hi' -> fle x (Fin hi) = true -> fle x (Fin hi') = true.
Proof.
  intros H. destruct x as [a | | |]; fsimpl; try done.
  intros E. qprop. apply Qle_bool_iff. lra.
Qed.

Section Relaxed.

Variables c c' : ScreenerCriteria.
Variable col : Collector.api.
Variable ta : option TechnicalAnalyzer.TaLib.
Variable market : string.

Hypothesis relaxed : relaxes c c'.

Lemma check_volume_criteria_relaxed (volume : fval) :
  check_volume_criteria c col market = (true, volume) ->
  check_volume_criteria c' col market = (true, volume).
Proof.
  destruct relaxed as (H & _).
  unfold check_volume_criteria.
  destruct (Collector.get_volume_info col market 7) as [d |]; cbn [mbind option_bind try_except default]; [| done].
  destruct (dict_is_empty d); cbn [mbind option_bind try_except default]; [done |].
  destruct (as_num _) as [avg |]; cbn [mbind option_bind try_except default]; [| done].
  intros [= E <-]. unfold fge in *. by rewrite (fle_relax_lower _ _ _ H E).
Qed.

Lemma check_ath_decline_criteria_relaxed (ath : pyval) (decline : fval) :
  check_ath_decline_criteria c col market = (true, (ath, decline)) ->
  check_ath_decline_criteria c' col market = (true, (ath, decline)).
Proof.
  destruct relaxed as (_ & H & _).
  unfold check_ath_decline_criteria.
  destruct (Collector.get_all_time_high col market) as [d |]; cbn [mbind option_bind try_except default]; [| done].
  destruct (dict_is_empty d); cbn [mbind option_bind try_except default]; [done |].
  destruct (as_num _) as [rate |]; cbn [mbind option_bind try_except default]; [| done].
  intros [= E <- <-]. unfold fge in *. by rewrite (fle_relax_lower _ _ _ H E).
Qed.

Lemma check_volatility_criteria_relaxed (volatility : fval) :
  check_volatility_criteria c col market = (true, volatility) ->
  check_volatility_criteria c' col market = (true, volatility).
Proof.
  destruct relaxed as (_ & _ & H1 & H2 & _).
  unfold check_volatility_criteria.
  destruct (Collector.calculate_volatility col market 30) as [v |]; cbn [mbind option_bind try_except default]; [| done].
  intros [= E <-]. apply andb_true_iff in E as [E1 E2].
  by rewrite (fle_relax_lower _ _ _ H1 E1), (fle_relax_upper _ _ _ H2 E2).
Qed.

Lemma check_cci_criteria_relaxed (x : fval) :
  check_cci_criteria c col ta market = (true, x) ->
  check_cci_criteria c' col ta market = (true, x).
Proof.
  destruct relaxed as (_ & _ & _ & _ & H1 & H2 & Hp & _).
  unfold check_cci_criteria. rewrite Hp.
  destruct (Collector.get_ohlcv_dataframe col market 50) as [df |]; cbn [mbind option_bind try_except default]; [| done].
  destruct (df_empty df); cbn [mbind option_bind try_except default]; [done |].
  destruct (get_num _ "CCI") as [column |]; cbn [mbind option_bind try_except default]; [| done].
  destruct (iloc_last column) as [v |]; cbn [mbind option_bind try_except default]; [| done].
  destruct (is_nan v); cbn [mbind option_bind try_except default]; [done |].
  intros [= E <-]. apply andb_true_iff in E as [E1 E2].
  by rewrite (fle_relax_lower _ _ _ H1 E1), (fle_relax_upper _ _ _ H2 E2).
Qed.

Lemma check_rsi_criteria_relaxed (x : fval) :
  check_rsi_criteria c col ta market = (true, x) ->
  check_rsi_criteria c' col ta market = (true, x).
Proof.
  destruct relaxed as (_ & _ & _ & _ & _ & _ & _ & H1 & H2 & Hp & _).
  unfold check_rsi_criteria. rewrite Hp.
  destruct (Collector.get_ohlcv_dataframe col market 50) as [df |]; cbn [mbind option_bind try_except default]; [| done].
  destruct (df_empty df); cbn [mbind option_bind try_except default]; [done |].
  destruct (get_num _ "RSI") as [column |]; cbn [mbind option_bind try_except default]; [| done].
  destruct (iloc_last column) as [v |]; cbn [mbind option_bind try_except default]; [| done].
  destruct (is_nan v); cbn [mbind option_bind try_except default]; [done |].
  intros [= E <-]. apply andb_true_iff in E as [E1 E2].
  by rewrite (fle_relax_lower _ _ _ H1 E1), (fle_relax_upper _ _ _ H2 E2).
Qed.

Lemma check_volume_growth_criteria_relaxed (growth : fval) :
  check_volume_growth_criteria c col market = (true, growth) ->
  check_volume_growth_criteria c' col market = (true, growth).
Proof.
  destruct relaxed as (_ & _ & _ & _ & _ & _ & _ & _ & _ & _ & H & Hp).
  unfold check_volume_growth_criteria. rewrite Hp.
  destruct (Collector.get_volume_growth col market _) as [d |]; cbn [mbind option_bind try_except default]; [| done].
  destruct (dict_is_empty d); cbn [mbind option_bind try_except default]; [done |].
  destruct (as_num _) as [g |]; cbn [mbind option_bind try_except default]; [| done].
  intros [= E <-]. unfold fge in *. by rewrite (fle_relax_lower _ _ _ H E).
Qed.

End Relaxed.

(** X9.  Relaxing the criteria loses no candidate.  When the criteria
    [c'] are at least as permissive as [c] (floors not higher, bands
    not narrower, same periods), a market accepted under [c] is
    accepted under [c'] on the same data, with the same measurements;
    so the symbols of the output under [c] are among those under [c'],
    and an empty output under [c'] means an empty output under [c].
    The backup criteria of find_gems relax its first criteria in this
    sense. *)
Theorem relaxed_criteria_accept_more (c c' : ScreenerCriteria)
  (col : Collector.api) (ta : option TechnicalAnalyzer.TaLib) :
  relaxes c c' ->
  (forall market cand,
      screen_single_market c col ta market = Some cand ->
      exists cand',
        screen_single_market c' col ta market = Some cand'
        /\ symbol cand' = symbol cand
        /\ current_price cand' = current_price cand
        /\ volume_krw cand' = volume_krw cand
        /\ ath_decline cand' = ath_decline cand
        /\ volatility cand' = volatility cand
        /\ cci cand' = cci cand
        /\ rsi cand' = rsi cand
        /\ volume_growth cand' = volume_growth cand)
  /\ map symbol (screen_all_markets c col ta)
     ⊆ map symbol (screen_all_markets c' col ta)
  /\ (screen_all_markets c' col ta = [] -> screen_all_markets c col ta = []).
Proof.
  intros Hrel.
  assert (Hone : forall market cand,
             screen_single_market c col ta market = Some cand ->
             exists cand',
               screen_single_market c' col ta market = Some cand'
               /\ symbol cand' = symbol cand
               /\ current_price cand' = current_price cand
               /\ volume_krw cand' = volume_krw cand
               /\ ath_decline cand' = ath_decline cand
               /\ volatility cand' = volatility cand
               /\ cci cand' = cci cand
               /\ rsi cand' = rsi cand
               /\ volume_growth cand' = volume_growth cand).
  { intros market cand Hcand. apply screen_single_market_Some in Hcand.
    destruct Hcand as (v & a & d & vo & cc & rs & g & first & others & info
                       & H1 & H2 & H3 & H4 & H5 & H6 & H7 & H8 & ->).
    eexists. split.
    - apply screen_single_market_Some.
      exists v, a, d, vo, cc, rs, g, first, others, info.
      split; [by apply (check_volume_criteria_relaxed c) |].
      split; [by apply (check_ath_decline_criteria_relaxed c) |].
      split; [by apply (check_volatility_criteria_relaxed c) |].
      split; [by apply (check_cci_criteria_relaxed c) |].
      split; [by apply (check_rsi_criteria_relaxed c) |].
      split; [by apply (check_volume_growth_criteria_relaxed c) |].
      split; [exact H7 |]. split; [exact H8 | reflexivity].
    - cbn. done. }
  assert (Hsub : map symbol (screen_all_markets c col ta)
                 ⊆ map symbol (screen_all_markets c' col ta)).
  { intros s Hs. apply list_elem_of_fmap in Hs as (cand & -> & Hin).
    apply screen_all_markets_elem in Hin as (market & Hm & Hcand).
    destruct (Hone market cand Hcand) as (cand' & Hcand' & Hsym & _).
    rewrite <- Hsym. apply list_elem_of_fmap. exists cand'. split; [done |].
    apply screen_all_markets_elem. by exists market. }
  split; [exact Hone |]. split; [exact Hsub |].
  intros Hnil. destruct (screen_all_markets c col ta) as [| cand rest]; [done |].
  rewrite Hnil in Hsub. specialize (Hsub (symbol cand)).
  exfalso. eapply not_elem_of_nil. apply Hsub. cbn. apply list_elem_of_here.
Qed.

Lemma relaxed_criteria_accept_more_witness :
  map symbol (screen_all_markets Main.criteria
                (collector_double 5000000000 [a_ticker]) (Some ta_double))
  ⊆ map symbol (screen_all_markets Main.backup_criteria
                  (collector_double 5000000000 [a_ticker]) (Some ta_double)).
Proof.
  apply (relaxed_criteria_accept_more Main.criteria Main.backup_criteria
           (collector_double 5000000000 [a_ticker]) (Some ta_double)).
  unfold relaxes. cbn.
  repeat (split; [first [reflexivity | discriminate] |]). reflexivity.
Defined.

(* --------------------------------------------------------------------- *)
(*  check_recent_spike                                                   *)
(* --------------------------------------------------------------------- *)

(* A change that exceeds the largest so far in magnitude gets the label
   of its own size: above 10 % either way a branch of the chain sets
   it, and below, the largest so far was below 10 % too and had the
   label "none". *)
Lemma spike_type_after_label (change max_change : Q) :
  Qabs max_change < Qabs change ->
  spike_type_after (Fin change) (spike_label max_change) = spike_label change.
Proof.
  intros Habs. unfold spike_type_after, spike_label. fsimpl.
  destruct (Qltb 20 change) eqn:E1; [reflexivity |].
  destruct (Qltb 10 change) eqn:E2; [reflexivity |].
  destruct (Qltb change (-20)) eqn:E3; [reflexivity |].
  destruct (Qltb change (-10)) eqn:E4; [reflexivity |].
  qprop. qabs; qcase; first [reflexivity | lra].
Qed.

Lemma spike_loop_label (n : nat) (prices : list Q) (max_change : Q)
  (result : fval * string) :
  spike_loop n prices (Fin max_change) (spike_label max_change) = Some result ->
  exists change, result = (Fin change, spike_label change).
Proof.
  revert prices max_change.
  induction n as [| n IH]; intros prices max_change.
  { destruct prices; cbn; intros [= <-]; by eexists. }
  destruct prices as [| p [| q rest]]; cbn [spike_loop];
    try (intros [= <-]; by eexists).
  unfold py_truediv. destruct (Qeq_bool q 0) eqn:Eq; [discriminate |].
  cbn [mbind option_bind fdiv fmul]. rewrite Eq. cbn [fmul fabs fgt flt].
  destruct (Qltb (Qabs max_change) (Qabs ((p - q) / q * 100))) eqn:E.
  - apply Qltb_true in E. rewrite (spike_type_after_label _ _ E). apply IH.
  - apply IH.
Qed.

Lemma spike_loop_max (n : nat) (prices : list Q) (max_change : Q)
  (spike_type : string) (change : Q) (label : string) :
  spike_loop n prices (Fin max_change) spike_type = Some (Fin change, label) ->
  Qabs max_change <= Qabs change
  /\ forall i p q, (i < n)%nat -> prices !! i = Some p ->
       prices !! S i = Some q -> Qabs ((p - q) / q * 100) <= Qabs change.
Proof.
  revert prices max_change spike_type.
  induction n as [| n IH]; intros prices max_change spike_type.
  { destruct prices; cbn; intros [= <- <-]; (split; [lra | intros; lia]). }
  destruct prices as [| p0 [| q0 rest]]; cbn [spike_loop].
  - intros [= <- <-]. split; [lra | by intros []].
  - intros [= <- <-]. split; [lra | by intros [| []]].
  - unfold py_truediv. destruct (Qeq_bool q0 0) eqn:Eq; [discriminate |].
    cbn [mbind option_bind fdiv fmul]. rewrite Eq. cbn [fmul fabs fgt flt].
    destruct (Qltb (Qabs max_change) (Qabs ((p0 - q0) / q0 * 100))) eqn:E;
      intros Hloop; apply IH in Hloop as [Hge Hall]; qprop.
    + split; [lra |]. intros [| i] p q Hi Hp Hq.
      * cbn in Hp, Hq. by simplify_eq.
      * apply (Hall i); [lia | exact Hp | exact Hq].
    + split; [exact Hge |]. intros [| i] p q Hi Hp Hq.
      * cbn in Hp, Hq. simplify_eq. lra.
      * apply (Hall i); [lia | exact Hp | exact Hq].
Qed.

(* With no zero among the prices, the loop does not raise. *)
Lemma spike_loop_total (n : nat) (prices : list Q) (max_change : Q)
  (spike_type : string) :
  Forall (fun p => 0 < p) prices ->
  exists change label,
    spike_loop n prices (Fin max_change) spike_type = Some (Fin change, label).
Proof.
  revert prices max_change spike_type.
  induction n as [| n IH]; intros prices max_change spike_type Hpos.
  { destruct prices; cbn; by eexists _, _. }
  destruct prices as [| p0 [| q0 rest]]; cbn [spike_loop];
    try by eexists _, _.
  apply Forall_cons in Hpos as [_ Hpos].
  pose proof (Forall_inv Hpos) as Hq. cbn in Hq.
  unfold py_truediv.
  assert (Eq : Qeq_bool q0 0 = false) by (apply Qeq_bool_false; lra).
  rewrite Eq. cbn [mbind option_bind fdiv fmul]. rewrite Eq.
  cbn [fmul fabs fgt flt].
  destruct (Qltb _ _); by apply IH.
Qed.

(** X10.  The label check_recent_spike reports always goes with the
    change it reports: "strong_up" above 20 %, "moderate_up" above 10 %,
    "strong_down" below -20 %, "moderate_down" below -10 %, "none"
    otherwise; a label set for an earlier change never outlives it.
    The dictionary has no entry "has_recent_spike", the key the spike
    evaluator reads.  When the prices are positive and there are at
    least [days] candles, no change among the newest [days] is larger
    in magnitude than the reported one. *)
Theorem check_recent_spike_label (ex : Exchange) (market : string) (days : nat) :
  let spike_info := check_recent_spike ex market days in
  let prices := map trade_price (get_candles_daily ex market (days * 2)) in
  exists max_change : Q,
    spike_info !! "max_change" = Some (num max_change)
    /\ spike_info !! "spike_type" = Some (PStr (spike_label max_change))
    /\ spike_info !! "has_recent_spike" = None
    /\ (Forall (fun p => 0 < p) prices ->
        (days <= length prices)%nat ->
        forall i p q, (i < days)%nat -> prices !! i = Some p ->
          prices !! S i = Some q ->
          Qabs ((p - q) / q * 100) <= Qabs max_change).
Proof.
  cbn zeta. unfold check_recent_spike.
  destruct (get_candles_daily ex market (days * 2)) as [| first others].
  { exists 0. split; [reflexivity |]. split; [reflexivity |].
    split; [reflexivity |]. intros _ _ i p q _ Hp. by cbn in Hp. }
  set (candles := first :: others).
  destruct (Nat.ltb_spec (length candles) days) as [Hshort | Hlong].
  { exists 0. split; [reflexivity |]. split; [reflexivity |].
    split; [reflexivity |]. intros _ Hlen. rewrite length_map in Hlen. lia. }
  set (prices := map trade_price candles).
  set (n := Nat.min days (length candles - 1)).
  destruct (spike_loop n prices (Fin 0) "none") as [result |] eqn:E.
  2:{ exists 0. cbn [mbind option_bind try_except default].
      split; [reflexivity |]. split; [reflexivity |]. split; [reflexivity |].
      intros Hpos. destruct (spike_loop_total n prices 0 "none" Hpos)
        as (change & label & Hsome). congruence. }
  pose proof E as Hlabel. change "none" with (spike_label 0) in Hlabel.
  apply spike_loop_label in Hlabel as [change ->].
  apply spike_loop_max in E as [_ Hall].
  exists change. cbn [mbind option_bind try_except default fst snd].
  split; [by simplify_map_eq |]. split; [by simplify_map_eq |].
  split; [by simplify_map_eq |].
  intros _ _ i p q Hi Hp Hq. apply (Hall i); [| exact Hp | exact Hq].
  apply lookup_lt_Some in Hq. unfold prices in Hq. rewrite length_map in Hq.
  unfold n. lia.
Qed.

Lemma check_recent_spike_label_witness :
  exists max_change : Q,
    check_recent_spike rising_exchange the_market 3 !! "max_change"
    = Some (num max_change)
    /\ check_recent_spike rising_exchange the_market 3 !! "spike_type"
       = Some (PStr (spike_label max_change))
    /\ Qabs ((110 - 100) / 100 * 100) <= Qabs max_change.
Proof.
  destruct (check_recent_spike_label rising_exchange the_market 3)
    as (max_change & H1 & H2 & _ & H4).
  exists max_change. split; [exact H1 |]. split; [exact H2 |].
  apply (H4 (ltac:(vm_compute; repeat constructor))
            (ltac:(vm_compute; lia)) 0%nat 110 100);
    [lia | vm_compute; reflexivity | vm_compute; reflexivity].
Defined.

(* --------------------------------------------------------------------- *)
(*  get_volume_growth and get_price_vs_moving_average                    *)
(* --------------------------------------------------------------------- *)

Lemma fmean_of (l : list Q) :
  l <> [] -> fmean (map Fin l) = Fin (mean_of l).
Proof. apply fmean_finite. Qed.

Lemma mean_of_nonneg (l : list Q) :
  l <> [] -> Forall (fun v => 0 <= v) l -> 0 <= mean_of l.
Proof.
  intros Hl Hpos. unfold mean_of.
  apply Qle_shift_div_l; [by apply len_Q_pos |].
  pose proof (Qsum_nonneg l Hpos). lra.
Qed.

(* The frame has one row per candle, in the order of the response. *)
Lemma get_ohlcv_dataframe_rows (ex : Exchange) (market : string) (days : nat) :
  let df := get_ohlcv_dataframe ex market days in
  let candles := get_candles_daily ex market days in
  map row_volume (rows df) = map (fun candle => Fin (candle_acc_trade_volume candle)) candles
  /\ map row_close (rows df) = map (fun candle => Fin (trade_price candle)) candles
  /\ map row_high (rows df) = map (fun candle => Fin (high_price candle)) candles
  /\ map row_low (rows df) = map (fun candle => Fin (low_price candle)) candles
  /\ length (rows df) = length candles
  /\ df_empty df = match candles with [] => true | _ => false end.
Proof.
  cbn zeta. unfold get_ohlcv_dataframe.
  destruct (get_candles_daily ex market days) as [| first others]; [done |].
  cbn [rows df_empty]. rewrite !map_map, length_map. cbn [map]. done.
Qed.

(** X11.  get_volume_growth splits the 2 * days candles of the response
    in the order they come.  Its "previous" average is the mean volume
    of the first [days] candles, its "recent" average the mean of the
    last [days], and the growth rate is (recent - previous) / previous
    * 100, never below -100 for volumes that are not negative.  The
    first candles of a response are the newest (get_all_time_high and
    check_consecutive_decline take candles[0] as the current day): a
    market whose volume halved over the last days shows a growth of
    +100 %. *)
Theorem get_volume_growth_compares_halves (ex : Exchange) (market : string)
  (days : nat) (first_half second_half : list Candle) :
  let volumes := map candle_acc_trade_volume in
  let growth_info := get_volume_growth ex market days in
  (1 <= days)%nat ->
  get_candles_daily ex market (days * 2) = first_half ++ second_half ->
  length first_half = days ->
  length second_half = days ->
  0 < mean_of (volumes first_half) ->
  growth_info !! "recent_avg_volume" = Some (num (mean_of (volumes second_half)))
  /\ growth_info !! "previous_avg_volume"
     = Some (num (mean_of (volumes first_half)))
  /\ has_number growth_info "growth_rate"
       ((mean_of (volumes second_half) - mean_of (volumes first_half))
        / mean_of (volumes first_half) * 100) = true
  /\ (Forall (fun v => 0 <= v) (volumes second_half) ->
      exists growth_rate,
        has_number growth_info "growth_rate" growth_rate = true
        /\ -100 <= growth_rate).
Proof.
  cbn zeta. intros Hdays Hc Hl1 Hl2 Hprev.
  assert (Hne1 : map candle_acc_trade_volume first_half <> [])
    by (destruct first_half; [cbn in Hl1; lia | discriminate]).
  assert (Hne2 : map candle_acc_trade_volume second_half <> [])
    by (destruct second_half; [cbn in Hl2; lia | discriminate]).
  destruct (get_ohlcv_dataframe_rows ex market (days * 2))
    as (Hvol & _ & _ & _ & Hlen & Hempty).
  cbn zeta in *. rewrite Hc in Hvol, Hlen, Hempty.
  rewrite length_app, Hl1, Hl2 in Hlen.
  assert (Hempty' : df_empty (get_ohlcv_dataframe ex market (days * 2)) = false).
  { rewrite Hempty. destruct first_half; [cbn in Hl1; lia | done]. }
  unfold get_volume_growth. rewrite Hempty', Hlen.
  replace (days + days <? days * 2)%nat with false
    by (symmetry; apply Nat.ltb_ge; lia).
  cbn [orb]. rewrite Hvol, map_app.
  set (v1 := map candle_acc_trade_volume first_half) in *.
  set (v2 := map candle_acc_trade_volume second_half) in *.
  assert (Hrecent : slice_from
                      (map (fun candle => Fin (candle_acc_trade_volume candle)) first_half
                       ++ map (fun candle => Fin (candle_acc_trade_volume candle))
                            second_half) (- Z.of_nat days)
                    = map Fin v2).
  { unfold slice_from, norm_index. rewrite length_app, !length_map, Hl1, Hl2.
    replace (- Z.of_nat days <? 0)%Z with true by (symmetry; apply Z.ltb_lt; lia).
    replace (Z.to_nat (Z.max 0 (Z.of_nat (days + days) + - Z.of_nat days)))
      with (length (map (fun candle => Fin (candle_acc_trade_volume candle)) first_half))
      by (rewrite length_map; lia).
    rewrite drop_app_length. unfold v2. by rewrite map_map. }
  assert (Hprevious : slice
                        (map (fun candle => Fin (candle_acc_trade_volume candle)) first_half
                         ++ map (fun candle => Fin (candle_acc_trade_volume candle))
                              second_half)
                        (- Z.of_nat (days * 2)) (- Z.of_nat days)
                      = map Fin v1).
  { unfold slice, norm_index. rewrite length_app, !length_map, Hl1, Hl2.
    replace (- Z.of_nat (days * 2) <? 0)%Z with true
      by (symmetry; apply Z.ltb_lt; lia).
    replace (- Z.of_nat days <? 0)%Z with true by (symmetry; apply Z.ltb_lt; lia).
    replace (Z.to_nat (Z.max 0 (Z.of_nat (days + days) + - Z.of_nat (days * 2))))
      with 0%nat by lia.
    replace (Z.to_nat (Z.max 0 (Z.of_nat (days + days) + - Z.of_nat days)) - 0)%nat
      with (length (map (fun candle => Fin (candle_acc_trade_volume candle)) first_half))
      by (rewrite length_map; lia).
    rewrite drop_0, take_app_length. unfold v1. by rewrite map_map. }
  rewrite Hrecent, Hprevious, !fmean_of by done.
  assert (Hgt : fgt (Fin (mean_of v1)) (Fin 0) = true) by (by apply Qltb_true).
  rewrite Hgt.
  assert (E : Qeq_bool (mean_of v1) 0 = false) by (apply Qeq_bool_false; lra).
  cbn [fsub fneg fadd fdiv fmul]. rewrite E.
  assert (Hrate : has_number
            {[ "market" := PStr market;
               "recent_avg_volume" := PNum (Fin (mean_of v2));
               "previous_avg_volume" := PNum (Fin (mean_of v1));
               "growth_rate" := PNum (Fin ((mean_of v2 + - mean_of v1) / mean_of v1 * 100));
               "trend" := PStr (volume_growth_trend
                                  (Fin ((mean_of v2 + - mean_of v1) / mean_of v1 * 100))) ]}
            "growth_rate" ((mean_of v2 - mean_of v1) / mean_of v1 * 100) = true).
  { unfold has_number. simplify_map_eq. cbn. apply Qeq_bool_iff. reflexivity. }
  split; [by simplify_map_eq |]. split; [by simplify_map_eq |].
  split; [exact Hrate |].
  intros Hpos. eexists. split; [exact Hrate |].
  pose proof (mean_of_nonneg v2 Hne2 Hpos) as H2.
  clear Hrate Hgt E Hrecent Hprevious.
  set (m1 := mean_of v1) in *. set (m2 := mean_of v2) in *. clearbody m1 m2.
  qdiv. nra.
Qed.

Lemma get_volume_growth_compares_halves_witness :
  has_number (get_volume_growth Markets.fading_exchange the_market 7)
    "growth_rate" 100 = true.
Proof.
  destruct (get_volume_growth_compares_halves Markets.fading_exchange the_market 7
              (repeat (Markets.candle_with_volume 1000) 7)
              (repeat (Markets.candle_with_volume 2000) 7))
    as (_ & _ & Hrate & _);
    [lia | vm_compute; reflexivity | reflexivity | reflexivity
    | vm_compute; reflexivity |].
  unfold has_number in *.
  destruct (get_volume_growth Markets.fading_exchange the_market 7 !! "growth_rate")
    as [[x | | |] |]; try discriminate Hrate.
  destruct x as [q | | |]; try discriminate Hrate.
  cbn [feqb] in *. apply Qeq_bool_iff in Hrate. apply Qeq_bool_iff.
  rewrite Hrate. vm_compute. reflexivity.
Defined.





(* --------------------------------------------------------------------- *)
(*  generate_reason, generate_report and run_daily_screening             *)
(* --------------------------------------------------------------------- *)

(** X13.  generate_reason returns between one and three phrases.  The
    default phrase stands alone, and it is returned exactly when none
    of the ten tests on volume, ATH decline, RSI, volatility and volume
    growth holds. *)
Theorem generate_reason_shape
  (volume ath_decline rsi volatility volume_growth : fval) :
  let reasons := generate_reason volume ath_decline rsi volatility volume_growth in
  (1 <= length reasons <= 3)%nat
  /\ (BasicConditionsMet ∈ reasons <-> reasons = [BasicConditionsMet])
  /\ (reasons = [BasicConditionsMet]
      <-> fgt volume (Fin 200000000) || fgt volume (Fin 100000000)
          || fgt ath_decline (Fin 50) || fgt ath_decline (Fin 30)
          || (fle (Fin 30) rsi && fle rsi (Fin 70)) || flt rsi (Fin 30)
          || flt volatility (Fin 50) || fgt volatility (Fin 100)
          || fgt volume_growth (Fin 50) || fgt volume_growth (Fin 20) = false).
Proof.
  cbn zeta. unfold generate_reason.
  destruct (fgt volume (Fin 200000000)), (fgt volume (Fin 100000000)),
    (fgt ath_decline (Fin 50)), (fgt ath_decline (Fin 30)),
    (fle (Fin 30) rsi && fle rsi (Fin 70)), (flt rsi (Fin 30)),
    (flt volatility (Fin 50)), (fgt volatility (Fin 100)),
    (fgt volume_growth (Fin 50)), (fgt volume_growth (Fin 20));
    cbn;
    (split; [lia |]);
    (split; [rewrite ?elem_of_cons, ?elem_of_nil; split; [intros H; decompose [or] H; try discriminate; try done | intros [= ]; tauto || (try discriminate)] |]);
    split; intros H; try discriminate H; try reflexivity; try done.
Qed.

Lemma get_recommendation_tier (s : fval) :
  get_recommendation s = "매우 추천" /\ fge s (Fin 80) = true
  \/ get_recommendation s = "추천" /\ fge s (Fin 80) = false
  \/ get_recommendation s = "관심" /\ fge s (Fin 80) = false
  \/ get_recommendation s = "검토 필요" /\ fge s (Fin 80) = false.
Proof.
  unfold get_recommendation.
  destruct (fge s (Fin 80)); [by left |].
  destruct (fge s (Fin 60)); [by right; left |].
  destruct (fge s (Fin 40)); [by right; right; left | by right; right; right].
Qed.

(* Candidates come with the tier of their score. *)
Lemma candidate_recommendation (c : ScreenerCriteria) (col : Collector.api)
  (ta : option TechnicalAnalyzer.TaLib) (cand : AltcoinCandidate) :
  cand ∈ screen_all_markets c col ta ->
  recommendation cand = get_recommendation (score cand).
Proof.
  intros (market & _ & Hcand)%screen_all_markets_elem.
  apply screen_single_market_Some in Hcand.
  destruct Hcand as (v & a & d & vo & cc & rs & g & first & others & info
                     & _ & _ & _ & _ & _ & _ & _ & _ & ->).
  reflexivity.
Qed.

Lemma with_recommendation_partition (l : list AltcoinCandidate) :
  Forall (fun cand => recommendation cand = get_recommendation (score cand)) l ->
  (length (with_recommendation "매우 추천" l)
   + length (with_recommendation "추천" l)
   + length (with_recommendation "관심" l)
   + length (with_recommendation "검토 필요" l) = length l)%nat.
Proof.
  unfold with_recommendation.
  induction 1 as [| cand l Hcand _ IH]; [done |].
  rewrite !filter_cons, Hcand.
  destruct (get_recommendation_tier (score cand))
    as [[-> _] | [[-> _] | [[-> _] | [-> _]]]];
    repeat match goal with
      | |- context [decide ?P] =>
          let E := fresh "E" in
          destruct (decide P) as [E | E];
          [ try (vm_compute in E; discriminate E)
          | try (exfalso; apply E; vm_compute; reflexivity) ];
          clear E
      end;
    cbn [length]; lia.
Qed.

Lemma screen_all_markets_sorted (c : ScreenerCriteria) (col : Collector.api)
  (ta : option TechnicalAnalyzer.TaLib) :
  sorted_desc score (screen_all_markets c col ta).
Proof.
  pose proof (candidate_score_le_100 c col ta) as Hscore.
  unfold screen_all_markets in *.
  destruct (UpbitAltcoinScreener.get_krw_markets col) as [| m ms];
    [constructor |].
  apply sort_desc_sorted. intros cand Hcand. exists 100.
  apply Hscore. by rewrite (sort_desc_perm score).
Qed.

(** X14.  The report of run_daily_screening holds the output list of
    screen_all_markets and its length.  Its summary is the sentence for
    no candidate exactly when the list is empty.  Otherwise the top
    candidate is the head of the list and no candidate has a larger
    score; the three tier counts and the number of candidates of the
    fourth tier, which the summary leaves out, add up to the total; and
    when any candidate is in the highest tier, the top candidate is. *)
Theorem run_daily_screening_report {Time : Type} (c : ScreenerCriteria)
  (col : Collector.api) (ta : option TechnicalAnalyzer.TaLib) (now : Time) :
  let report := run_daily_screening c col ta now in
  candidates report = screen_all_markets c col ta
  /\ total_candidates report = length (candidates report)
  /\ report_criteria report = c
  /\ match summary report with
     | inl _ => candidates report = []
     | inr counts =>
         exists first others,
           candidates report = first :: others
           /\ top_candidate counts = Some first
           /\ (forall cand, cand ∈ candidates report ->
                 fle (score cand) (score first) = true)
           /\ (very_recommended counts + recommended counts
               + interesting counts
               + length (with_recommendation "검토 필요" (candidates report))
               = total_candidates report)%nat
           /\ ((0 < very_recommended counts)%nat ->
               recommendation first = "매우 추천")
     end.
Proof.
  cbn zeta. unfold run_daily_screening, generate_report.
  pose proof (screen_all_markets_sorted c col ta) as Hsorted.
  pose proof (candidate_recommendation c col ta) as Hrec.
  pose proof (candidate_score_le_100 c col ta) as Hle.
  destruct (screen_all_markets c col ta) as [| first others] eqn:Hout;
    cbn [summary candidates total_candidates report_criteria very_recommended
         recommended interesting top_candidate head].
  { done. }
  split; [done |]. split; [done |]. split; [done |].
  exists first, others. split; [done |]. split; [done |].
  assert (Hmax : forall cand, cand ∈ first :: others ->
                   fle (score cand) (score first) = true).
  { intros cand Hin. apply elem_of_cons in Hin as [-> | Hin].
    - eapply fle_refl_below. apply Hle. apply list_elem_of_here.
    - unfold sorted_desc in Hsorted. apply StronglySorted_inv in Hsorted as [_ Hall].
      rewrite List.Forall_forall in Hall. apply Hall.
      by apply list_elem_of_In. }
  split; [exact Hmax |]. split.
  - apply (with_recommendation_partition (first :: others)).
    apply List.Forall_forall. intros cand Hin. apply Hrec.
    by apply list_elem_of_In.
  - intros Hvery.
    destruct (with_recommendation "매우 추천" (first :: others)) as [| best rest]
      eqn:Hfilter; [cbn in Hvery; lia |].
    assert (Hbest : best ∈ with_recommendation "매우 추천" (first :: others))
      by (rewrite Hfilter; apply list_elem_of_here).
    unfold with_recommendation in Hbest.
    apply list_elem_of_filter in Hbest as [Hbest Hin].
    apply String.eqb_eq in Hbest.
    rewrite (Hrec best Hin) in Hbest.
    rewrite (Hrec first (list_elem_of_here _ _)).
    destruct (get_recommendation_tier (score best))
      as [[_ H80] | [[E _] | [[E _] | [E _]]]];
      try (rewrite E in Hbest; vm_compute in Hbest; discriminate Hbest).
    unfold get_recommendation.
    assert (H : fge (score first) (Fin 80) = true).
    { unfold fge in *. eapply fle_trans; [exact H80 | by apply Hmax]. }
    by rewrite H.
Qed.

(* --------------------------------------------------------------------- *)
(*  calculate_stochastic without the indicator package                   *)
(* --------------------------------------------------------------------- *)











(* --------------------------------------------------------------------- *)
(*  calculate_volume_indicators: OBV                                     *)
(* --------------------------------------------------------------------- *)

Lemma cumsum_from_finite (total : Q) (l : list Q) :
  cumsum_from (Fin total) (map Fin l) = map Fin (running_total total l).
Proof.
  revert total. induction l as [| x l IH]; intros total; [done |].
  cbn [map cumsum_from running_total is_nan fadd]. by rewrite IH.
Qed.

Lemma running_total_length (total : Q) (l : list Q) :
  length (running_total total l) = length l.
Proof.
  revert total. induction l as [| x l IH]; intros total; [done |].
  cbn. by rewrite IH.
Qed.

Lemma running_total_step (total : Q) (l : list Q) (i : nat) (x y v : Q) :
  running_total total l !! i = Some x ->
  running_total total l !! S i = Some y ->
  l !! S i = Some v ->
  y = x + v.
Proof.
  revert total i. induction l as [| a l IH]; intros total i Hx Hy Hv; [done |].
  destruct i as [| i].
  - cbn in Hx, Hy, Hv. destruct l as [| b l]; [done |].
    cbn in Hy, Hv. by simplify_eq.
  - cbn in Hx, Hy, Hv. by eapply IH.
Qed.

Lemma running_total_head (total : Q) (l : list Q) (x v : Q) :
  running_total total l !! 0%nat = Some x -> l !! 0%nat = Some v ->
  x = total + v.
Proof. destruct l; cbn; [done |]. by intros [= <-] [= <-]. Qed.

Lemma up_volume_zip (rest prev volumes : list Q) :
  zip_with (fun change volume =>
              fmul (Fin (if fgt change (Fin 0) then 1 else 0)) volume)
           (zip_with fsub (map Fin rest) (map Fin prev)) (map Fin volumes)
  = map Fin (zip_with (fun change volume =>
                         (if Qltb 0 change then 1 else 0) * volume)
                      (zip_with Qminus rest prev) volumes).
Proof.
  revert prev volumes.
  induction rest as [| c rest IH]; intros prev volumes; [done |].
  destruct prev as [| p prev]; [done |].
  destruct volumes as [| v volumes]; [done |].
  cbn [map zip_with fsub fneg fadd fgt flt fmul]. f_equal. apply IH.
Qed.

(* The volume of the days that closed above the day before. *)
Lemma up_day_volume_finite (df : DataFrame) (closes volumes : list Q) :
  map row_close (rows df) = map Fin closes ->
  map row_volume (rows df) = map Fin volumes ->
  up_day_volume df
  = map Fin (zip_with (fun change volume =>
                         (if Qltb 0 change then 1 else 0) * volume)
                      (price_changes closes) volumes).
Proof.
  intros Hc Hv. unfold up_day_volume. rewrite Hc, Hv. clear Hc Hv.
  destruct closes as [| c closes]; [done |].
  unfold diff, price_changes. cbn [map].
  destruct volumes as [| v volumes]; [done |].
  cbn [zip_with map fgt flt fmul]. f_equal.
  apply (up_volume_zip closes (c :: closes) volumes).
Qed.

Lemma price_changes_lookup (prices : list Q) (i : nat) (previous price : Q) :
  prices !! i = Some previous -> prices !! S i = Some price ->
  price_changes prices !! S i = Some (price - previous).
Proof.
  intros Hp Hc. destruct prices as [| p0 rest]; [done |].
  change (price_changes (p0 :: rest) !! S i)
    with (zip_with Qminus rest (p0 :: rest) !! i).
  rewrite lookup_zip_with. change ((p0 :: rest) !! S i) with (rest !! i) in Hc.
  by rewrite Hc, Hp.
Qed.

(** X16.  The OBV column of calculate_volume_indicators, on a frame of
    finite closes and volumes that are not negative: it starts at 0,
    grows by the volume of a row that closes above the row before, and
    stays where it is on every other row.  It never decreases (the
    volume of a falling day is not subtracted). *)
Theorem obv_adds_up_days (df : DataFrame) (closes volumes : list Q) :
  map row_close (rows df) = map Fin closes ->
  map row_volume (rows df) = map Fin volumes ->
  Forall (fun volume => 0 <= volume) volumes ->
  exists obv : list Q,
    get_num (calculate_volume_indicators df) "OBV" = Some (map Fin obv)
    /\ length obv = length (rows df)
    /\ (forall first, obv !! 0%nat = Some first -> first == 0)
    /\ (forall i x y previous close volume,
          obv !! i = Some x -> obv !! S i = Some y ->
          closes !! i = Some previous -> closes !! S i = Some close ->
          volumes !! S i = Some volume ->
          y == x + (if Qltb previous close then volume else 0))
    /\ (forall i x y, obv !! i = Some x -> obv !! S i = Some y -> x <= y).
Proof.
  intros Hc Hv Hpos.
  assert (Hl1 : length closes = length (rows df))
    by (rewrite <- (length_map Fin closes), <- Hc; apply length_map).
  assert (Hl2 : length volumes = length (rows df))
    by (rewrite <- (length_map Fin volumes), <- Hv; apply length_map).
  set (ups := zip_with (fun change volume =>
                          (if Qltb 0 change then 1 else 0) * volume)
                       (price_changes closes) volumes).
  assert (Hups : length ups = length (rows df)).
  { unfold ups. rewrite length_zip_with, price_changes_length. lia. }
  exists (running_total 0 ups).
  assert (Hcol : get_num (calculate_volume_indicators df) "OBV"
                 = Some (map Fin (running_total 0 ups))).
  { unfold calculate_volume_indicators, get_num, set_str, set_num.
    cbn [computed rows]. rewrite lookup_insert_ne by discriminate.
    rewrite lookup_insert_eq. f_equal.
    rewrite lookup_insert_eq. cbn [default].
    rewrite (up_day_volume_finite df closes volumes Hc Hv). fold ups.
    unfold id.
    rewrite (align_same_length _ (map Fin ups))
      by (rewrite length_map; exact Hups).
    unfold cumsum. rewrite cumsum_from_finite.
    apply align_same_length.
    rewrite length_map, running_total_length. exact Hups. }
  assert (Hstep : forall i x y previous close volume,
             running_total 0 ups !! i = Some x ->
             running_total 0 ups !! S i = Some y ->
             closes !! i = Some previous -> closes !! S i = Some close ->
             volumes !! S i = Some volume ->
             y == x + (if Qltb previous close then volume else 0)).
  { intros i x y previous close volume Hx Hy Hp Hcl Hvol.
    assert (Hup : ups !! S i
                  = Some ((if Qltb 0 (close - previous) then 1 else 0) * volume)).
    { unfold ups. rewrite lookup_zip_with, Hvol.
      by rewrite (price_changes_lookup closes i previous close Hp Hcl). }
    rewrite (running_total_step 0 ups i x y _ Hx Hy Hup).
    destruct (Qltb 0 (close - previous)) eqn:E1;
      destruct (Qltb previous close) eqn:E2; qprop; lra. }
  split; [exact Hcol |].
  split; [by rewrite running_total_length |].
  split.
  { intros first Hfirst.
    destruct ups as [| u rest] eqn:Eu; [done |].
    cbn in Hfirst. injection Hfirst as <-.
    unfold ups in Eu. unfold price_changes in Eu.
    destruct closes as [| c0 cs]; [done |].
    destruct volumes as [| v0 vs]; [done |].
    cbn in Eu. injection Eu as <- _. change (Qltb 0 0) with false. lra. }
  split; [exact Hstep |].
  intros i x y Hx Hy.
  assert (Hi : (S i < length (rows df))%nat).
  { apply lookup_lt_Some in Hy. rewrite running_total_length in Hy. lia. }
  destruct (lookup_lt_is_Some_2 closes i ltac:(lia)) as [previous Hp].
  destruct (lookup_lt_is_Some_2 closes (S i) ltac:(lia)) as [close Hcl].
  destruct (lookup_lt_is_Some_2 volumes (S i) ltac:(lia)) as [volume Hvol].
  rewrite (Hstep i x y previous close volume Hx Hy Hp Hcl Hvol).
  assert (0 <= volume).
  { rewrite List.Forall_forall in Hpos. apply Hpos.
    apply list_elem_of_In. by eapply list_elem_of_lookup_2. }
  destruct (Qltb previous close); lra.
Qed.

Lemma obv_adds_up_days_witness :
  exists obv : list Q,
    get_num (calculate_volume_indicators
               (get_ohlcv_dataframe rising_exchange the_market 3)) "OBV"
    = Some (map Fin obv)
    /\ forall i x y, obv !! i = Some x -> obv !! S i = Some y -> x <= y.
Proof.
  destruct (obv_adds_up_days
              (get_ohlcv_dataframe rising_exchange the_market 3)
              [110; 100; 100] [1000; 1000; 1000])
    as (obv & Hobv & _ & _ & _ & Hmono);
    [reflexivity | reflexivity | repeat constructor; discriminate |].
  exists obv. split; [exact Hobv | exact Hmono].
Defined.

(* --------------------------------------------------------------------- *)
(*  get_trading_signals                                                  *)
(* --------------------------------------------------------------------- *)

(** X17.  The overall signal of get_trading_signals depends on the RSI,
    MACD, Bollinger and stochastic labels only: the volume label
    ("normal", "high" or "low") is never counted.  It is "strong_buy"
    with three or more bullish labels and "buy" with exactly two,
    whatever the bearish labels are; "strong_sell", "sell" and "hold"
    need at most one bullish label. *)
Theorem get_trading_signals_overall (df : DataFrame)
  (rsi macd bollinger stochastic : string) (ratio : fval) :
  let counted := [rsi; macd; bollinger; stochastic] in
  let bullish := length (List.filter is_bullish_signal counted) in
  let bearish := length (List.filter is_bearish_signal counted) in
  latest_label df "RSI_signal" = Some rsi ->
  latest_label df "MACD_trend" = Some macd ->
  latest_label df "BB_signal" = Some bollinger ->
  latest_label df "Stoch_signal" = Some stochastic ->
  latest_label df "Volume_signal" = Some (volume_signal ratio) ->
  exists overall,
    get_trading_signals df !! "overall" = Some overall
    /\ (overall = "strong_buy" <-> (3 <= bullish)%nat)
    /\ (overall = "buy" <-> bullish = 2%nat)
    /\ (overall = "strong_sell" <-> (bullish <= 1)%nat /\ (3 <= bearish)%nat)
    /\ (overall = "sell" <-> (bullish <= 1)%nat /\ bearish = 2%nat)
    /\ (overall = "hold" <-> (bullish <= 1)%nat /\ (bearish <= 1)%nat).
Proof.
  cbn zeta. intros H1 H2 H3 H4 H5. unfold get_trading_signals.
  rewrite H1, H2, H3, H4, H5. cbn [mbind option_bind try_except default].
  assert (Hvolume : is_bullish_signal (volume_signal ratio) = false
                    /\ is_bearish_signal (volume_signal ratio) = false).
  { unfold volume_signal. destruct (flt ratio (Fin 0.5)); [done |].
    by destruct (fgt ratio (Fin 2)). }
  destruct Hvolume as [Hv1 Hv2].
  cbn [List.filter]. rewrite Hv1, Hv2.
  destruct (is_bullish_signal rsi), (is_bullish_signal macd),
    (is_bullish_signal bollinger), (is_bullish_signal stochastic),
    (is_bearish_signal rsi), (is_bearish_signal macd),
    (is_bearish_signal bollinger), (is_bearish_signal stochastic);
    cbn [length Nat.leb];
    (eexists; split; [by simplify_map_eq |]);
    repeat split; intros; try lia; try done; try discriminate;
    try (exfalso; lia).
Qed.

(* Two signals to buy and two to sell: the answer is "buy". *)
Lemma get_trading_signals_overall_witness :
  get_trading_signals
    (set_str (set_str (set_str (set_str (set_str one_row
       "RSI_signal" ["oversold"]) "MACD_trend" ["bullish"])
       "BB_signal" ["overbought"]) "Stoch_signal" ["overbought"])
       "Volume_signal" ["high"]) !! "overall"
  = Some "buy".
Proof.
  destruct (get_trading_signals_overall
              (set_str (set_str (set_str (set_str (set_str one_row
                 "RSI_signal" ["oversold"]) "MACD_trend" ["bullish"])
                 "BB_signal" ["overbought"]) "Stoch_signal" ["overbought"])
                 "Volume_signal" ["high"])
              "oversold" "bullish" "overbought" "overbought" (Fin 3))
    as (overall & Ho & _ & Hbuy & _);
    [vm_compute; reflexivity | vm_compute; reflexivity | vm_compute; reflexivity
    | vm_compute; reflexivity | vm_compute; reflexivity |].
  rewrite Ho. f_equal. apply Hbuy. reflexivity.
Defined.
